(** * crispy: the CRISP observation wrappers and the inversion result

    A shallow embedding of [crispy/crisp.py] (classes [CRISP] and
    [CRISPSequence]) and of [crisPy2/inversions.py] (class [Inversion]).

    Python objects become records, attributes that may be absent become
    options, exceptions become the [Raise] case of [res], and the methods that
    assign to [self] become functions in a state-and-exception monad.  The
    libraries the wrappers forward to (numpy, astropy, zarr, h5py, matplotlib
    and the helpers of [crispy.utils] and [crispy.crisp_plotting]) are the
    fields of the class [Extern]; a small integer implementation of it,
    [stub], is used to run the definitions on concrete inputs. *)

From Stdlib Require Import ZArith String Ascii Bool Lia.
From stdpp Require Import base option list strings pretty gmap fin_maps.

Local Open Scope string_scope.
Local Open Scope Z_scope.

(** ** Exceptions and results *)

Inductive exn : Type :=
  | NotImplementedError (msg : string)
  | IndexError (msg : string)
  | ValueError (msg : string)
  | KeyError (key : string)
  | AttributeError (attr : string)
  | TypeError (what : string)
  | NameError (name : string)
  | AssertionError
  | LibraryError (what : string).

Inductive res (A : Type) : Type :=
  | Ok (a : A)
  | Raise (e : exn).
Arguments Ok {A} a.
Arguments Raise {A} e.

#[global] Instance res_ret : MRet res := @Ok.
#[global] Instance res_bind : MBind res :=
  λ A B f r, match r with Ok a => f a | Raise e => Raise e end.
#[global] Instance res_fmap : FMap res :=
  λ A B f r, match r with Ok a => Ok (f a) | Raise e => Raise e end.

Definition is_Ok {A} (r : res A) : Prop := ∃ a, r = Ok a.
Definition raises {A} (r : res A) : Prop := ∃ e, r = Raise e.

(** [try: body except KeyError: handler] *)
Definition try_except_KeyError {A} (body handler : res A) : res A :=
  match body with
  | Raise (KeyError _) => handler
  | r => r
  end.

(** [[f(x) for x in xs]]: the elements are evaluated in order and the first
    exception aborts the comprehension. *)
Fixpoint comprehension {A B} (f : A → res B) (xs : list A) : res (list B) :=
  match xs with
  | [] => Ok []
  | x :: rest => y ← f x; ys ← comprehension f rest; Ok (y :: ys)
  end.

(** ** Methods that assign to [self]

    A method body runs on the current object and leaves an object behind,
    also when it raises: the assignments made before the exception stay. *)

Definition M (S A : Type) : Type := S → res A * S.

Definition ret_M {S A} (x : A) : M S A := λ s, (Ok x, s).
Definition bind_M {S A B} (m : M S A) (k : A → M S B) : M S B :=
  λ s, match m s with
       | (Ok x, s') => k x s'
       | (Raise e, s') => (Raise e, s')
       end.
Definition get {S} : M S S := λ s, (Ok s, s).
Definition put {S} (s : S) : M S () := λ _, (Ok (), s).
Definition modify {S} (f : S → S) : M S () := λ s, (Ok (), f s).
(** a computation that only reads: [r] is evaluated on the current object *)
Definition reading {S A} (r : S → res A) : M S A := λ s, (r s, s).
Definition raise_M {S A} (e : exn) : M S A := λ s, (Raise e, s).

Notation "'do' x <- m ; k" := (bind_M m (λ x, k))
  (at level 10, x name, m at level 100, k at level 200, only parsing).
Notation "'do' ' p <- m ; k" := (bind_M m (λ x, match x with p => k end))
  (at level 10, p strict pattern, m at level 100, k at level 200, only parsing).

(** [for x in xs: body(x)] *)
Fixpoint for_each {S A} (xs : list A) (body : A → M S ()) : M S () :=
  match xs with
  | [] => ret_M ()
  | x :: rest => do _ <- body x; for_each rest body
  end.

(** ** Python strings and sequences

    Strings are sequences of bytes here; the strings the source compares,
    slices and measures (file names, header dates, Stokes letters) are
    ASCII. *)

(** [sub in s] *)
Fixpoint contains (sub s : string) : bool :=
  String.prefix sub s ||
  match s with
  | EmptyString => false
  | String _ rest => contains sub rest
  end.

(** [s[-n:]] *)
Definition str_last (n : nat) (s : string) : string :=
  String.substring (String.length s - n) n s.

(** [s[:-n]] for [0 < n] *)
Definition str_drop_last (n : nat) (s : string) : string :=
  String.substring 0 (String.length s - n) s.

(** [l[-n:]] and [l[:-n]] on lists, and [l[-k]] *)
Definition list_last {A} (n : nat) (l : list A) : list A :=
  drop (length l - n) l.
Definition list_drop_last {A} (n : nat) (l : list A) : list A :=
  take (length l - n) l.
Definition neg_index {A} (k : nat) (l : list A) : option A :=
  if decide (0 < k ≤ length l)%nat then l !! (length l - k)%nat else None.

(** [sep.join(parts)] *)
Fixpoint join (sep : string) (parts : list string) : string :=
  match parts with
  | [] => ""
  | [p] => p
  | p :: rest => p ++ sep ++ join sep rest
  end.

(** [[s for s in text]]: the one-character strings of [text] *)
Fixpoint chars (text : string) : list string :=
  match text with
  | EmptyString => []
  | String c rest => String c EmptyString :: chars rest
  end.

(** Header values: FITS cards and Zarr attributes hold strings, numbers and
    sequences of them.  [num] is the host's number type. *)
#[warnings="-register-all"]
Inductive pyval (num : Type) : Type :=
  | VStr (s : string)
  | VNum (x : num)
  | VSeq (l : list (pyval num)).
Arguments VStr {num} s.
Arguments VNum {num} x.
Arguments VSeq {num} l.


(** [str(v)] and [repr(v)]; an f-string field [{v}] formats with [str].
    [str_num] prints a number and [repr_str] quotes a string: both are the
    host's. *)
Section PyStr.
Context {num : Type} (str_num : num → string) (repr_str : string → string).

Fixpoint py_repr (v : pyval num) : string :=
  match v with
  | VStr s => repr_str s
  | VNum x => str_num x
  | VSeq l => "[" ++ join ", " (map py_repr l) ++ "]"
  end.

Definition py_str (v : pyval num) : string :=
  match v with
  | VStr s => s
  | _ => py_repr v
  end.
End PyStr.

(** [v[-n:]], [v[:-n]] and [v[-k]] on a header value *)
Definition val_last {num} (n : nat) (v : pyval num) : res (pyval num) :=
  match v with
  | VStr s => Ok (VStr (str_last n s))
  | VSeq l => Ok (VSeq (list_last n l))
  | VNum _ => Raise (TypeError "object is not subscriptable")
  end.

Definition val_drop_last {num} (n : nat) (v : pyval num) : res (pyval num) :=
  match v with
  | VStr s => Ok (VStr (str_drop_last n s))
  | VSeq l => Ok (VSeq (list_drop_last n l))
  | VNum _ => Raise (TypeError "object is not subscriptable")
  end.

Definition val_neg_index {num} (k : nat) (v : pyval num) : res (pyval num) :=
  match v with
  | VStr s =>
      match neg_index k (chars s) with
      | Some c => Ok (VStr c)
      | None => Raise (IndexError "string index out of range")
      end
  | VSeq l =>
      match neg_index k l with
      | Some x => Ok x
      | None => Raise (IndexError "list index out of range")
      end
  | VNum _ => Raise (TypeError "object is not subscriptable")
  end.

(** [v + "T"] and [v + w] where the source concatenates strings *)
Definition val_add_str {num} (v : pyval num) (s : string) : res (pyval num) :=
  match v with
  | VStr t => Ok (VStr (t ++ s))
  | _ => Raise (TypeError "unsupported operand type(s) for +")
  end.

Definition val_add {num} (v w : pyval num) : res (pyval num) :=
  match v, w with
  | VStr s, VStr t => Ok (VStr (s ++ t))
  | _, _ => Raise (TypeError "unsupported operand type(s) for +")
  end.

(** ** Indices, units and world coordinates *)

(** One entry of an index expression: an integer or a slice. *)
Inductive Item : Type :=
  | IInt (i : Z)
  | ISlice (start stop step : option Z).

(** [:] *)
Definition colon : Item := ISlice None None None.

(** [isinstance(it, slice)] *)
Definition is_slice (it : Item) : bool :=
  match it with
  | ISlice _ _ _ => true
  | IInt _ => false
  end.

(** The index the slicing mixin records in [self.ind]: a bare item or a
    tuple of items. *)
Inductive Index : Type :=
  | Single (it : Item)
  | Tuple (its : list Item).

(** [ind[k]] and [ind[-k]] *)
Definition ind_get (ind : Index) (k : nat) : res Item :=
  match ind with
  | Tuple its =>
      match its !! k with
      | Some it => Ok it
      | None => Raise (IndexError "tuple index out of range")
      end
  | Single _ => Raise (TypeError "object is not subscriptable")
  end.

Definition ind_get_neg (ind : Index) (k : nat) : res Item :=
  match ind with
  | Tuple its =>
      match neg_index k its with
      | Some it => Ok it
      | None => Raise (IndexError "tuple index out of range")
      end
  | Single _ => Raise (TypeError "object is not subscriptable")
  end.

(** An argument of [array_index_to_world]: an item taken from [self.ind],
    an integer, or [np.arange(n)]. *)
Inductive PixArg : Type :=
  | PItem (it : Item)
  | PArange (n : Z).

Definition PInt (i : Z) : PixArg := PItem (IInt i).

Inductive AstroUnit : Type :=
  | arcsec
  | Angstrom
  | OtherUnit (name : string).

#[global] Instance AstroUnit_eq_dec : EqDecision AstroUnit.
Proof. solve_decision. Defined.

Section World.
Context {num : Type}.

(** The magnitude of a quantity: a scalar or a one-dimensional array. *)
Inductive mag : Type :=
  | Scalar (x : num)
  | Vector (xs : list num).

Record Quantity : Type := mkQuantity { value : mag; unit : AstroUnit }.

(** A [SkyCoord] in the [Helioprojective] frame: [Tx] and [Ty] are read in
    arcseconds, the unit the frame gives both components. *)
Record SkyCoord : Type := mkSkyCoord { Tx_arcsec : num; Ty_arcsec : num }.

Definition Tx (sc : SkyCoord) : Quantity := mkQuantity (Scalar (Tx_arcsec sc)) arcsec.
Definition Ty (sc : SkyCoord) : Quantity := mkQuantity (Scalar (Ty_arcsec sc)) arcsec.

(** What [array_index_to_world] returns: a sky coordinate for a pair of
    spatial axes, a quantity for a single axis, a list otherwise. *)
#[warnings="-register-all"]
Inductive World : Type :=
  | WSky (sc : SkyCoord)
  | WQuantity (q : Quantity)
  | WList (ws : list World).

(** [sc.Tx] and [sc.Ty] on whatever the WCS returned *)
Definition get_Tx (w : World) : res Quantity :=
  match w with
  | WSky sc => Ok (Tx sc)
  | _ => Raise (AttributeError "Tx")
  end.
Definition get_Ty (w : World) : res Quantity :=
  match w with
  | WSky sc => Ok (Ty sc)
  | _ => Raise (AttributeError "Ty")
  end.

(** [w[k]] *)
Definition world_get (w : World) (k : nat) : res World :=
  match w with
  | WList ws =>
      match ws !! k with
      | Some x => Ok x
      | None => Raise (IndexError "list index out of range")
      end
  | _ => Raise (TypeError "object is not subscriptable")
  end.

(** [x << u] for a bare number [x]: the unit is attached. *)
Definition attach (x : num) (u : AstroUnit) : Quantity := mkQuantity (Scalar x) u.

(** [SkyCoord(lon, lat, frame=Helioprojective)] for the two quantities
    [from_lonlat] passes, both in arcseconds by then. *)
Definition SkyCoord_Helioprojective (lon lat : Quantity) : res SkyCoord :=
  match value lon, value lat with
  | Scalar x, Scalar y => Ok (mkSkyCoord x y)
  | _, _ => Raise (LibraryError "array-valued coordinate")
  end.
End World.
Arguments mag : clear implicits.
Arguments Quantity : clear implicits.
Arguments SkyCoord : clear implicits.
Arguments World : clear implicits.

(** ** The libraries behind the wrappers *)

Abbreviation Header num := (gmap string (pyval num)).

(** What the two files import and call.  Every field stands for code that is
    not in [crisp.py] or [inversions.py]: the wrappers only choose which of
    these to call and with what. *)
Class Extern : Type := {
  (** numbers (numpy floats), arrays, WCS objects, open HDF5 files *)
  num : Type;
  ndarray : Type;
  WCS : Type;
  h5file : Type;
  (** builtins: [str(x)] of a number, [repr(s)] of a string *)
  str_num : num → string;
  repr_str : string → string;
  (** numpy on arrays: [a.shape], [a[idx]], [np.round(a, decimals=2)],
      [str(a)] *)
  shape : ndarray → list Z;
  getitem : ndarray → Index → res ndarray;
  np_round : ndarray → ndarray;
  str_ndarray : ndarray → string;
  (** numpy on the value of a quantity: [np.round(v, decimals=2)], [v - w],
      [str(v)] *)
  round_value : mag num → mag num;
  sub_value : mag num → mag num → res (mag num);
  str_value : mag num → string;
  (** on header values: [x * n] for a number, and
      [str(np.round(v, decimals=2))] *)
  num_mul : num → Z → num;
  str_np_round : pyval num → res string;
  (** astropy.wcs: [w.low_level_wcs.array_shape], [w.low_level_wcs._wcs],
      [w.naxis], [w[items]] and the two transforms *)
  array_shape : WCS → list Z;
  _wcs : WCS → WCS;
  naxis : WCS → Z;
  wcs_getitem : WCS → list Item → res WCS;
  array_index_to_world : WCS → list PixArg → res (World num);
  world_to_array_index : WCS → SkyCoord num → res (list Z);
  (** astropy.units and specutils: [w << u] and [vac_to_air] *)
  lshift : World num → AstroUnit → res (Quantity num);
  vac_to_air : Quantity num → res (Quantity num);
  (** astropy.io.fits, zarr, [WCS(header)], [crispy.io.zarr_header_to_wcs] *)
  fits_open : string → res (ndarray * Header num);
  zarr_open : string → res (ndarray * Header num);
  WCS_of_header : Header num → res WCS;
  zarr_header_to_wcs : Header num → bool → res WCS;
  (** h5py: [h5py.File(name, "r")], [f[key]], [f.get(key)] *)
  h5py_File : string → res h5file;
  h5_getitem : h5file → string → res ndarray;
  h5_get : h5file → string → option ndarray;
  (** crispy.utils: [rotate_crop_data(data)] and
      [reconstruct_full_frame(crop_dict, data)] *)
  rotate_crop_data : ndarray → res (ndarray * Header num);
  utils_reconstruct_full_frame : Header num → ndarray → res ndarray
}.

(** [a.ndim] *)
Definition ndim `{Extern} (a : ndarray) : nat := length (shape a).

Definition fmt `{Extern} (v : pyval num) : string := py_str str_num repr_str v.

(** [v * n] for a header value and an axis length *)
Definition val_mul `{Extern} (v : pyval num) (n : Z) : res (pyval num) :=
  match v with
  | VNum x => Ok (VNum (num_mul x n))
  | VStr s => Ok (VStr (String.concat "" (replicate (Z.to_nat n) s)))
  | VSeq l => Ok (VSeq (mjoin (replicate (Z.to_nat n) l)))
  end.

(** The four symbols [html.unescape] yields in [CRISP.__init__]. *)
Definition angstrom_sign : string := "Å".
Definition alpha_sign : string := "α".
Definition lambda_sign : string := "λ".
Definition Delta_sign : string := "Δ".
Definition nl : string := String (ascii_of_nat 10) EmptyString.

(** * [crispy/crisp.py] *)

Module Crisp.
Section Crisp.
Context `{Extern}.

(** An entry of an [ObjDict]: an array, a header mapping or a plain value. *)
Inductive pyobj : Type :=
  | OArray (arr : ndarray)
  | OHeader (h : Header num)
  | OVal (v : pyval num).

(** Modelled from the spec: [ObjDict] of [crispy.utils], the "in-memory
    dict-like container": a [dict] (the source indexes it, assigns its
    items and tests [in] on it) whose keys are also read and written as
    attributes ([self.file.data], [self.file.header]). *)
Abbreviation ObjDict := (gmap string pyobj).

(** [self.file]: the primary HDU of a FITS file, or an [ObjDict].  Both are
    plain stores here: assigning [file.data] or an item of [file.header]
    changes that entry and nothing else. *)
Inductive FileStore : Type :=
  | HDU (data : ndarray) (header : Header num)
  | Container (od : ObjDict).

(** The [filename] argument: a string, an [ObjDict], or any other object
    (named by its type). *)
Inductive Filename : Type :=
  | FStr (s : string)
  | FObjDict (od : ObjDict)
  | FOther (type_name : string).

Record CRISP : Type := mkCRISP {
  file : FileStore;
  wcs : option WCS;
  nonu : bool;
  uncertainty : option ndarray;
  mask : option ndarray;
  aa : string;
  a : string;
  l : string;
  D : string;
  rotate : bool;
  (** the three attributes below are absent until they are set: [ind] by
      the slicing mixin, [full_frame] by [rotate_crop], [rot_data] by
      [reconstruct_full_frame] *)
  ind : option Index;
  full_frame : option ndarray;
  rot_data : option ndarray
}.

(** [file.data] and [file.header] *)
Definition file_data (fs : FileStore) : res pyobj :=
  match fs with
  | HDU d _ => Ok (OArray d)
  | Container od =>
      match od !! "data" with
      | Some o => Ok o
      | None => Raise (AttributeError "No such attribute: data")
      end
  end.

Definition file_header (fs : FileStore) : res pyobj :=
  match fs with
  | HDU _ h => Ok (OHeader h)
  | Container od =>
      match od !! "header" with
      | Some o => Ok o
      | None => Raise (AttributeError "No such attribute: header")
      end
  end.

(** The [data] property: [self.file.data[...]] *)
Definition data (self : CRISP) : res ndarray :=
  o ← file_data (file self);
  match o with
  | OArray arr => Ok arr
  | OHeader _ => Raise (KeyError "Ellipsis")
  | OVal _ => Raise (TypeError "object is not subscriptable")
  end.

(** The [header] property: [dict(self.file.header)], a copy *)
Definition header (self : CRISP) : res (Header num) :=
  o ← file_header (file self);
  match o with
  | OHeader h => Ok h
  | _ => Raise (TypeError "object is not a mapping")
  end.

(** [self.header[key]] *)
Definition header_get (self : CRISP) (key : string) : res (pyval num) :=
  h ← header self;
  match h !! key with
  | Some v => Ok v
  | None => Raise (KeyError key)
  end.

(** [sub in filename] *)
Definition in_filename (sub : string) (filename : Filename) : res bool :=
  match filename with
  | FStr s => Ok (contains sub s)
  | FObjDict od => Ok (bool_decide (is_Some (od !! sub)))
  | FOther _ => Raise (TypeError "argument is not iterable")
  end.

Definition crop_keys : list string :=
  ["frame_dims"; "x_min"; "x_max"; "y_min"; "y_max"; "angle"].

Definition __init__ (filename : Filename) (wcs : option WCS)
    (uncertainty mask : option ndarray) (nonu : bool) : res CRISP :=
  file ←
    match filename with
    | FStr s =>
        if contains ".fits" s then
          '(d, h) ← fits_open s; Ok (HDU d h)
        else if contains ".zarr" s then
          '(d, h) ← zarr_open s;
          Ok (Container (<["header" := OHeader h]> (<["data" := OArray d]> ∅)))
        else Raise (NotImplementedError "m8 y?")
    | FObjDict od => Ok (Container od)
    | FOther _ => Raise (NotImplementedError "m8 y?")
    end;
  let partial := mkCRISP file wcs nonu uncertainty mask "" "" "" "" false None None None in
  is_fits ← (if wcs is None then in_filename ".fits" filename else Ok false);
  w ←
    (if (is_fits : bool) then
       o ← file_header file;
       match o with
       | OHeader h => Some <$> WCS_of_header h
       | _ => Raise (LibraryError "WCS: not a header")
       end
     else
       is_zarr ← (if wcs is None then in_filename ".zarr" filename else Ok false);
       if (is_zarr : bool) then
         h ← header partial; Some <$> zarr_header_to_wcs h nonu
       else Ok wcs);
  h ← header partial;
  Ok {| file := file; wcs := w; nonu := nonu;
        uncertainty := uncertainty; mask := mask;
        aa := angstrom_sign; a := alpha_sign; l := lambda_sign; D := Delta_sign;
        rotate := forallb (λ x, bool_decide (is_Some (h !! x))) crop_keys;
        ind := None; full_frame := None; rot_data := None |}.

(** The [shape] property *)
Definition shape_of (self : CRISP) : res (list Z) := shape <$> data self.

(** [self.shape[-k]] *)
Definition shape_neg (self : CRISP) (k : nat) : res Z :=
  sh ← shape_of self;
  match neg_index k sh with
  | Some n => Ok n
  | None => Raise (IndexError "tuple index out of range")
  end.

(** [self.wcs.<attr>]: [None] has no attributes *)
Definition wcs_obj (self : CRISP) : res WCS :=
  match wcs self with
  | Some w => Ok w
  | None => Raise (AttributeError "'NoneType' object has no attribute 'low_level_wcs'")
  end.

(** [self.ind] where the source reads it without [hasattr] *)
Definition ind_attr (self : CRISP) : res Index :=
  match ind self with
  | Some i => Ok i
  | None => Raise (AttributeError "'CRISP' object has no attribute 'ind'")
  end.

Definition pad : string := "        ".

(** [f"NAXIS{j+1}" for j in reversed(range(n))] *)
Definition naxis_keys (n : nat) : list string :=
  map (λ j : nat, "NAXIS" ++ pretty (S j)) (rev (seq 0 n)).

(** The f-string [__str__] returns *)
Definition summary (aa date time el cl wwidth pointing_x pointing_y shape : string) : string :=
  nl ++ pad ++ "CRISP Observation" ++ nl
  ++ pad ++ "------------------" ++ nl
  ++ pad ++ date ++ " " ++ time ++ nl
  ++ nl
  ++ pad ++ "Observed: " ++ el ++ nl
  ++ pad ++ "Centre wavelength [" ++ aa ++ "]: " ++ cl ++ nl
  ++ pad ++ "Wavelengths sampled: " ++ wwidth ++ nl
  ++ pad ++ "Pointing [arcsec] (HPLN, HPLT): (" ++ pointing_x ++ ", " ++ pointing_y ++ ")" ++ nl
  ++ pad ++ "Shape: " ++ shape.

Definition __str__ (self : CRISP) : res string :=
  '(time, date, cl, wwidth, shape, el, pointing_x, pointing_y) ←
    try_except_KeyError
      (v ← header_get self "DATE-AVG"; time ← val_last 12 v;
       v ← header_get self "DATE-AVG"; date ← val_drop_last 13 v;
       v ← header_get self "TWAVE1"; cl ← str_np_round v;
       wwidth ← header_get self "WWIDTH1";
       arr ← data self;
       dims ← comprehension (header_get self) (naxis_keys (ndim arr));
       el ← header_get self "WDESC1";
       px ← header_get self "CRVAL1";
       py ← header_get self "CRVAL2";
       Ok (fmt time, fmt date, cl, fmt wwidth, fmt (VSeq dims), fmt el, fmt px, fmt py))
      (time ← header_get self "time_obs";
       date ← header_get self "date_obs";
       v ← header_get self "crval"; cl ← val_neg_index 3 v;
       v ← header_get self "dimensions"; wwidth ← val_neg_index 3 v;
       shape ← header_get self "dimensions";
       el ← header_get self "element";
       v ← header_get self "crval"; px ← val_neg_index 1 v;
       v ← header_get self "crval"; py ← val_neg_index 2 v;
       Ok (fmt time, fmt date, fmt cl, fmt wwidth, fmt shape, fmt el, fmt px, fmt py));
  Ok (summary (aa self) date time el cl wwidth pointing_x pointing_y shape).

(** The [info] property *)
Definition info (self : CRISP) : res string := __str__ self.

(** The [time] and [date] properties *)
Definition time (self : CRISP) : res (pyval num) :=
  try_except_KeyError
    (v ← header_get self "DATE-AVG"; val_last 12 v)
    (header_get self "time_obs").

Definition date (self : CRISP) : res (pyval num) :=
  try_except_KeyError
    (v ← header_get self "DATE-AVG"; val_drop_last 13 v)
    (header_get self "date_obs").

(** *** Rotation and cropping *)

(** [self.file.header[k] = v] *)
Definition set_header_item (k : string) (v : pyval num) : M CRISP () :=
  do self <- get;
  match file self with
  | HDU d h => put (mkCRISP (HDU d (<[k := v]> h)) (wcs self) (nonu self)
                      (uncertainty self) (mask self) (aa self) (a self) (l self) (D self)
                      (rotate self) (ind self) (full_frame self) (rot_data self))
  | Container od =>
      match od !! "header" with
      | Some (OHeader h) =>
          put (mkCRISP (Container (<["header" := OHeader (<[k := v]> h)]> od))
                 (wcs self) (nonu self)
                 (uncertainty self) (mask self) (aa self) (a self) (l self) (D self)
                 (rotate self) (ind self) (full_frame self) (rot_data self))
      | Some _ => raise_M (TypeError "object does not support item assignment")
      | None => raise_M (AttributeError "No such attribute: header")
      end
  end.

(** [self.file.data = arr] *)
Definition set_file_data (arr : ndarray) : M CRISP () :=
  modify (λ self,
    let file' := match file self with
                 | HDU _ h => HDU arr h
                 | Container od => Container (<["data" := OArray arr]> od)
                 end in
    mkCRISP file' (wcs self) (nonu self)
      (uncertainty self) (mask self) (aa self) (a self) (l self) (D self)
      (rotate self) (ind self) (full_frame self) (rot_data self)).

(** [self.full_frame = arr], [self.rot_data = arr], [self.rotate = b] *)
Definition set_full_frame (arr : ndarray) : M CRISP () :=
  modify (λ self,
    mkCRISP (file self) (wcs self) (nonu self)
      (uncertainty self) (mask self) (aa self) (a self) (l self) (D self)
      (rotate self) (ind self) (Some arr) (rot_data self)).

Definition set_rot_data (arr : ndarray) : M CRISP () :=
  modify (λ self,
    mkCRISP (file self) (wcs self) (nonu self)
      (uncertainty self) (mask self) (aa self) (a self) (l self) (D self)
      (rotate self) (ind self) (full_frame self) (Some arr)).

Definition set_rotate (b : bool) : M CRISP () :=
  modify (λ self,
    mkCRISP (file self) (wcs self) (nonu self)
      (uncertainty self) (mask self) (aa self) (a self) (l self) (D self)
      b (ind self) (full_frame self) (rot_data self)).

Definition rotate_crop (sep : bool) : M CRISP (option (ndarray * Header num)) :=
  if sep then
    do arr <- reading data;
    do r <- reading (λ _, rotate_crop_data arr);
    ret_M (Some r)
  else
    do arr <- reading data;
    do _ <- set_full_frame arr;
    do arr <- reading data;
    do '(crop, crop_dict) <- reading (λ _, rotate_crop_data arr);
    do _ <- for_each (map_to_list crop_dict) (λ kv, set_header_item kv.1 kv.2);
    do _ <- set_file_data crop;
    do _ <- set_rotate true;
    ret_M None.

Definition reconstruct_full_frame (sep : bool) : M CRISP (option ndarray) :=
  do h <- reading header;
  do _ <- (if bool_decide (is_Some (h !! "frame_dims")) then ret_M () else raise_M AssertionError);
  do items <- reading (λ self,
                comprehension (λ k, v ← header_get self k; Ok (k, v)) crop_keys);
  let crop_dict : Header num := list_to_map items in
  if sep then
    do arr <- reading data;
    do full <- reading (λ _, utils_reconstruct_full_frame crop_dict arr);
    ret_M (Some full)
  else
    do arr <- reading data;
    do _ <- set_rot_data arr;
    do arr <- reading data;
    do full <- reading (λ _, utils_reconstruct_full_frame crop_dict arr);
    do _ <- set_file_data full;
    do _ <- set_rotate false;
    ret_M None.

(** *** Wavelengths *)

Definition wave (self : CRISP) (idx : PixArg) : res (Quantity num) :=
  w ← wcs_obj self;
  let rank := length (array_shape w) in
  if decide (rank = 4%nat) then
    match ind self with
    | Some i =>
        i1 ← ind_get i 1;
        if is_slice i1 then
          sub ← wcs_getitem (_wcs w) [IInt 0; i1; IInt 0; IInt 0];
          world ← array_index_to_world sub [idx];
          lshift world Angstrom
        else
          sub ← wcs_getitem (_wcs w) [IInt 0; colon; IInt 0; IInt 0];
          world ← array_index_to_world sub [idx];
          lshift world Angstrom
    | None =>
        sub ← wcs_getitem w [IInt 0; colon; IInt 0; IInt 0];
        world ← array_index_to_world sub [idx];
        lshift world Angstrom
    end
  else if decide (rank = 3%nat) then
    if bool_decide (is_Some (ind self)) && bool_decide (naxis (_wcs w) = 4) then
      i ← ind_attr self;
      i1 ← ind_get i 1;
      if is_slice i1 then
        sub ← wcs_getitem (_wcs w) [IInt 0; i1; IInt 0; IInt 0];
        world ← array_index_to_world sub [idx];
        lshift world Angstrom
      else
        sub ← wcs_getitem (_wcs w) [IInt 0; colon; IInt 0; IInt 0];
        world ← array_index_to_world sub [idx];
        lshift world Angstrom
    else
      match ind self with
      | Some i =>
          i0 ← ind_get i 0;
          if is_slice i0 then
            sub ← wcs_getitem (_wcs w) [i0; IInt 0; IInt 0];
            world ← array_index_to_world sub [idx];
            lshift world Angstrom
          else
            sub ← wcs_getitem (_wcs w) [colon; IInt 0; IInt 0];
            world ← array_index_to_world sub [idx];
            lshift world Angstrom
      | None =>
          world ← array_index_to_world w [idx; PInt 0; PInt 0];
          comp ← world_get world 1;
          lshift comp Angstrom
      end
  else if decide (rank = 2%nat) then
    match ind self with
    | Some _ =>
        if decide (naxis (_wcs w) = 4) then
          sub ← wcs_getitem (_wcs w) [IInt 0; colon; IInt 0; IInt 0];
          world ← array_index_to_world sub [idx];
          lshift world Angstrom
        else if decide (naxis (_wcs w) = 3) then
          sub ← wcs_getitem (_wcs w) [colon; IInt 0; IInt 0];
          world ← array_index_to_world sub [idx];
          lshift world Angstrom
        else Raise (IndexError "There is no spectral component to your data.")
    | None => Raise (IndexError "There is no spectral component to your data.")
    end
  else if decide (rank = 1%nat) then
    world ← array_index_to_world w [idx];
    lshift world Angstrom
  else
    Raise (NotImplementedError
      "This is way too many dimensions for me to handle. I am but a three-dimensional being.").

(** The [wvls] property: [self.wave(np.arange(self.shape[-3]))] *)
Definition wvls (self : CRISP) : res (Quantity num) :=
  n ← shape_neg self 3; wave self (PArange n).

(** *** Coordinate conversion *)

(** The four branches on [self.ind[-2]] and [self.ind[-1]] that choose the
    slice of the unsliced WCS; [lead] are the leading zeros. *)
Definition spatial_slice (w : WCS) (i : Index) (lead : list Item) : res WCS :=
  i2 ← ind_get_neg i 2;
  if is_slice i2 then
    i1 ← ind_get_neg i 1;
    if is_slice i1 then wcs_getitem (_wcs w) (lead ++ [i2; i1])
    else wcs_getitem (_wcs w) (lead ++ [i2])
  else
    i1 ← ind_get_neg i 1;
    if is_slice i1 then wcs_getitem (_wcs w) (lead ++ [colon; i1])
    else wcs_getitem (_wcs w) lead.

(** The WCS that [to_lonlat] and [from_lonlat] query.  The source spells
    this table out four times (lines 657-736, 739-833, 835-929 and
    955-1024) with the same conditions and the same slices. *)
Definition lonlat_wcs (self : CRISP) : res WCS :=
  w ← wcs_obj self;
  let rank := length (array_shape w) in
  if decide (rank = 4%nat) then
    match ind self with
    | Some i => spatial_slice w i [IInt 0; IInt 0]
    | None => wcs_getitem w [IInt 0; IInt 0]
    end
  else if decide (rank = 3%nat) then
    if bool_decide (is_Some (ind self)) && bool_decide (naxis (_wcs w) = 4) then
      i ← ind_attr self;
      spatial_slice w i [IInt 0; IInt 0]
    else
      match ind self with
      | Some i => spatial_slice w i [IInt 0]
      | None => wcs_getitem w [IInt 0]
      end
  else if decide (rank = 2%nat) then Ok w
  else Raise (NotImplementedError "Too many or too little dimensions.").

(** What [to_lonlat] returns for its three settings of [coord] and [unit]. *)
Inductive LonLat : Type :=
  | AsCoord (sc : World num)
  | AsQuantities (tx ty : Quantity num)
  | AsValues (tx ty : mag num).

Definition to_lonlat (self : CRISP) (y x : Z) (coord unit : bool) : res LonLat :=
  if coord then
    w ← lonlat_wcs self;
    sc ← array_index_to_world w [PInt y; PInt x];
    Ok (AsCoord sc)
  else if unit then
    w ← lonlat_wcs self;
    sc ← array_index_to_world w [PInt y; PInt x];
    tx ← get_Tx sc; ty ← get_Ty sc;
    Ok (AsQuantities tx ty)
  else
    w ← lonlat_wcs self;
    sc ← array_index_to_world w [PInt y; PInt x];
    tx ← get_Tx sc; ty ← get_Ty sc;
    Ok (AsValues (value tx) (value ty)).

Definition from_lonlat (self : CRISP) (lon lat : num) : res (list Z) :=
  let lon := attach lon arcsec in
  let lat := attach lat arcsec in
  sc ← SkyCoord_Helioprojective lon lat;
  w ← lonlat_wcs self;
  world_to_array_index w sc.

(** *** Plotting

    A plotting method ends in one call into [crispy.crisp_plotting]; the
    call and its arguments are what the method returns here, [None] when
    it returns without calling anything. *)

Inductive PlotCall : Type :=
  | plot_single_spectrum (wavelength : Quantity num) (data : ndarray)
      (title y_label : string) (d : bool)
  | plot_multi_component_spectrum (components : list string)
      (wavelength : Quantity num) (data : ndarray) (title : string) (d : bool)
  | plot_single_frame (self : CRISP) (frame title : string) (cb_label : option string)
      (extent : option (pyval num * pyval num)) (norm : option (Z * Z))
      (map_negative_nan : bool)
  | plot_multi_frame (self : CRISP) (components : list string) (frame : string)
      (extent : option (pyval num * pyval num)).

Definition stokes_components : list string := ["I"; "Q"; "U"; "V"].

(** [stokes in stokes_components] and
    [all(s in stokes_components for s in stokes)] *)
Definition is_component (s : string) : bool := bool_decide (s ∈ stokes_components).
Definition all_components (stokes : string) : bool := forallb is_component (chars stokes).

Definition y_labels (stokes : string) : string := stokes ++ " [DNs]".

(** [datetime] as every plotting method reads it *)
Definition datetime_of (self : CRISP) : res (pyval num) :=
  try_except_KeyError
    (header_get self "DATE-AVG")
    (d0 ← header_get self "date_obs";
     d1 ← val_add_str d0 "T";
     t ← header_get self "time_obs";
     val_add d1 t).

(** [datetime] and [el] for the title of [_plot_stokes] (lines 346-351) *)
Definition plot_stokes_labels (self : CRISP) : res (pyval num * pyval num) :=
  try_except_KeyError
    (datetime ← header_get self "DATE-AVG";
     el ← header_get self "WDESC1";
     Ok (datetime, el))
    (d0 ← header_get self "date_obs";
     d1 ← val_add_str d0 "T";
     t ← header_get self "time_obs";
     datetime ← val_add d1 t;
     el ← header_get self "element";
     Ok (datetime, el)).

(** [wavelength <<= unit] and [vac_to_air] (lines 361-365) *)
Definition plot_stokes_wavelength (wavelength : Quantity num)
    (unit : option AstroUnit) (air : bool) : res (Quantity num) :=
  wavelength ←
    match unit with
    | Some u => lshift (WQuantity wavelength) u
    | None => Ok wavelength
    end;
  if air then vac_to_air wavelength else Ok wavelength.

Definition not_a_Stokes (stokes : string) : exn :=
  ValueError ("This (" ++ stokes ++ ") is not a Stokes. Expected (I, Q, U, V)").
Definition not_all_valid (stokes : string) : exn :=
  ValueError ("Not all Stokes components requested (" ++ stokes
              ++ ") are valid (I, Q, U, V).").

Definition _plot_stokes (self : CRISP) (stokes : string) (wavelength : Quantity num)
    (unit : option AstroUnit) (air d : bool) : res (option PlotCall) :=
  '(datetime, el) ← plot_stokes_labels self;
  wavelength ← plot_stokes_wavelength wavelength unit air;
  arr ← data self;
  if decide (ndim arr = 1%nat) then
    if negb (is_component stokes) then Raise (not_a_Stokes stokes)
    else
      let title := fmt datetime ++ " " ++ fmt el ++ " " ++ aa self
                   ++ " Stokes " ++ y_labels stokes in
      Ok (Some (plot_single_spectrum wavelength arr title (y_labels stokes) d))
  else if decide (ndim arr = 2%nat) then
    if String.eqb stokes "all" then
      let title := fmt datetime ++ " " ++ fmt el ++ " " ++ aa self ++ " All  Stokes" in
      Ok (Some (plot_multi_component_spectrum stokes_components wavelength arr title d))
    else if bool_decide (String.length stokes < 5)%nat && all_components stokes then
      let components := chars stokes in
      let title := fmt datetime ++ " " ++ fmt el ++ " " ++ aa self
                   ++ " Stokes " ++ join ", " components in
      Ok (Some (plot_multi_component_spectrum components wavelength arr title d))
    else Raise (not_all_valid stokes)
  else Ok None.

Definition plot_stokes (self : CRISP) (stokes : string)
    (unit : option AstroUnit) (air d : bool) : res (option PlotCall) :=
  sh ← shape_of self;
  n ← match sh !! 0%nat with
      | Some n => Ok n
      | None => Raise (IndexError "tuple index out of range")
      end;
  wavelength ← wave self (PArange n);
  _plot_stokes self stokes wavelength unit air d.

Definition plot_spectrum (self : CRISP)
    (unit : option AstroUnit) (air d : bool) : res (option PlotCall) :=
  arr ← data self;
  if decide (ndim arr ≠ 1%nat) then
    Raise (IndexError "If you are using Stokes data please use the plot_stokes method.")
  else plot_stokes self "I" unit air d.

(** [extent] as [intensity_map] and [stokes_map] compute it *)
Definition extent_of (self : CRISP) (frame : string) : res (option (pyval num * pyval num)) :=
  if String.eqb frame "arcsec" then
    '(xmax, ymax) ←
      try_except_KeyError
        (cx ← header_get self "CDELT1"; nx ← shape_neg self 1; xmax ← val_mul cx nx;
         cy ← header_get self "CDELT2"; ny ← shape_neg self 2; ymax ← val_mul cy ny;
         Ok (xmax, ymax))
        (cx ← header_get self "pixel_scale"; nx ← shape_neg self 1; xmax ← val_mul cx nx;
         cy ← header_get self "pixel_scale"; ny ← shape_neg self 2; ymax ← val_mul cy ny;
         Ok (xmax, ymax));
    Ok (Some (xmax, ymax))
  else Ok None.

(** The [norms] and [map_datas] tables of [stokes_map] *)
Definition norms (stokes : string) : option (Z * Z) :=
  if String.eqb stokes "I" then None
  else if String.eqb stokes "V" then Some (-100, 100)
  else Some (-10, 10).
Definition map_datas (stokes : string) : bool := String.eqb stokes "I".

(** The title of [stokes_map] before the Stokes prefix (lines 463-484) *)
Definition stokes_map_title (self : CRISP) : res string :=
  w ← wcs_obj self;
  sub ← wcs_getitem (_wcs w) [IInt 0; colon; IInt 0; IInt 0];
  i ← ind_attr self;
  i1 ← ind_get i 1;
  world ← array_index_to_world sub [PItem i1];
  q ← lshift world Angstrom;
  let wvl := round_value (value q) in
  w ← wcs_obj self;
  sub ← wcs_getitem (_wcs w) [IInt 0; colon; IInt 0; IInt 0];
  mid ← match array_shape (_wcs w) !! 1%nat with
        | Some n => Ok (n `div` 2)
        | None => Raise (IndexError "tuple index out of range")
        end;
  world ← array_index_to_world sub [PInt mid];
  q0 ← lshift world Angstrom;
  diff ← sub_value wvl (value q0);
  let del_wvl := round_value diff in
  datetime ← datetime_of self;
  Ok (fmt datetime ++ " " ++ l self ++ "=" ++ str_value wvl ++ aa self
      ++ " (" ++ D self ++ l self ++ "=" ++ str_value del_wvl ++ aa self ++ ")").

(** The frame the map is drawn in (lines 485-488) *)
Definition frame_of (self : CRISP) (frame : option string) : string :=
  let frame := default "WCS" frame in
  if String.eqb frame "WCS" && rotate self then "arcsec" else frame.

Definition one_component_only (stokes : string) : exn :=
  ValueError ("For 2D data can only plot one Stokes component (expected I, Q, U, V, got "
              ++ stokes ++ ").").
Definition not_a_combination (stokes : string) : exn :=
  ValueError ("Not all Stokes components requested (" ++ stokes
              ++ ") are valid (combination of I, Q, U, V expected).").

Definition stokes_map (self : CRISP) (stokes : string) (frame : option string)
    : res (option PlotCall) :=
  title ← stokes_map_title self;
  let frame := frame_of self frame in
  extent ← extent_of self frame;
  arr ← data self;
  if decide (ndim arr = 2%nat) then
    if negb (bool_decide (String.length stokes = 1%nat) && is_component stokes) then
      Raise (one_component_only stokes)
    else
      let title := "Stokes " ++ stokes ++ " " ++ title in
      Ok (Some (plot_single_frame self frame title (Some (stokes ++ " [DNs]")) extent
                  (norms stokes) (map_datas stokes)))
  else if decide (ndim arr = 3%nat) then
    components ←
      (if String.eqb stokes "all" then Ok stokes_components
       else
         let components := chars stokes in
         if negb (forallb is_component components) then Raise (not_a_combination stokes)
         else Ok components);
    Ok (Some (plot_multi_frame self components frame extent))
  else Ok None.

(** ** [CRISPSequence] *)

(** A parameter dict [f] of [CRISP( **f)]: the entries for the five
    parameters of [CRISP.__init__], and the keys that name no parameter. *)
Record Kwargs : Type := mkKwargs {
  kw_filename : option Filename;
  kw_wcs : option (option WCS);
  kw_uncertainty : option (option ndarray);
  kw_mask : option (option ndarray);
  kw_nonu : option bool;
  kw_unexpected : list string
}.

(** [CRISP( **f)] *)
Definition CRISP_of_kwargs (f : Kwargs) : res CRISP :=
  match kw_unexpected f with
  | k :: _ => Raise (TypeError ("__init__() got an unexpected keyword argument '" ++ k ++ "'"))
  | [] =>
      match kw_filename f with
      | None => Raise (TypeError "__init__() missing 1 required positional argument: 'filename'")
      | Some filename =>
          __init__ filename (default None (kw_wcs f)) (default None (kw_uncertainty f))
            (default None (kw_mask f)) (default false (kw_nonu f))
      end
  end.

Record CRISPSequence : Type := mkCRISPSequence {
  (** [self.list] *)
  obs_list : list CRISP;
  (** [self.aa]: the entity is misspelt in the source and stays as it is *)
  seq_aa : string
}.

Definition seq__init__ (files : list Kwargs) : res CRISPSequence :=
  obs ← comprehension CRISP_of_kwargs files;
  Ok (mkCRISPSequence obs "#&8491;").

(** [self.list[0]] *)
Definition first_obs (self : CRISPSequence) : res CRISP :=
  match obs_list self !! 0%nat with
  | Some o => Ok o
  | None => Raise (IndexError "list index out of range")
  end.

Definition seq_from_lonlat (self : CRISPSequence) (lon lat : num) : res (list Z) :=
  o ← first_obs self; from_lonlat o lon lat.

Definition seq_to_lonlat (self : CRISPSequence) (y x : Z) : res LonLat :=
  o ← first_obs self; to_lonlat o y x false false.

(** ** Vocabulary of the properties *)

(** A [filename] that is none of the supported forms: not a string naming
    a FITS or Zarr file and not an [ObjDict]. *)
Definition unsupported (filename : Filename) : Prop :=
  match filename with
  | FStr s => contains ".fits" s = false ∧ contains ".zarr" s = false
  | FObjDict _ => False
  | FOther _ => True
  end.

(** A pixel pair inside a two-dimensional array shape *)
Definition in_range (w : WCS) (y x : Z) : Prop :=
  match array_shape w with
  | [ny; nx] => (0 ≤ y < ny) ∧ (0 ≤ x < nx)
  | _ => False
  end.

(** What the WCS library is relied on for, on a WCS of two spatial axes:
    a pixel pair in range goes to a helioprojective sky coordinate, and
    that coordinate goes back to the pair. *)
Definition spatial_roundtrip (w : WCS) : Prop :=
  ∀ y x, in_range w y x →
    ∃ sc, array_index_to_world w [PInt y; PInt x] = Ok (WSky sc)
          ∧ world_to_array_index w sc = Ok [y; x].






(** [s'] differs from [s] at most in the header and in [rotate] *)
Definition header_patched (s s' : CRISP) : Prop :=
  data s' = data s ∧ wcs s' = wcs s ∧ uncertainty s' = uncertainty s
  ∧ mask s' = mask s ∧ full_frame s' = full_frame s ∧ rot_data s' = rot_data s.

(** [{k: header[k] for k in crop_keys}] when the six keys are there *)
Definition crop_dict_from (h : Header num) : Header num :=
  list_to_map (omap (λ k, (λ v, (k, v)) <$> h !! k) crop_keys).
End Crisp.
End Crisp.

(** * [crisPy2/inversions.py] *)

Module Inversions.
Section Inversions.
Context `{Extern}.

(** The [filename] argument: a string, an [ObjDict] of arrays, or any
    other object (named by its type). *)
Inductive Filename : Type :=
  | FStr (s : string)
  | FObjDict (od : gmap string ndarray)
  | FOther (type_name : string).

(** The [z] argument: the name of an HDF5 file, or the height axis itself
    (possibly [None]). *)
Inductive ZArg : Type :=
  | ZStr (s : string)
  | ZObj (z : option ndarray).

(** An [Inversion] object.  [__init__] does not set every attribute on
    every path, so each one may be absent: the outer [None] is "no such
    attribute", an inner [None] is Python's [None]. *)
Record Inversion : Type := mkInversion {
  f : option h5file;
  ne : option ndarray;
  temp : option ndarray;
  vel : option ndarray;
  err : option ndarray;
  wcs : option (option WCS);
  z : option ZArg;
  header : option (option (Header num));
  (** set by the slicing mixin *)
  ind : option Index
}.

Definition colons (n : nat) : Index := Tuple (replicate n colon).

Definition __init__ (filename : Filename) (wcs : option WCS) (z : ZArg)
    (header : option (Header num)) : res Inversion :=
  match filename with
  | FStr s =>
      f ← h5py_File s;
      ne ← (d ← h5_getitem f "ne"; getitem d (colons 3));
      temp ← (d ← h5_getitem f "temperature"; getitem d (colons 3));
      vel ← (d ← h5_getitem f "vel"; getitem d (colons 3));
      err ← (d ← h5_getitem f "mad"; getitem d (colons 4));
      z ← match z with
          | ZStr zs => fz ← h5py_File zs; Ok (ZObj (h5_get fz "z"))
          | ZObj o => Ok (ZObj o)
          end;
      Ok (mkInversion (Some f) (Some ne) (Some temp) (Some vel) (Some err)
            (Some wcs) (Some z) (Some header) None)
  | FObjDict od =>
      let item key := match od !! key with
                      | Some v => Ok v
                      | None => Raise (KeyError key)
                      end in
      ne ← item "ne";
      temp ← item "temperature";
      vel ← item "vel";
      err ← item "mad";
      Ok (mkInversion None (Some ne) (Some temp) (Some vel) (Some err)
            (Some wcs) (Some z) (Some header) None)
  | FOther _ =>
      Ok (mkInversion None None None None None None None None None)
  end.

(** *** What the methods draw *)

Inductive Artist : Type :=
  | plot (x : ZArg) (y : ndarray)
  | imshow (data : ndarray) (cmap : string) (SymLogNorm : bool).

Record Axes : Type := mkAxes {
  (** [Some w] for [projection=w] *)
  projection : option (option WCS);
  artist : Artist;
  ylabel : string;
  xlabel : string;
  title : string
}.

Record Figure : Type := mkFigure { suptitle : option string; axes : list Axes }.

(** A session: the object the methods are called on and the figures shown
    so far. *)
Record Session : Type := mkSession { self : Inversion; shown : list Figure }.

(** [fig.show()] *)
Definition show (fig : Figure) : M Session () :=
  modify (λ st, mkSession (self st) (shown st ++ [fig])).

(** [self.<name>]: [AttributeError] when the attribute was never set *)
Definition attr {A} (name : string) (get : Inversion → option A) : M Session A :=
  reading (λ st, match get (self st) with
                 | Some v => Ok v
                 | None => Raise (AttributeError
                             ("'Inversion' object has no attribute '" ++ name ++ "'"))
                 end).

Definition lift {A} (r : res A) : M Session A := reading (λ _, r).

(** The module never imports [astropy.units]: the name [u] is unbound. *)
Definition u : res () := Raise (NameError "name 'u' is not defined").

(** The elements a [for] loop takes from what the WCS returned *)
Definition iterate (w : World num) : res (list (World num)) :=
  match w with
  | WList ws => Ok ws
  | WQuantity (mkQuantity (Vector xs) un) =>
      Ok (map (λ x, WQuantity (mkQuantity (Scalar x) un)) xs)
  | _ => Raise (TypeError "object is not iterable")
  end.

(** [point] as the four [plot_*] methods compute it *)
Definition point : M Session (list (mag num)) :=
  do ow <- attr "wcs" wcs;
  do w <- lift (match ow with
                | Some w => Ok w
                | None => Raise (AttributeError
                            "'NoneType' object has no attribute 'low_level_wcs'")
                end);
  do sub <- lift (wcs_getitem (_wcs w) [IInt 0]);
  do i <- attr "ind" ind;
  do args <- lift (match i with
                   | Tuple its => Ok (map PItem its)
                   | Single _ => Raise (TypeError "argument after * must be an iterable")
                   end);
  do world <- lift (array_index_to_world sub args);
  do xs <- lift (iterate world);
  lift (comprehension (λ x, _ ← u; q ← lshift x arcsec; Ok (round_value (value q))) xs).

(** [try: self.header["DATE-AVG"] except KeyError: ...] *)
Definition datetime_of (h : Header num) : res (pyval num) :=
  let item key := match h !! key with
                  | Some v => Ok v
                  | None => Raise (KeyError key)
                  end in
  try_except_KeyError
    (item "DATE-AVG")
    (d0 ← item "date-obs";
     d1 ← val_add_str d0 "T";
     t ← item "time-obs";
     val_add d1 t).

(** [point[k]] *)
Definition point_get (pt : list (mag num)) (k : nat) : res string :=
  match pt !! k with
  | Some m => Ok (str_value m)
  | None => Raise (IndexError "list index out of range")
  end.

(** The title of the four [plot_*] methods *)
Definition point_title (pt : list (mag num)) : M Session string :=
  do oh <- attr "header" header;
  match oh with
  | Some h =>
      do datetime <- lift (datetime_of h);
      do p0 <- lift (point_get pt 0);
      do p1 <- lift (point_get pt 1);
      ret_M (fmt datetime ++ " (" ++ p0 ++ "," ++ p1 ++ ")")
  | None =>
      do p0 <- lift (point_get pt 0);
      do p1 <- lift (point_get pt 1);
      ret_M ("(" ++ p0 ++ ", " ++ p1 ++ ")")
  end.

Definition __str__ : M Session string :=
  do oh <- attr "header" header;
  match oh with
  | None => ret_M "You know more about this data than me, m8."
  | Some _ =>
      (* [self.file] is read first, and no method of the class sets it *)
      raise_M (AttributeError "'Inversion' object has no attribute 'file'")
  end.

Definition plot_ne : M Session () :=
  do pt <- point;
  do title <- point_title pt;
  do zz <- attr "z" z;
  do q <- attr "ne" ne;
  show (mkFigure None
    [mkAxes None (plot zz q) "log$_{10}$ n$_{\text{e}}$ \[cm$^{-3}$\]" "z [Mm]"
       ("Electron Number Density " ++ title)]).

Definition plot_temp : M Session () :=
  do pt <- point;
  do title <- point_title pt;
  do zz <- attr "z" z;
  do q <- attr "temp" temp;
  show (mkFigure None
    [mkAxes None (plot zz q) "log$_{10}$ T \[K\]" "z [Mm]"
       ("Electron Temperature " ++ title)]).

Definition plot_vel : M Session () :=
  do pt <- point;
  do title <- point_title pt;
  do zz <- attr "z" z;
  do q <- attr "vel" vel;
  show (mkFigure None
    [mkAxes None (plot zz q) "Bulk Plasma Flow \[km s$^{-1}$\]" "z [Mm]"
       ("Bulk Plasma Flow " ++ title)]).

Definition plot_params : M Session () :=
  do pt <- point;
  do title <- point_title pt;
  do zz <- attr "z" z;
  do q1 <- attr "ne" ne;
  do zz2 <- attr "z" z;
  do q2 <- attr "temp" temp;
  do zz3 <- attr "z" z;
  do q3 <- attr "vel" vel;
  show (mkFigure (Some title)
    [mkAxes None (plot zz q1) "log$_{10}$ n$_{e}$ \[cm$^{-3}$\]" "z [Mm]"
       "Electron Number Density";
     mkAxes None (plot zz2 q2) "log$_{10}$ T \[K\]" "z [Mm]" "Electron Temperature";
     mkAxes None (plot zz3 q3) "Bulk Plasma Flow \[km s$^{-1}\]" "z [Mm]"
       "Bulk Plasma Flow"]).

(** [height] and [datetime] as the four [*_map] methods compute them *)
Definition height : M Session string :=
  do zz <- attr "z" z;
  do i <- attr "ind" ind;
  do arr <- lift (match zz with
                  | ZObj (Some arr) => Ok arr
                  | ZObj None => Raise (TypeError "'NoneType' object is not subscriptable")
                  | ZStr _ => Raise (TypeError "string indices must be integers")
                  end);
  do hz <- lift (getitem arr i);
  ret_M (str_ndarray (np_round hz)).

Definition map_datetime : M Session string :=
  do oh <- attr "header" header;
  match oh with
  | Some h => do datetime <- lift (datetime_of h); ret_M (fmt datetime)
  | None => ret_M ""
  end.

Definition lat_label : string := "Helioprojective Latitude [arcsec]".
Definition lon_label : string := "Helioprojective Longitude [arcsec]".

(** [frame] is [None] or any other object; only [frame is None] is tested. *)
Definition ne_map (frame_is_None : bool) : M Session () :=
  do height <- height;
  do datetime <- map_datetime;
  let title := "Electron Number Density " ++ datetime ++ " z=" ++ height ++ "Mm" in
  if frame_is_None then
    do w <- attr "wcs" wcs;
    do q <- attr "ne" ne;
    show (mkFigure None [mkAxes (Some w) (imshow q "cividis" false) lat_label lon_label title])
  else
    do q <- attr "ne" ne;
    show (mkFigure None [mkAxes None (imshow q "cividis" false) "y [pixels]" "x [pixels]" title]).

Definition temp_map (frame_is_None : bool) : M Session () :=
  do height <- height;
  do datetime <- map_datetime;
  let title := "Electron Temperature " ++ datetime ++ " z=" ++ height ++ "Mm" in
  if frame_is_None then
    do w <- attr "wcs" wcs;
    do q <- attr "temp" temp;
    show (mkFigure None [mkAxes (Some w) (imshow q "hot" false) lat_label lon_label title])
  else
    do q <- attr "temp" temp;
    show (mkFigure None [mkAxes None (imshow q "cividis" false) "y [pixels]" "x [pixels]" title]).

Definition vel_map (frame_is_None : bool) : M Session () :=
  do height <- height;
  do datetime <- map_datetime;
  let title := "Bulk Velocity Flow " ++ datetime ++ " z=" ++ height ++ "Mm" in
  if frame_is_None then
    do w <- attr "wcs" wcs;
    do q <- attr "vel" vel;
    show (mkFigure None [mkAxes (Some w) (imshow q "RdBu" true) lat_label lon_label title])
  else
    do q <- attr "vel" vel;
    show (mkFigure None [mkAxes None (imshow q "RdBu" true) "y [pixels]" "x [pixels]" title]).

Definition params_map (frame_is_None : bool) : M Session () :=
  do height <- height;
  do datetime <- map_datetime;
  if frame_is_None then
    do w1 <- attr "wcs" wcs;
    do q1 <- attr "ne" ne;
    do w2 <- attr "wcs" wcs;
    do q2 <- attr "temp" temp;
    do w3 <- attr "wcs" wcs;
    do q3 <- attr "vel" vel;
    show (mkFigure (Some (datetime ++ " z=" ++ height ++ "Mm"))
      [mkAxes (Some w1) (imshow q1 "cividis" false) lat_label lon_label "Electron Number Density";
       mkAxes (Some w2) (imshow q2 "hot" false) lat_label lon_label "Electron Temperature";
       mkAxes (Some w3) (imshow q3 "RdBu" true) lat_label lon_label "Bulk Velocity Flow"])
  else
    do q1 <- attr "ne" ne;
    do q2 <- attr "temp" temp;
    do q3 <- attr "vel" vel;
    show (mkFigure None
      [mkAxes None (imshow q1 "cividis" false) "y [pixels]" "x [pixels]" "Electron Number Density";
       mkAxes None (imshow q2 "hot" false) "y [pixels]" "x [pixels]" "Electron Temperature";
       mkAxes None (imshow q3 "RdBu" true) "y [pixels]" "x [pixels]" "Bulk Velocity Flow"]).

(** The operations of the class, and a call of one of them: the value it
    returns (a string for [__str__]) and the session it leaves. *)
Inductive Method : Type :=
  | m__str__
  | m_plot_ne | m_plot_temp | m_plot_vel | m_plot_params
  | m_ne_map (frame_is_None : bool)
  | m_temp_map (frame_is_None : bool)
  | m_vel_map (frame_is_None : bool)
  | m_params_map (frame_is_None : bool).

Definition call (m : Method) : M Session (option string) :=
  match m with
  | m__str__ => do s <- __str__; ret_M (Some s)
  | m_plot_ne => do _ <- plot_ne; ret_M None
  | m_plot_temp => do _ <- plot_temp; ret_M None
  | m_plot_vel => do _ <- plot_vel; ret_M None
  | m_plot_params => do _ <- plot_params; ret_M None
  | m_ne_map b => do _ <- ne_map b; ret_M None
  | m_temp_map b => do _ <- temp_map b; ret_M None
  | m_vel_map b => do _ <- vel_map b; ret_M None
  | m_params_map b => do _ <- params_map b; ret_M None
  end.

(** A computation that leaves the object of the session as it found it. *)
Definition preserves {A} (m : M Session A) : Prop :=
  ∀ st, self (m st).2 = self st.
End Inversions.
End Inversions.

(** * [crispy/crisp.py], continued: the maps, the sequences, the wideband
    classes *)

Module More.
Section More.
Context `{Extern}.
Import Crisp.

(** ** [CRISP.intensity_map] *)

(** The wavelength index the title is computed for (lines 409-414) *)
Definition intensity_map_idx (self : CRISP) : res Item :=
  i ← ind_attr self;
  match i with
  | Single (IInt n) => Ok (IInt n)
  | _ =>
      w ← wcs_obj self;
      if decide (naxis (_wcs w) = 4) then ind_get i 1 else ind_get i 0
  end.

(** The title of [intensity_map] (lines 415-426 and 443) *)
Definition intensity_map_title (self : CRISP) : res string :=
  idx ← intensity_map_idx self;
  q ← wave self (PItem idx);
  q ← lshift (WQuantity q) Angstrom;
  let wvl := round_value (value q) in
  w ← wcs_obj self;
  mid ← match array_shape (_wcs w) !! 0%nat with
        | Some n => Ok (n `div` 2)
        | None => Raise (IndexError "tuple index out of range")
        end;
  q0 ← wave self (PInt mid);
  q0 ← lshift (WQuantity q0) Angstrom;
  diff ← sub_value wvl (value q0);
  let del_wvl := round_value diff in
  datetime ← datetime_of self;
  Ok (fmt datetime ++ " " ++ l self ++ "=" ++ str_value wvl ++ aa self
      ++ " (" ++ D self ++ l self ++ " = " ++ str_value del_wvl ++ aa self ++ ")").

Definition intensity_map (self : CRISP) (frame : option string) (norm : option (Z * Z))
    : res (option PlotCall) :=
  title ← intensity_map_title self;
  let frame := frame_of self frame in
  extent ← extent_of self frame;
  Ok (Some (plot_single_frame self frame title None extent norm false)).

(** ** [CRISPWideband] *)

(** The f-string [CRISPWideband.__str__] returns *)
Definition wideband_summary (date time el pointing_x pointing_y shape : string) : string :=
  nl ++ pad ++ "CRISP Wideband Context Image" ++ nl
  ++ pad ++ "------------------" ++ nl
  ++ pad ++ date ++ " " ++ time ++ nl
  ++ nl
  ++ pad ++ "Observed: " ++ el ++ nl
  ++ pad ++ "Pointing: (" ++ pointing_x ++ ", " ++ pointing_y ++ ")" ++ nl
  ++ pad ++ "Shape: " ++ shape.

Definition wideband__str__ (self : CRISP) : res string :=
  '(time, date, shape, el, pointing_x, pointing_y) ←
    try_except_KeyError
      (v ← header_get self "DATE-AVG"; time ← val_last 12 v;
       v ← header_get self "DATE-AVG"; date ← val_drop_last 13 v;
       arr ← data self;
       dims ← comprehension (header_get self) (naxis_keys (ndim arr));
       el ← header_get self "WDESC1";
       px ← header_get self "CRVAL1";
       py ← header_get self "CRVAL2";
       Ok (fmt time, fmt date, fmt (VSeq dims), fmt el, fmt px, fmt py))
      (time ← header_get self "time_obs";
       date ← header_get self "date_obs";
       shape ← header_get self "dimensions";
       el ← header_get self "element";
       v ← header_get self "crval"; px ← val_neg_index 1 v;
       v ← header_get self "crval"; py ← val_neg_index 2 v;
       Ok (fmt time, fmt date, fmt shape, fmt el, fmt px, fmt py));
  Ok (wideband_summary date time el pointing_x pointing_y shape).


(** ** [CRISPSequence]: properties and plotting *)

(** [l[i]] for a Python list and an integer, negative indices counting
    from the end *)
Definition list_get {A} (xs : list A) (i : Z) : res A :=
  let n := Z.of_nat (length xs) in
  let j := if decide (i < 0) then n + i else i in
  if decide (0 ≤ j < n) then
    match xs !! Z.to_nat j with
    | Some x => Ok x
    | None => Raise (IndexError "list index out of range")
    end
  else Raise (IndexError "list index out of range").

(** The properties [data], [header], [shape], [wvls], [time] and [date] *)
Definition seq_data (self : CRISPSequence) : res (list ndarray) :=
  comprehension data (obs_list self).
Definition seq_header (self : CRISPSequence) : res (list (Header num)) :=
  comprehension header (obs_list self).
Definition seq_shape (self : CRISPSequence) : res (list (list Z)) :=
  comprehension shape_of (obs_list self).
Definition seq_wvls (self : CRISPSequence) : res (list (Quantity num)) :=
  comprehension wvls (obs_list self).
Definition seq_time (self : CRISPSequence) : res (list (pyval num)) :=
  comprehension time (obs_list self).
Definition seq_date (self : CRISPSequence) : res (list (pyval num)) :=
  comprehension date (obs_list self).

(** The [idx] argument of the plotting methods: an integer or a string *)
Inductive SeqIndex : Type :=
  | AtInt (i : Z)
  | AtStr (s : string).

Definition dquote : string := String (ascii_of_nat 34) EmptyString.

Definition unexpected_index (s : string) : exn :=
  ValueError ("Unexpected index `" ++ s ++ "`, expected int or " ++ dquote ++ "all" ++ dquote).

(** The three branches on [idx] that [plot_spectrum], [plot_stokes],
    [intensity_map] and [stokes_map] of the sequence share (lines 1227-1233,
    1270-1276, 1300-1306 and 1329-1335); [method] is the call on one
    observation, and the result lists the calls made, in order. *)
Definition on_index {A} (self : CRISPSequence) (idx : SeqIndex) (method : CRISP → res A)
    : res (list A) :=
  match idx with
  | AtInt i => o ← list_get (obs_list self) i; r ← method o; Ok [r]
  | AtStr s =>
      if String.eqb s "all" then comprehension method (obs_list self)
      else Raise (unexpected_index s)
  end.

Definition seq_plot_spectrum (self : CRISPSequence) (idx : SeqIndex)
    (unit : option AstroUnit) (air d : bool) : res (list (option PlotCall)) :=
  on_index self idx (λ o, plot_spectrum o unit air d).

Definition seq_plot_stokes (self : CRISPSequence) (idx : SeqIndex) (stokes : string)
    (unit : option AstroUnit) (air d : bool) : res (list (option PlotCall)) :=
  on_index self idx (λ o, plot_stokes o stokes unit air d).

Definition seq_intensity_map (self : CRISPSequence) (idx : SeqIndex)
    (frame : option string) (norm : option (Z * Z)) : res (list (option PlotCall)) :=
  on_index self idx (λ o, intensity_map o frame norm).

Definition seq_stokes_map (self : CRISPSequence) (idx : SeqIndex) (stokes : string)
    (frame : option string) : res (list (option PlotCall)) :=
  on_index self idx (λ o, stokes_map o stokes frame).

(** ** [CRISPSequence.__str__] *)

(** [f.file.header[key]]: the stored header itself, not the copy *)
Definition file_header_get (self : CRISP) (key : string) : res (pyval num) :=
  o ← file_header (file self);
  match o with
  | OHeader h =>
      match h !! key with
      | Some v => Ok v
      | None => Raise (KeyError key)
      end
  | _ => Raise (TypeError "object is not subscriptable")
  end.

(** [f.file.data.ndim] *)
Definition file_data_ndim (self : CRISP) : res nat :=
  o ← file_data (file self);
  match o with
  | OArray arr => Ok (ndim arr)
  | _ => Raise (AttributeError "ndim")
  end.

(** [self.list[0]] inside [__str__] *)
Definition first (self : CRISPSequence) : res CRISP := list_get (obs_list self) 0.

Definition seq_summary (aa date time el cl wwidth pointing_x pointing_y shape : string)
    : string :=
  nl ++ pad ++ "CRISP Observation" ++ nl
  ++ pad ++ "------------------" ++ nl
  ++ pad ++ date ++ " " ++ time ++ nl
  ++ nl
  ++ pad ++ "Observed: " ++ el ++ nl
  ++ pad ++ "Centre wavelength: " ++ cl ++ nl
  ++ pad ++ "Wavelengths sampled [" ++ aa ++ "]: " ++ wwidth ++ nl
  ++ pad ++ "Pointing [arcsec] (HPLN, HPLT): (" ++ pointing_x ++ ", " ++ pointing_y ++ ")" ++ nl
  ++ pad ++ "Shape: " ++ shape.

(** [str(xs)] of a list of strings *)
Definition fmt_strs (xs : list string) : string := fmt (VSeq (map VStr xs)).

Definition seq__str__ (self : CRISPSequence) : res string :=
  let obs := obs_list self in
  '(time, date, cl, wwidth, shape, el, pointing_x, pointing_y) ←
    try_except_KeyError
      (time ← comprehension (λ f, v ← file_header_get f "DATE-AVG"; val_last 12 v) obs;
       f0 ← first self;
       v ← file_header_get f0 "DATE-AVG"; date ← val_drop_last 13 v;
       cl ← comprehension (λ f, v ← file_header_get f "TWAVE1"; str_np_round v) obs;
       wwidth ← comprehension (λ f, file_header_get f "WWIDTH1") obs;
       shape ← comprehension
                 (λ f, n ← file_data_ndim f;
                       dims ← comprehension (file_header_get f) (naxis_keys n);
                       Ok (fmt (VSeq dims))) obs;
       el ← comprehension (λ f, file_header_get f "WDESC1") obs;
       f0 ← first self; px ← file_header_get f0 "CRVAL1";
       f0 ← first self; py ← file_header_get f0 "CRVAL2";
       Ok (fmt (VSeq time), fmt date, fmt_strs cl, fmt (VSeq wwidth), fmt_strs shape,
           fmt (VSeq el), fmt px, fmt py))
      (time ← comprehension (λ f, file_header_get f "time_obs") obs;
       f0 ← first self; date ← file_header_get f0 "date_obs";
       cl ← comprehension
              (λ f, v ← file_header_get f "crval"; c ← val_neg_index 3 v; Ok (fmt c)) obs;
       wwidth ← comprehension
                  (λ f, v ← file_header_get f "dimensions"; c ← val_neg_index 3 v; Ok (fmt c))
                  obs;
       shape ← comprehension (λ f, v ← file_header_get f "dimensions"; Ok (fmt v)) obs;
       el ← comprehension (λ f, file_header_get f "element") obs;
       f0 ← first self; v ← file_header_get f0 "crval"; px ← val_neg_index 1 v;
       f0 ← first self; v ← file_header_get f0 "crval"; py ← val_neg_index 2 v;
       Ok (fmt (VSeq time), fmt date, fmt_strs cl, fmt_strs wwidth, fmt_strs shape,
           fmt (VSeq el), fmt px, fmt py));
  Ok (seq_summary (seq_aa self) date time el cl wwidth pointing_x pointing_y shape).

(** ** [CRISPWidebandSequence] *)

Record CRISPWidebandSequence : Type := mkCRISPWidebandSequence {
  (** [self.list]; the constructor sets nothing else *)
  wb_list : list CRISP
}.

(** [CRISPWideband( **f)]: the class inherits [CRISP.__init__] *)
Definition wb_seq__init__ (files : list Kwargs) : res CRISPWidebandSequence :=
  obs ← comprehension CRISP_of_kwargs files;
  Ok (mkCRISPWidebandSequence obs).

Definition wb_seq__str__ (self : CRISPWidebandSequence) : res string :=
  let obs := wb_list self in
  let first := list_get obs 0 in
  '(time, date, shape, el, pointing_x, pointing_y) ←
    try_except_KeyError
      (time ← comprehension (λ f, v ← file_header_get f "DATE-AVG"; val_last 12 v) obs;
       f0 ← first;
       v ← file_header_get f0 "DATE-AVG"; date ← val_drop_last 13 v;
       shape ← comprehension
                 (λ f, n ← file_data_ndim f;
                       dims ← comprehension (file_header_get f) (naxis_keys n);
                       Ok (fmt (VSeq dims))) obs;
       el ← comprehension (λ f, file_header_get f "WDESC1") obs;
       f0 ← first; px ← file_header_get f0 "CRVAL1";
       f0 ← first; py ← file_header_get f0 "CRVAL2";
       Ok (fmt (VSeq time), fmt date, fmt_strs shape, fmt (VSeq el), fmt px, fmt py))
      (time ← comprehension (λ f, file_header_get f "time_obs") obs;
       f0 ← first; date ← file_header_get f0 "date_obs";
       shape ← comprehension (λ f, v ← file_header_get f "dimensions"; Ok (fmt v)) obs;
       el ← comprehension (λ _, f0 ← first; file_header_get f0 "element") obs;
       f0 ← first; v ← file_header_get f0 "crval"; px ← val_neg_index 1 v;
       f0 ← first; v ← file_header_get f0 "crval"; py ← val_neg_index 2 v;
       Ok (fmt (VSeq time), fmt date, fmt_strs shape, fmt (VSeq el), fmt px, fmt py));
  Ok (wideband_summary date time el pointing_x pointing_y shape).
End More.
End More.

(** * [CRISPSequence]: rotating, cropping and reconstructing *)

(** [crispy.utils.rotate_crop_aligned_data(a, b)]: the helper, not in
    [crisp.py], that crops two aligned arrays with one set of crop
    parameters. *)
Class ExternAligned `{Extern} : Type := {
  rotate_crop_aligned_data : ndarray → ndarray → res (ndarray * ndarray * Header num)
}.

Module SequenceCrop.
Section SequenceCrop.
Context `{ExternAligned}.
Import Crisp More.

(** A sequence with the attribute the two methods add to it; the
    observations of [self.list] are distinct objects on distinct stores. *)
Record SeqState : Type := mkSeqState {
  seq_obj : CRISPSequence;
  (** [self.full_frame], absent until [rotate_crop] sets it *)
  seq_full_frame : option (list ndarray)
}.

(** A method of the [i]-th observation, run in place *)
Definition on_obs {A} (i : nat) (m : M CRISP A) : M SeqState A :=
  λ st,
    match obs_list (seq_obj st) !! i with
    | Some o =>
        let '(r, o') := m o in
        (r, mkSeqState (mkCRISPSequence (<[i := o']> (obs_list (seq_obj st))) (seq_aa (seq_obj st)))
              (seq_full_frame st))
    | None => (Raise (IndexError "list index out of range"), st)
    end.

(** [[body(x) for x in xs]] where [body] may assign *)
Fixpoint for_collect {S A B} (xs : list A) (body : A → M S B) : M S (list B) :=
  match xs with
  | [] => ret_M []
  | x :: rest => do y <- body x; do ys <- for_collect rest body; ret_M (y :: ys)
  end.

(** The positions of [self.list] *)
Definition positions (st : SeqState) : list nat := seq 0 (length (obs_list (seq_obj st))).

Definition set_seq_full_frame (arrs : list ndarray) : M SeqState () :=
  modify (λ st, mkSeqState (seq_obj st) (Some arrs)).

(** [self.list[k].data] *)
Definition data_at (k : Z) : M SeqState ndarray :=
  reading (λ st, o ← list_get (obs_list (seq_obj st)) k; data o).

(** What [rotate_crop] returns *)
Inductive Cropped : Type :=
  | ReturnsNone
  | PerObservation (rs : list (option (ndarray * Header num)))
  | Aligned (crop_a crop_b : ndarray) (crop_dict : Header num).

(** The body of the loop of lines 1155-1160 on one observation *)
Definition crop_in_place : M CRISP () :=
  do r <- rotate_crop true;
  match r with
  | Some (crop, crop_dict) =>
      do _ <- set_file_data crop;
      do _ <- for_each (map_to_list crop_dict) (λ kv, set_header_item kv.1 kv.2);
      set_rotate true
  | None => raise_M (TypeError "cannot unpack non-iterable NoneType object")
  end.

Definition seq_rotate_crop (sep diff_t : bool) : M SeqState Cropped :=
  if diff_t then
    if sep then
      do idxs <- reading (λ st, Ok (positions st));
      do rs <- for_collect idxs (λ i, on_obs i (rotate_crop false));
      ret_M (PerObservation rs)
    else
      do arrs <- reading (λ st, seq_data (seq_obj st));
      do _ <- set_seq_full_frame arrs;
      do idxs <- reading (λ st, Ok (positions st));
      do _ <- for_each idxs (λ i, on_obs i crop_in_place);
      ret_M ReturnsNone
  else
    if sep then
      do arr_a <- data_at 0;
      do arr_b <- data_at 1;
      do '(crop_a, crop_b, crop_dict) <- reading (λ _, rotate_crop_aligned_data arr_a arr_b);
      ret_M (Aligned crop_a crop_b crop_dict)
    else
      do arr_a <- data_at 0;
      do arr_b <- data_at 1;
      do _ <- set_seq_full_frame [arr_a; arr_b];
      do arr_a <- data_at 0;
      do arr_b <- data_at 1;
      do '(crop_a, crop_b, crop_dict) <- reading (λ _, rotate_crop_aligned_data arr_a arr_b);
      do _ <- on_obs 0 (set_file_data crop_a);
      do _ <- on_obs 1 (set_file_data crop_b);
      do idxs <- reading (λ st, Ok (take 2 (positions st)));
      do _ <- for_each idxs
                (λ i, on_obs i (for_each (map_to_list crop_dict)
                                  (λ kv, set_header_item kv.1 kv.2)));
      do idxs <- reading (λ st, Ok (positions st));
      do _ <- for_each idxs (λ i, on_obs i (set_rotate true));
      ret_M ReturnsNone.

Definition seq_reconstruct_full_frame (sep : bool) : M SeqState (option (list (option ndarray))) :=
  if sep then
    do idxs <- reading (λ st, Ok (positions st));
    do rs <- for_collect idxs (λ i, on_obs i (reconstruct_full_frame true));
    ret_M (Some rs)
  else
    do idxs <- reading (λ st, Ok (positions st));
    do _ <- for_each idxs
              (λ i, on_obs i (do _ <- reconstruct_full_frame false; set_rotate false));
    ret_M None.
End SequenceCrop.
End SequenceCrop.

(** * The plotting methods of a sequence *)

Module SequencePlots.
Section SequencePlots.
Context `{Extern}.
Import Crisp More.

(** The four plotting methods of [CRISPSequence], with their arguments
    other than [idx] *)
Inductive SeqPlot : Type :=
  | SeqPlotSpectrum (unit : option AstroUnit) (air d : bool)
  | SeqPlotStokes (stokes : string) (unit : option AstroUnit) (air d : bool)
  | SeqIntensityMap (frame : option string) (norm : option (Z * Z))
  | SeqStokesMap (stokes : string) (frame : option string).

(** The call on the sequence *)
Definition seq_plot (p : SeqPlot) (self : CRISPSequence) (idx : SeqIndex)
    : res (list (option PlotCall)) :=
  match p with
  | SeqPlotSpectrum unit air d => seq_plot_spectrum self idx unit air d
  | SeqPlotStokes stokes unit air d => seq_plot_stokes self idx stokes unit air d
  | SeqIntensityMap frame norm => seq_intensity_map self idx frame norm
  | SeqStokesMap stokes frame => seq_stokes_map self idx stokes frame
  end.

(** The method of [CRISP] of the same name, with the same arguments *)
Definition obs_plot (p : SeqPlot) (o : CRISP) : res (option PlotCall) :=
  match p with
  | SeqPlotSpectrum unit air d => plot_spectrum o unit air d
  | SeqPlotStokes stokes unit air d => plot_stokes o stokes unit air d
  | SeqIntensityMap frame norm => intensity_map o frame norm
  | SeqStokesMap stokes frame => stokes_map o stokes frame
  end.
End SequencePlots.
End SequencePlots.

(** * What a map call draws *)

Module MapCalls.
Section MapCalls.
Context `{Extern}.
Import Crisp.


End MapCalls.
End MapCalls.

(** * What an [Inversion] method shows *)

Module InversionCalls.
Section InversionCalls.
Context `{Extern}.
Import Inversions.

(** A method that, when it returns, has shown exactly one more figure, of
    [n] axes, each with the keyword [projection] set to [self.wcs] if
    [with_projection] and without it otherwise; and that has shown nothing
    more when it raises. *)
Definition draws (m : M Session ()) (n : nat) (with_projection : bool) : Prop :=
  ∀ st,
    match m st with
    | (Ok _, st') =>
        self st' = self st
        ∧ ∃ fig, shown st' = (shown st ++ [fig])%list
                 ∧ length (axes fig) = n
                 ∧ Forall (λ ax, projection ax
                                 = if with_projection then wcs (self st) else None)
                     (axes fig)
    | (Raise _, st') => st' = st
    end.
End InversionCalls.
End InversionCalls.

(** * A WCS stub and a small host

    An implementation of [Extern] on integers, to run the wrappers: arrays
    are a shape and a label, numbers are integers, and a WCS is a list of
    independent linear axes, [world = crval + cdelt * pixel]. *)

Module Stub.

Record StubArray : Type := mkArray { sa_shape : list Z; sa_label : string }.

Inductive AxisKind : Type := Stokes | Wavelength | Lat | Lon.

Record StubAxis : Type := mkAxis { kind : AxisKind; crval : Z; cdelt : Z; npix : Z }.

(** [cur]: the axes of this (possibly sliced) WCS in array order;
    [orig]: the axes of the WCS it was sliced from. *)
Record StubWCS : Type := mkWCS { cur : list StubAxis; orig : list StubAxis }.

Definition unsliced (axes : list StubAxis) : StubWCS := mkWCS axes axes.

Fixpoint slice_axes (axes : list StubAxis) (items : list Item) : res (list StubAxis) :=
  match items, axes with
  | [], _ => Ok axes
  | _ :: _, [] => Raise (IndexError "too many indices for WCS")
  | IInt _ :: items', _ :: axes' => slice_axes axes' items'
  | ISlice start _ _ :: items', ax :: axes' =>
      rest ← slice_axes axes' items';
      let s := default 0 start in
      Ok (mkAxis (kind ax) (crval ax + cdelt ax * s) (cdelt ax) (npix ax - s) :: rest)
  end.

Definition stub_getitem (w : StubWCS) (items : list Item) : res StubWCS :=
  axes ← slice_axes (cur w) items; Ok (mkWCS axes (orig w)).

Definition axis_unit (k : AxisKind) : AstroUnit :=
  match k with
  | Wavelength => Angstrom
  | Lat | Lon => arcsec
  | Stokes => OtherUnit ""
  end.

Definition axis_world (ax : StubAxis) (arg : PixArg) : res (mag Z) :=
  match arg with
  | PItem (IInt p) => Ok (Scalar (crval ax + cdelt ax * p))
  | PArange n =>
      Ok (Vector (map (λ k : nat, crval ax + cdelt ax * Z.of_nat k) (seq 0 (Z.to_nat n))))
  | PItem (ISlice _ _ _) => Raise (TypeError "a slice is not a pixel index")
  end.

Fixpoint axes_world (axes : list StubAxis) (args : list PixArg) : res (list (World Z)) :=
  match axes, args with
  | [], [] => Ok []
  | ax :: axes', arg :: args' =>
      m ← axis_world ax arg;
      rest ← axes_world axes' args';
      Ok (WQuantity (mkQuantity m (axis_unit (kind ax))) :: rest)
  | _, _ => Raise (TypeError "wrong number of pixel indices")
  end.

(** Two spatial axes give a [SkyCoord], one axis a quantity, anything else
    the list of the axes' quantities in world order (last array axis
    first). *)
Definition stub_array_index_to_world (w : StubWCS) (args : list PixArg) : res (World Z) :=
  ws ← axes_world (cur w) args;
  match map kind (cur w), ws with
  | [Lat; Lon], [WQuantity (mkQuantity (Scalar ty) _); WQuantity (mkQuantity (Scalar tx) _)] =>
      Ok (WSky (mkSkyCoord tx ty))
  | [_], [q] => Ok q
  | _, _ => Ok (WList (rev ws))
  end.

(** The pixel nearest to a world value on one axis *)
Definition axis_pixel (ax : StubAxis) (v : Z) : Z :=
  (2 * (v - crval ax) + cdelt ax) `div` (2 * cdelt ax).

Definition stub_world_to_array_index (w : StubWCS) (sc : SkyCoord Z) : res (list Z) :=
  match cur w with
  | [ay; ax] =>
      match kind ay, kind ax with
      | Lat, Lon =>
          if decide (cdelt ay = 0 ∨ cdelt ax = 0) then Raise (LibraryError "SingularMatrixError")
          else Ok [axis_pixel ay (Ty_arcsec sc); axis_pixel ax (Tx_arcsec sc)]
      | _, _ => Raise (LibraryError "the WCS has no pair of spatial axes")
      end
  | _ => Raise (LibraryError "the WCS has no pair of spatial axes")
  end.

Definition stub_lshift (w : World Z) (un : AstroUnit) : res (Quantity Z) :=
  match w with
  | WQuantity q =>
      if decide (unit q = un) then Ok q else Raise (LibraryError "UnitConversionError")
  | _ => Raise (TypeError "unsupported operand type(s) for <<")
  end.

Definition stub_getitem_array (arr : StubArray) (i : Index) : res StubArray :=
  let items := match i with Single it => [it] | Tuple its => its end in
  if decide (length items ≤ length (sa_shape arr))%nat then
    Ok (mkArray (map snd (filter (λ p, is_slice p.1 = true)
                   (zip (items ++ replicate (length (sa_shape arr) - length items) colon)
                        (sa_shape arr))))
          (sa_label arr))
  else Raise (IndexError "too many indices for array").

(** A CRISP cube: Stokes, wavelength, y, x. *)
Definition cube_axes : list StubAxis :=
  [mkAxis Stokes 1 1 4; mkAxis Wavelength 8542 1 11;
   mkAxis Lat (-300) 2 50; mkAxis Lon 500 2 60].

Definition cube : StubArray := mkArray [4; 11; 50; 60] "cube".

Definition fits_header : Header Z :=
  list_to_map
    [("DATE-AVG", VStr "2014-09-06T16:53:19.123"); ("TWAVE1", VNum 8542);
     ("WWIDTH1", VNum 11); ("WDESC1", VStr "Ca II 8542");
     ("CRVAL1", VNum 500); ("CRVAL2", VNum (-300));
     ("NAXIS1", VNum 60); ("NAXIS2", VNum 50); ("NAXIS3", VNum 11); ("NAXIS4", VNum 4)].

Definition zarr_header : Header Z :=
  list_to_map
    [("time_obs", VStr "16:53:19.123"); ("date_obs", VStr "2014-09-06");
     ("crval", VSeq [VNum 1; VNum 8542; VNum (-300); VNum 500]);
     ("dimensions", VSeq [VNum 4; VNum 11; VNum 50; VNum 60]);
     ("element", VStr "Ca II 8542"); ("pixel_scale", VNum 2)].

Definition crop_dict_of (arr : StubArray) : Header Z :=
  list_to_map
    [("frame_dims", VSeq (map VNum (list_last 2 (sa_shape arr))));
     ("x_min", VNum 3); ("x_max", VNum 57); ("y_min", VNum 2); ("y_max", VNum 48);
     ("angle", VNum 0)].

Definition quote (s : string) : string := "'" ++ s ++ "'".

Definition stub_sub_value (m n : mag Z) : res (mag Z) :=
  match m, n with
  | Scalar x, Scalar y => Ok (Scalar (x - y))
  | Vector xs, Scalar y => Ok (Vector (map (λ x, x - y) xs))
  | Scalar x, Vector ys => Ok (Vector (map (Z.sub x) ys))
  | Vector xs, Vector ys =>
      if decide (length xs = length ys) then Ok (Vector (zip_with Z.sub xs ys))
      else Raise (ValueError "operands could not be broadcast together")
  end.

Definition stub_str_value (m : mag Z) : string :=
  match m with
  | Scalar x => pretty x
  | Vector xs => "[" ++ join " " (map pretty xs) ++ "]"
  end.

#[global] Instance stub : Extern := {|
  num := Z;
  ndarray := StubArray;
  WCS := StubWCS;
  h5file := gmap string StubArray;
  str_num := pretty;
  repr_str := quote;
  shape := sa_shape;
  getitem := stub_getitem_array;
  np_round := id;
  str_ndarray := sa_label;
  round_value := id;
  sub_value := stub_sub_value;
  str_value := stub_str_value;
  num_mul := Z.mul;
  str_np_round := λ v, match v with
                       | VNum x => Ok (pretty x)
                       | _ => Raise (TypeError "np.round: not a number")
                       end;
  array_shape := λ w, map npix (cur w);
  _wcs := λ w, unsliced (orig w);
  naxis := λ w, Z.of_nat (length (cur w));
  wcs_getitem := stub_getitem;
  array_index_to_world := stub_array_index_to_world;
  world_to_array_index := stub_world_to_array_index;
  lshift := stub_lshift;
  vac_to_air := Ok;
  fits_open := λ name, if String.eqb name "crisp.fits" then Ok (cube, fits_header)
                       else Raise (LibraryError "FileNotFoundError");
  zarr_open := λ name, if String.eqb name "crisp.zarr" then Ok (cube, zarr_header)
                       else Raise (LibraryError "PathNotFoundError");
  WCS_of_header := λ _, Ok (unsliced cube_axes);
  zarr_header_to_wcs := λ _ _, Ok (unsliced cube_axes);
  h5py_File := λ name,
    if String.eqb name "inversion.h5" then
      Ok (list_to_map
            [("ne", mkArray [30; 50; 60] "ne"); ("temperature", mkArray [30; 50; 60] "temperature");
             ("vel", mkArray [30; 50; 60] "vel"); ("mad", mkArray [3; 30; 50; 60] "mad")])
    else if String.eqb name "z.h5" then Ok (list_to_map [("z", mkArray [30] "z")])
    else Raise (LibraryError "FileNotFoundError");
  h5_getitem := λ f key, match f !! key with
                         | Some arr => Ok arr
                         | None => Raise (KeyError key)
                         end;
  h5_get := λ f key, f !! key;
  rotate_crop_data := λ arr, Ok (mkArray (sa_shape arr) ("crop of " ++ sa_label arr),
                                 crop_dict_of arr);
  utils_reconstruct_full_frame := λ _ arr,
    Ok (mkArray (sa_shape arr) ("full frame of " ++ sa_label arr))
|}.
End Stub.

(** * Sample objects on the stub *)

Module Samples.
Import Stub.

(** An [ObjDict] with a data array and a header, and the wrapper built on
    it with a given WCS and recorded index. *)
Definition container (arr : StubArray) (h : Header Z) : gmap string Crisp.pyobj :=
  <["header" := Crisp.OHeader h]> (<["data" := Crisp.OArray arr]> ∅).

Definition wrapper (arr : StubArray) (h : Header Z) (w : option StubWCS)
    (i : option Index) : Crisp.CRISP :=
  Crisp.mkCRISP (Crisp.Container (container arr h)) w false None None
    angstrom_sign alpha_sign lambda_sign Delta_sign false i None None.

(** [crisp[0, 5]]: one image, axes y and x *)
Definition image_wcs : StubWCS :=
  mkWCS [mkAxis Lat (-300) 2 50; mkAxis Lon 500 2 60] cube_axes.
Definition image : Crisp.CRISP :=
  wrapper (mkArray [50; 60] "image") zarr_header (Some image_wcs)
    (Some (Tuple [IInt 0; IInt 5])).

(** [crisp[:, :, 10, 20]]: the Stokes profiles of one pixel, axes Stokes
    and wavelength *)
Definition profiles_wcs : StubWCS :=
  mkWCS [mkAxis Stokes 1 1 4; mkAxis Wavelength 8542 1 11] cube_axes.
Definition profiles : Crisp.CRISP :=
  wrapper (mkArray [4; 11] "profiles") zarr_header (Some profiles_wcs)
    (Some (Tuple [colon; colon; IInt 10; IInt 20])).

(** [crisp[0, :, 10, 20]]: one spectrum *)
Definition spectrum_wcs : StubWCS := mkWCS [mkAxis Wavelength 8542 1 11] cube_axes.
Definition spectrum : Crisp.CRISP :=
  wrapper (mkArray [11] "spectrum") zarr_header (Some spectrum_wcs)
    (Some (Tuple [IInt 0; colon; IInt 10; IInt 20])).

(** The whole cube, and a five-dimensional WCS *)
Definition whole : Crisp.CRISP := wrapper cube zarr_header (Some (unsliced cube_axes)) None.

(** A wrapper whose header has neither naming convention *)
Definition bare : Crisp.CRISP := wrapper cube ∅ (Some (unsliced cube_axes)) None.

(** A wrapper on rotated data: the header also has the six crop keys *)
Definition rotated_header : Header Z := crop_dict_of cube ∪ zarr_header.
Definition rotated : Crisp.CRISP := wrapper cube rotated_header (Some (unsliced cube_axes)) None.

(** The parameter dicts of a sequence of two observations *)
Definition fits_kwargs : Crisp.Kwargs :=
  Crisp.mkKwargs (Some (Crisp.FStr "crisp.fits")) None None None None [].
Definition zarr_kwargs : Crisp.Kwargs :=
  Crisp.mkKwargs (Some (Crisp.FStr "crisp.zarr")) (Some None) None None (Some false) [].
Definition two_files : list Crisp.Kwargs := [fits_kwargs; zarr_kwargs].

(** An [ObjDict] that happens to have a key [".fits"] *)
Definition od_with_fits_key : gmap string Crisp.pyobj :=
  <[".fits" := Crisp.OVal (VNum 0)]> (container cube zarr_header).
End Samples.

(** * More of the host, and more samples *)

(** [rotate_crop_aligned_data] on the stub: both arrays are cropped with
    the crop parameters of the first one. *)
Definition stub_rotate_crop_aligned_data (a b : Stub.StubArray)
    : res (Stub.StubArray * Stub.StubArray * Header Z) :=
  if decide (length (Stub.sa_shape a) = length (Stub.sa_shape b)) then
    Ok (Stub.mkArray (Stub.sa_shape a) ("crop of " ++ Stub.sa_label a),
        Stub.mkArray (Stub.sa_shape b) ("crop of " ++ Stub.sa_label b),
        Stub.crop_dict_of a)
  else Raise (ValueError "the two arrays are not aligned").

#[global] Instance stub_aligned : @ExternAligned Stub.stub := {|
  rotate_crop_aligned_data := stub_rotate_crop_aligned_data
|}.

(** A second host, the stub with cropping helpers that can fail:
    [rotate_crop_data] needs an image plane, and [reconstruct_full_frame]
    needs the two dimensions of the frame. *)
Module Strict.
Import Stub.

Definition strict_rotate_crop_data (arr : StubArray) : res (StubArray * Header Z) :=
  if decide (2 ≤ length (sa_shape arr))%nat then
    Ok (mkArray (sa_shape arr) ("crop of " ++ sa_label arr), crop_dict_of arr)
  else Raise (ValueError "rotate_crop_data: the data has no image plane").

Definition strict_reconstruct_full_frame (crop_dict : Header Z) (arr : StubArray)
    : res StubArray :=
  match crop_dict !! "frame_dims" with
  | Some (VSeq [VNum _; VNum _]) => Ok (mkArray (sa_shape arr) ("full frame of " ++ sa_label arr))
  | _ => Raise (ValueError "reconstruct_full_frame: frame_dims is not a pair of numbers")
  end.

Definition strict : Extern := {|
  num := Z;
  ndarray := StubArray;
  WCS := StubWCS;
  h5file := gmap string StubArray;
  str_num := @str_num stub;
  repr_str := @repr_str stub;
  shape := @shape stub;
  getitem := @getitem stub;
  np_round := @np_round stub;
  str_ndarray := @str_ndarray stub;
  round_value := @round_value stub;
  sub_value := @sub_value stub;
  str_value := @str_value stub;
  num_mul := @num_mul stub;
  str_np_round := @str_np_round stub;
  array_shape := @array_shape stub;
  _wcs := @_wcs stub;
  naxis := @naxis stub;
  wcs_getitem := @wcs_getitem stub;
  array_index_to_world := @array_index_to_world stub;
  world_to_array_index := @world_to_array_index stub;
  lshift := @lshift stub;
  vac_to_air := @vac_to_air stub;
  fits_open := @fits_open stub;
  zarr_open := @zarr_open stub;
  WCS_of_header := @WCS_of_header stub;
  zarr_header_to_wcs := @zarr_header_to_wcs stub;
  h5py_File := @h5py_File stub;
  h5_getitem := @h5_getitem stub;
  h5_get := @h5_get stub;
  rotate_crop_data := strict_rotate_crop_data;
  utils_reconstruct_full_frame := strict_reconstruct_full_frame
|}.

(** A wrapper on the strict host *)
Definition strict_wrapper (arr : StubArray) (h : Header Z) : @Crisp.CRISP strict :=
  @Crisp.mkCRISP strict
    (@Crisp.Container strict
       (<["header" := @Crisp.OHeader strict h]> (<["data" := @Crisp.OArray strict arr]> ∅)))
    (Some (unsliced cube_axes)) false None None
    angstrom_sign alpha_sign lambda_sign Delta_sign false None None None.
End Strict.

Module MoreSamples.
Import Stub Samples.

(** The whole cube with the header of the FITS file *)
Definition fits_obs : Crisp.CRISP := wrapper cube fits_header (Some (unsliced cube_axes)) None.

(** A header of the alternate convention to which ["DATE-AVG"] was added *)
Definition mixed_header : Header Z := <["DATE-AVG" := VStr "2014-09-06T16:53:19.123"]> zarr_header.
Definition mixed : Crisp.CRISP := wrapper cube mixed_header (Some (unsliced cube_axes)) None.

(** A header with ["frame_dims"] but none of the other crop keys *)
Definition frame_dims_only : Header Z := <["frame_dims" := VSeq [VNum 50; VNum 60]]> zarr_header.
Definition half_cropped : Crisp.CRISP :=
  wrapper cube frame_dims_only (Some (unsliced cube_axes)) None.

(** On the strict host: one spectrum, which has no image plane, and a cube
    whose ["frame_dims"] is not a pair *)
Definition line : @Crisp.CRISP Strict.strict :=
  Strict.strict_wrapper (mkArray [11] "line") zarr_header.
Definition bad_frame_header : Header Z := <["frame_dims" := VNum 0]> rotated_header.
Definition bad_frame : @Crisp.CRISP Strict.strict := Strict.strict_wrapper cube bad_frame_header.

(** The cube after [rotate_crop]: the crop keys are in the header and the
    flag [rotate] is set *)
Definition flagged : Crisp.CRISP :=
  Crisp.mkCRISP (Crisp.Container (container cube rotated_header)) (Some (unsliced cube_axes))
    false None None angstrom_sign alpha_sign lambda_sign Delta_sign true None None None.

(** A header with ["CDELT1"] but not ["CDELT2"] *)
Definition cdelt1_only : Header Z := <["CDELT1" := VNum 3]> zarr_header.
Definition one_cdelt : Crisp.CRISP := wrapper cube cdelt1_only (Some (unsliced cube_axes)) None.

(** An observation of another line *)
Definition halpha : Crisp.CRISP :=
  wrapper cube (<["element" := VStr "H I 6563"]> zarr_header) (Some (unsliced cube_axes)) None.

(** An inversion with a header of the alternate convention, sliced at one
    height *)
Definition inverted : Inversions.Inversion :=
  Inversions.mkInversion None
    (Some (mkArray [50; 60] "ne")) (Some (mkArray [50; 60] "temperature"))
    (Some (mkArray [50; 60] "vel")) (Some (mkArray [3; 50; 60] "mad"))
    (Some (Some image_wcs)) (Some (Inversions.ZObj (Some (mkArray [30] "z"))))
    (Some (Some zarr_header)) (Some (Single (IInt 4))).

(** The arrays of an inversion in an [ObjDict] *)
Definition inversion_arrays : gmap string StubArray :=
  list_to_map
    [("ne", mkArray [30; 50; 60] "ne"); ("temperature", mkArray [30; 50; 60] "temperature");
     ("vel", mkArray [30; 50; 60] "vel"); ("mad", mkArray [3; 30; 50; 60] "mad")].
End MoreSamples.

(** * Properties *)

(** ** The monads *)

Section Monads.
Context {S A B : Type}.

Lemma bind_Ok (r : res A) (k : A → res B) (b : B) :
  r ≫= k = Ok b ↔ ∃ a, r = Ok a ∧ k a = Ok b.
Proof.
  destruct r as [a|e]; simpl; split.
  - eauto.
  - intros (a' & [= <-] & Hk). exact Hk.
  - discriminate.
  - intros (a' & [=] & _).
Qed.

Lemma bind_raises (r : res A) (e : exn) : raises (r ≫= λ _, Raise e : res B).
Proof. destruct r as [a|e']; simpl; eexists; reflexivity. Qed.

Lemma bind_M_Ok (m : M S A) (k : A → M S B) (s s' : S) (a : A) :
  m s = (Ok a, s') → bind_M m k s = k a s'.
Proof. unfold bind_M. intros ->. reflexivity. Qed.

Lemma bind_M_Raise (m : M S A) (k : A → M S B) (s s' : S) (e : exn) :
  m s = (Raise e, s') → bind_M m k s = (Raise e, s').
Proof. unfold bind_M. intros ->. reflexivity. Qed.

Lemma reading_Ok (r : S → res A) (k : A → M S B) (s : S) (a : A) :
  r s = Ok a → bind_M (reading r) k s = k a s.
Proof. unfold bind_M, reading. intros ->. reflexivity. Qed.
End Monads.

(** ** [Inversion] is read-only *)

Section InversionReadOnly.
Context `{Extern}.
Import Inversions.

Lemma preserves_ret {A} (x : A) : preserves (ret_M x).
Proof. intros st. reflexivity. Qed.

Lemma preserves_raise {A} (e : exn) : preserves (raise_M e : M Session A).
Proof. intros st. reflexivity. Qed.

Lemma preserves_reading {A} (r : Session → res A) : preserves (reading r).
Proof. intros st. reflexivity. Qed.

Lemma preserves_attr {A} name (get : Inversion → option A) : preserves (attr name get).
Proof. apply preserves_reading. Qed.

Lemma preserves_lift {A} (r : res A) : preserves (lift r).
Proof. apply preserves_reading. Qed.

Lemma preserves_show fig : preserves (show fig).
Proof. intros st. reflexivity. Qed.

Lemma preserves_bind {A B} (m : M Session A) (k : A → M Session B) :
  preserves m → (∀ a, preserves (k a)) → preserves (bind_M m k).
Proof.
  intros Hm Hk st. unfold bind_M.
  specialize (Hm st). destruct (m st) as [[a|e] st1]; simpl in *.
  - rewrite Hk. exact Hm.
  - exact Hm.
Qed.

Create HintDb readonly.
#[local] Hint Resolve preserves_ret preserves_raise preserves_attr preserves_lift
  preserves_show preserves_reading : readonly.

Ltac readonly :=
  repeat first
    [ apply preserves_bind; [| intros ?]
    | progress auto with readonly
    | match goal with
      | |- preserves (match ?x with _ => _ end) => destruct x
      end ].

Lemma preserves_point : preserves point.
Proof. unfold point. readonly. Qed.

Lemma preserves_point_title pt : preserves (point_title pt).
Proof. unfold point_title. readonly. Qed.

Lemma preserves_height : preserves height.
Proof. unfold height. readonly. Qed.

Lemma preserves_map_datetime : preserves map_datetime.
Proof. unfold map_datetime. readonly. Qed.

#[local] Hint Resolve preserves_point preserves_point_title preserves_height
  preserves_map_datetime : readonly.

Lemma preserves_call (m : Method) : preserves (call m).
Proof.
  destruct m; unfold call, __str__, plot_ne, plot_temp, plot_vel, plot_params,
    ne_map, temp_map, vel_map, params_map; readonly.
Qed.

(** C7: every operation of [Inversion] (the four [plot_*] methods, the
    four [*_map] methods with either setting of [frame], and [__str__])
    leaves the stored arrays [ne], [temp], [vel], [err] and the height
    axis [z] as they were, whether it returns or raises. *)
Theorem inversion_read_only (m : Method) (st : Session) :
  let st' := (call m st).2 in
  ne (self st') = ne (self st) ∧ temp (self st') = temp (self st)
  ∧ vel (self st') = vel (self st) ∧ err (self st') = err (self st)
  ∧ z (self st') = z (self st).
Proof.
  simpl. rewrite (preserves_call m st). repeat split.
Qed.
End InversionReadOnly.

(** ** [CRISP] and [CRISPSequence] *)

Section CrispProperties.
Context `{Extern}.
Import Crisp.

(** C10: [CRISPSequence.to_lonlat] and [CRISPSequence.from_lonlat] on a
    non-empty sequence return what the same method returns on element 0,
    and so return the same for two sequences that agree on element 0,
    whatever the other elements are. *)
Theorem sequence_lonlat_first_only
    (o : CRISP) (rest rest' : list CRISP) (aa aa' : string) (y x : Z) (lon lat : num) :
  seq_to_lonlat (mkCRISPSequence (o :: rest) aa) y x = to_lonlat o y x false false
  ∧ seq_from_lonlat (mkCRISPSequence (o :: rest) aa) lon lat = from_lonlat o lon lat
  ∧ seq_to_lonlat (mkCRISPSequence (o :: rest) aa) y x
    = seq_to_lonlat (mkCRISPSequence (o :: rest') aa') y x
  ∧ seq_from_lonlat (mkCRISPSequence (o :: rest) aa) lon lat
    = seq_from_lonlat (mkCRISPSequence (o :: rest') aa') lon lat.
Proof. repeat split. Qed.

(** On the empty sequence both raise [IndexError]. *)
Lemma sequence_lonlat_empty (aa : string) (y x : Z) (lon lat : num) :
  seq_to_lonlat (mkCRISPSequence [] aa) y x = Raise (IndexError "list index out of range")
  ∧ seq_from_lonlat (mkCRISPSequence [] aa) lon lat
    = Raise (IndexError "list index out of range").
Proof. split; reflexivity. Qed.

(** *** Construction *)

(** [CRISP.__init__] rejects every unsupported [filename] with
    [NotImplementedError], whatever the other arguments are. *)
Lemma CRISP_init_unsupported_raises (filename : Filename) (w : option WCS)
    (unc msk : option ndarray) (nu : bool) :
  unsupported filename →
  __init__ filename w unc msk nu = Raise (NotImplementedError "m8 y?").
Proof.
  destruct filename as [s|od|t]; simpl.
  - intros [Hf Hz]. unfold __init__. rewrite Hf, Hz. reflexivity.
  - intros [].
  - intros _. reflexivity.
Qed.

(** C2, at the failing input: [Inversion.__init__] has no [else] branch.
    Given a [filename] that is neither a [str] nor an [ObjDict] it raises
    nothing and returns an object on which no attribute is set. *)
Theorem Inversion_init_accepts_any_object (type_name : string) (w : option WCS)
    (z : Inversions.ZArg) (header : option (Header num)) :
  Inversions.__init__ (Inversions.FOther type_name) w z header
  = Ok (Inversions.mkInversion None None None None None None None None None).
Proof. reflexivity. Qed.

(** With [wcs=None], an [ObjDict] that has no key [".fits"] or [".zarr"]
    gives a wrapper whose [wcs] is [None]. *)
Lemma ObjDict_init_wcs_None (od : gmap string pyobj) (unc msk : option ndarray)
    (nu : bool) (o : CRISP) :
  od !! ".fits" = None → od !! ".zarr" = None →
  __init__ (FObjDict od) None unc msk nu = Ok o →
  wcs o = None.
Proof.
  intros Hf Hz. unfold __init__. simpl.
  rewrite Hf, Hz. simpl.
  intros Ho. apply bind_Ok in Ho as (h & _ & [= <-]). reflexivity.
Qed.

(** With [wcs=None], an [ObjDict] that has a key [".fits"] takes the branch
    of the FITS files: the WCS is built from the container's header. *)
Lemma ObjDict_init_fits_key (od : gmap string pyobj) (unc msk : option ndarray)
    (nu : bool) (h : Header num) (w : WCS) :
  is_Some (od !! ".fits") → od !! "header" = Some (OHeader h) →
  WCS_of_header h = Ok w →
  ∃ o, __init__ (FObjDict od) None unc msk nu = Ok o ∧ wcs o = Some w.
Proof.
  intros Hf Hh Hw. unfold __init__. simpl.
  rewrite bool_decide_eq_true_2 by exact Hf. simpl.
  rewrite Hh. simpl. rewrite Hw. simpl.
  unfold header, file_header. simpl. rewrite Hh. simpl.
  eexists. split; reflexivity.
Qed.

(** With [wcs=None], a string naming a FITS or a Zarr file gives a wrapper
    that has a WCS. *)
Lemma str_init_builds_wcs (s : string) (unc msk : option ndarray) (nu : bool) (o : CRISP) :
  __init__ (FStr s) None unc msk nu = Ok o → ∃ w, wcs o = Some w.
Proof.
  unfold __init__. simpl.
  destruct (contains ".fits" s) eqn:Hf.
  - intros Ho. apply bind_Ok in Ho as (fs & _ & Ho). simpl in Ho.
    apply bind_Ok in Ho as (ow & Hw & Ho).
    apply bind_Ok in Ho as (h & _ & [= <-]). simpl.
    apply bind_Ok in Hw as (obj & _ & Hw).
    destruct obj as [arr|h'|v]; try discriminate.
    destruct (WCS_of_header h') as [w|e]; [|discriminate].
    injection Hw as <-. eauto.
  - destruct (contains ".zarr" s) eqn:Hz.
    + intros Ho. apply bind_Ok in Ho as (fs & _ & Ho). simpl in Ho.
      apply bind_Ok in Ho as (ow & Hw & Ho).
      apply bind_Ok in Ho as (h & _ & [= <-]). simpl.
      apply bind_Ok in Hw as (h' & _ & Hw).
      destruct (zarr_header_to_wcs h' nu) as [w|e]; [|discriminate].
      injection Hw as <-. eauto.
    + discriminate.
Qed.

(** *** The table of ranks *)

Lemma wcs_obj_Some (self : CRISP) (w : WCS) : wcs self = Some w → wcs_obj self = Ok w.
Proof. unfold wcs_obj. intros ->. reflexivity. Qed.

Lemma lonlat_wcs_rank2 (self : CRISP) (w : WCS) :
  wcs self = Some w → length (array_shape w) = 2%nat → lonlat_wcs self = Ok w.
Proof.
  intros Hw Hr. unfold lonlat_wcs. rewrite (wcs_obj_Some _ _ Hw). simpl.
  rewrite Hr. reflexivity.
Qed.





(** *** Index to world and back *)

(** C1, amended: on a wrapper whose WCS has a two-dimensional array shape
    and is a spatial WCS that round-trips ([spatial_roundtrip]: the
    library maps an in-range pixel pair to a helioprojective sky
    coordinate and that coordinate back to the pair), [to_lonlat(y, x)]
    returns a pair of numbers [(lon, lat)] and [from_lonlat(lon, lat)]
    returns the indices [y, x], for every pixel pair in range. *)
Theorem lonlat_roundtrip (self : CRISP) (w : WCS) (y x : Z) :
  wcs self = Some w → length (array_shape w) = 2%nat →
  spatial_roundtrip w → in_range w y x →
  ∃ lon lat, to_lonlat self y x false false = Ok (AsValues (Scalar lon) (Scalar lat))
             ∧ from_lonlat self lon lat = Ok [y; x].
Proof.
  intros Hw Hr Hrt Hin.
  destruct (Hrt y x Hin) as (sc & Hto & Hfrom).
  exists (Tx_arcsec sc), (Ty_arcsec sc). split.
  - unfold to_lonlat. rewrite (lonlat_wcs_rank2 _ _ Hw Hr). simpl.
    rewrite Hto. reflexivity.
  - unfold from_lonlat. simpl. rewrite (lonlat_wcs_rank2 _ _ Hw Hr). simpl.
    destruct sc. exact Hfrom.
Qed.
End CrispProperties.

(** ** The stub *)

Section StubFacts.
Import Stub Samples.

Lemma axis_pixel_world (ax : StubAxis) (p : Z) :
  cdelt ax ≠ 0 → axis_pixel ax (crval ax + cdelt ax * p) = p.
Proof.
  intros Hc. unfold axis_pixel.
  replace (2 * (crval ax + cdelt ax * p - crval ax) + cdelt ax)
    with (p * (2 * cdelt ax) + cdelt ax) by lia.
  rewrite Z.div_add_l by lia.
  rewrite (proj2 (Z.div_small_iff (cdelt ax) (2 * cdelt ax) ltac:(lia))) by lia.
  lia.
Qed.

(** A stub WCS of a latitude and a longitude axis with non-zero steps
    round-trips on every pixel pair. *)
Lemma stub_spatial_roundtrip (ay ax : StubAxis) (full : list StubAxis) :
  kind ay = Lat → kind ax = Lon → cdelt ay ≠ 0 → cdelt ax ≠ 0 →
  Crisp.spatial_roundtrip (mkWCS [ay; ax] full).
Proof.
  intros Hky Hkx Hcy Hcx y x _.
  exists (mkSkyCoord (crval ax + cdelt ax * x) (crval ay + cdelt ay * y)).
  split.
  - cbn. unfold stub_array_index_to_world. cbn. rewrite Hky, Hkx. reflexivity.
  - cbn. unfold stub_world_to_array_index. cbn. rewrite Hky, Hkx.
    case_decide as Hz; [destruct Hz; contradiction|].
    cbn. rewrite !axis_pixel_world by assumption. reflexivity.
Qed.

(** The round trip on the image [crisp[0, 5]], at the pixel (3, 4). *)
Lemma lonlat_roundtrip_image :
  ∃ lon lat,
    Crisp.to_lonlat image 3 4 false false = Ok (Crisp.AsValues (Scalar lon) (Scalar lat))
    ∧ Crisp.from_lonlat image lon lat = Ok [3; 4].
Proof.
  apply (lonlat_roundtrip image image_wcs 3 4).
  - reflexivity.
  - reflexivity.
  - apply stub_spatial_roundtrip; [reflexivity | reflexivity | discriminate | discriminate].
  - cbn. lia.
Defined.

(** C1, as stated, fails: the Stokes profiles of one pixel,
    [crisp[:, :, 10, 20]], are a wrapper whose WCS has a two-dimensional
    array shape (Stokes, wavelength); (1, 2) is in range and [to_lonlat]
    raises, because what the WCS returns for these axes is no sky
    coordinate. *)
Lemma lonlat_roundtrip_fails_on_profiles :
  Crisp.wcs profiles = Some profiles_wcs
  ∧ length (array_shape profiles_wcs) = 2%nat
  ∧ Crisp.in_range profiles_wcs 1 2
  ∧ Crisp.to_lonlat profiles 1 2 false false = Raise (AttributeError "Tx").
Proof. repeat split; cbn; lia. Qed.

End StubFacts.

(** ** Plotting and metadata *)

Section Plotting.
Context `{Extern}.
Import Crisp.

Lemma append_assoc (s t r : string) : ((s ++ t) ++ r = s ++ (t ++ r))%string.
Proof.
  induction s as [|c s IH]; [reflexivity|].
  change (String c ((s ++ t) ++ r) = String c (s ++ (t ++ r)))%string.
  f_equal. exact IH.
Qed.

Lemma header_get_lookup (self : CRISP) (h : Header num) (key : string) :
  header self = Ok h →
  header_get self key = match h !! key with
                        | Some v => Ok v
                        | None => Raise (KeyError key)
                        end.
Proof. unfold header_get. intros ->. reflexivity. Qed.

Lemma is_component_false (s : string) : s ∉ stokes_components → is_component s = false.
Proof. intros Hs. unfold is_component. apply bool_decide_eq_false_2, Hs. Qed.

Lemma all_components_false (stokes : string) :
  (∃ s, s ∈ chars stokes ∧ s ∉ stokes_components) → all_components stokes = false.
Proof.
  intros (s & Hin & Hs). unfold all_components.
  apply not_true_is_false. intros Hall.
  rewrite forallb_forall in Hall.
  apply list_elem_of_In in Hin. apply Hall in Hin.
  rewrite (is_component_false _ Hs) in Hin. discriminate.
Qed.

(** On the ranks that no branch tests, both methods compute their
    preliminaries and return without plotting and without an error. *)
Lemma plotting_other_ranks_silent (self : CRISP) (arr : ndarray) (stokes : string)
    (wavelength : Quantity num) (unit : option AstroUnit) (air d : bool)
    (frame : option string) :
  data self = Ok arr →
  (ndim arr ≠ 2%nat → ndim arr ≠ 3%nat →
   stokes_map self stokes frame
   = (_ ← stokes_map_title self; _ ← extent_of self (frame_of self frame); Ok None))
  ∧ (ndim arr ≠ 1%nat → ndim arr ≠ 2%nat →
     _plot_stokes self stokes wavelength unit air d
     = (_ ← plot_stokes_labels self;
        _ ← plot_stokes_wavelength wavelength unit air;
        Ok None)).
Proof.
  intros Hdata. split; intros Ha Hb.
  - unfold stokes_map.
    destruct (stokes_map_title self) as [title|e]; [|reflexivity]. simpl.
    destruct (extent_of self (frame_of self frame)) as [extent|e]; [|reflexivity]. simpl.
    rewrite Hdata. simpl.
    rewrite !decide_False by assumption. reflexivity.
  - unfold _plot_stokes.
    destruct (plot_stokes_labels self) as [[datetime el]|e]; [|reflexivity]. simpl.
    destruct (plot_stokes_wavelength wavelength unit air) as [wl|e]; [|reflexivity]. simpl.
    rewrite Hdata. simpl.
    rewrite !decide_False by assumption. reflexivity.
Qed.
(** C4, amended: [plot_spectrum] raises [IndexError] whenever the data is not
    one-dimensional.  On two-dimensional data [stokes_map] raises whenever
    more than one component, or one that is not I, Q, U or V, is requested,
    and [_plot_stokes] raises whenever a requested component (a character of
    [stokes], unless [stokes] is the keyword ["all"]) is not I, Q, U or V:
    in both, the title and the other preliminaries are computed first (they
    may raise themselves) and the error that follows them is the
    [ValueError] with the descriptive message.  No other dimensionality is
    checked: on data of a rank other than 2 and 3 [stokes_map], and on data
    of a rank other than 1 and 2 [_plot_stokes], return [None] after their
    preliminaries, without plotting and without an error. *)
Theorem plotting_rejects (self : CRISP) (arr : ndarray) (stokes : string)
    (wavelength : Quantity num) (unit : option AstroUnit) (air d : bool)
    (frame : option string) :
  data self = Ok arr →
  (ndim arr ≠ 1%nat →
   plot_spectrum self unit air d
   = Raise (IndexError "If you are using Stokes data please use the plot_stokes method."))
  ∧ (ndim arr = 2%nat →
     (1 < String.length stokes)%nat ∨ is_component stokes = false →
     stokes_map self stokes frame
     = (_ ← stokes_map_title self;
        _ ← extent_of self (frame_of self frame);
        Raise (one_component_only stokes))
     ∧ raises (stokes_map self stokes frame))
  ∧ (ndim arr = 2%nat →
     stokes ≠ "all" → (∃ s, s ∈ chars stokes ∧ s ∉ stokes_components) →
     _plot_stokes self stokes wavelength unit air d
     = (_ ← plot_stokes_labels self;
        _ ← plot_stokes_wavelength wavelength unit air;
        Raise (not_all_valid stokes))
     ∧ raises (_plot_stokes self stokes wavelength unit air d))
  ∧ (ndim arr ≠ 2%nat → ndim arr ≠ 3%nat →
     stokes_map self stokes frame
     = (_ ← stokes_map_title self; _ ← extent_of self (frame_of self frame); Ok None))
  ∧ (ndim arr ≠ 1%nat → ndim arr ≠ 2%nat →
     _plot_stokes self stokes wavelength unit air d
     = (_ ← plot_stokes_labels self;
        _ ← plot_stokes_wavelength wavelength unit air;
        Ok None)).
Proof.
  intros Hdata. split; [|split; [|split]];
    [| | |exact (plotting_other_ranks_silent self arr stokes wavelength unit air d frame Hdata)].
  - intros Hn. unfold plot_spectrum. rewrite Hdata. simpl.
    rewrite decide_True by exact Hn. reflexivity.
  - intros Hn Hbad.
    assert (Hcond : bool_decide (String.length stokes = 1%nat) && is_component stokes = false).
    { destruct Hbad as [Hlen | ->].
      - rewrite bool_decide_eq_false_2 by lia. reflexivity.
      - apply andb_false_r. }
    assert (Heq : stokes_map self stokes frame
                  = (_ ← stokes_map_title self;
                     _ ← extent_of self (frame_of self frame);
                     Raise (one_component_only stokes))).
    { unfold stokes_map.
      destruct (stokes_map_title self) as [title|e]; [|reflexivity]. simpl.
      destruct (extent_of self (frame_of self frame)) as [extent|e]; [|reflexivity]. simpl.
      rewrite Hdata. simpl.
      rewrite decide_True by exact Hn.
      rewrite Hcond. reflexivity. }
    split; [exact Heq|].
    rewrite Heq.
    destruct (stokes_map_title self) as [title|e]; [|eexists; reflexivity]. simpl.
    apply bind_raises.
  - intros Hn Hall Hbad.
    assert (Hcond : all_components stokes = false) by (apply all_components_false, Hbad).
    assert (Heq : _plot_stokes self stokes wavelength unit air d
                  = (_ ← plot_stokes_labels self;
                     _ ← plot_stokes_wavelength wavelength unit air;
                     Raise (not_all_valid stokes))).
    { unfold _plot_stokes.
      destruct (plot_stokes_labels self) as [[datetime el]|e]; [|reflexivity]. simpl.
      destruct (plot_stokes_wavelength wavelength unit air) as [wl|e]; [|reflexivity]. simpl.
      rewrite Hdata. simpl.
      rewrite decide_False by (rewrite Hn; discriminate).
      rewrite decide_True by exact Hn.
      rewrite (proj2 (String.eqb_neq _ _) Hall).
      rewrite Hcond, andb_false_r. reflexivity. }
    split; [exact Heq|].
    rewrite Heq.
    destruct (plot_stokes_labels self) as [lbl|e]; [|eexists; reflexivity]. simpl.
    apply bind_raises.
Qed.

(** Without the keyword, also five or more valid components are rejected. *)
Lemma plot_stokes_rejects_long (self : CRISP) (arr : ndarray) (stokes : string)
    (wavelength : Quantity num) (unit : option AstroUnit) (air d : bool) :
  data self = Ok arr → ndim arr = 2%nat → (5 ≤ String.length stokes)%nat →
  raises (_plot_stokes self stokes wavelength unit air d).
Proof.
  intros Hdata Hn Hlen. unfold _plot_stokes.
  destruct (plot_stokes_labels self) as [[datetime el]|e]; [|eexists; reflexivity]. simpl.
  destruct (plot_stokes_wavelength wavelength unit air) as [wl|e]; [|eexists; reflexivity].
  simpl. rewrite Hdata. simpl.
  rewrite decide_False by (rewrite Hn; discriminate).
  rewrite decide_True by exact Hn.
  destruct (String.eqb_spec stokes "all") as [->|_]; [simpl in Hlen; lia|].
  rewrite bool_decide_eq_false_2 by lia. eexists; reflexivity.
Qed.

End Plotting.

(** ** Construction of a sequence *)

Section SequenceInit.
Context `{Extern}.
Import Crisp.

Lemma comprehension_Ok {A B} (f : A → res B) (xs : list A) (ys : list B) :
  comprehension f xs = Ok ys ↔ Forall2 (λ x y, f x = Ok y) xs ys.
Proof.
  revert ys. induction xs as [|x xs IH]; intros ys; simpl.
  - split.
    + intros [= <-]. constructor.
    + intros Hall. inversion Hall. reflexivity.
  - split.
    + intros Hc. apply bind_Ok in Hc as (y & Hy & Hc).
      apply bind_Ok in Hc as (ys' & Hys & [= <-]).
      constructor; [exact Hy | apply IH, Hys].
    + intros Hall. inversion Hall as [|? y ? ys' Hy Hys]; subst.
      rewrite Hy. simpl. apply IH in Hys. rewrite Hys. reflexivity.
Qed.

Lemma comprehension_total {A B} (f : A → res B) (xs : list A) :
  Forall (λ x, is_Ok (f x)) xs → is_Ok (comprehension f xs).
Proof.
  induction 1 as [|x xs [y Hy] _ [ys Hys]]; simpl.
  - eexists; reflexivity.
  - rewrite Hy. simpl. rewrite Hys. eexists; reflexivity.
Qed.

(** C8: [CRISPSequence(files)] calls [CRISP( **f)] on the dicts in order.
    When every one of these calls returns, the constructor returns; and
    whenever it returns, [self.list] has exactly as many wrappers as
    [files] has dicts and its [i]-th wrapper is the one constructed from the
    [i]-th dict. *)
Theorem sequence_init_in_order (files : list Kwargs) :
  (Forall (λ f, is_Ok (CRISP_of_kwargs f)) files → is_Ok (seq__init__ files))
  ∧ ∀ s, seq__init__ files = Ok s →
      length (obs_list s) = length files
      ∧ ∀ (i : nat) f, files !! i = Some f →
          ∃ o, obs_list s !! i = Some o ∧ CRISP_of_kwargs f = Ok o.
Proof.
  split.
  - intros Hall. unfold seq__init__.
    destruct (comprehension_total _ _ Hall) as [obs ->]. eexists; reflexivity.
  - intros s Hs. unfold seq__init__ in Hs.
    apply bind_Ok in Hs as (obs & Hobs & [= <-]). simpl.
    apply comprehension_Ok in Hobs. split.
    + symmetry. eapply Forall2_length, Hobs.
    + intros i f Hf.
      destruct (Forall2_lookup_l _ _ _ _ _ Hobs Hf) as (o & Ho & Hfo). eauto.
Qed.
End SequenceInit.

(** ** Metadata under the alternate key names *)

Section Metadata.
Context `{Extern}.
Import Crisp.

(** C5, amended: on a wrapper whose header has no ["DATE-AVG"], [time],
    [date], the labels of the [_plot_stokes] title and [__str__] read the
    alternate keys and return the result built from them, provided those
    keys are there: [time_obs] for [time]; [date_obs] for [date]; [date_obs]
    and [time_obs], both strings, and [element] for the title; [time_obs],
    [date_obs], [element], and [crval] and [dimensions] with the entries
    [-1], [-2], [-3] that the summary shows, for [__str__].  When the first
    alternate key an operation reads is missing as well, it raises
    [KeyError]. *)
Theorem metadata_fallback (self : CRISP) (h : Header num) :
  header self = Ok h → h !! "DATE-AVG" = None →
  (∀ t, h !! "time_obs" = Some t → time self = Ok t)
  ∧ (∀ d, h !! "date_obs" = Some d → date self = Ok d)
  ∧ (∀ d t el, h !! "date_obs" = Some (VStr d) → h !! "time_obs" = Some (VStr t) →
       h !! "element" = Some el →
       plot_stokes_labels self = Ok (VStr (d ++ "T" ++ t), el))
  ∧ (∀ t d crval dims el cl ww px py,
       h !! "time_obs" = Some t → h !! "date_obs" = Some d →
       h !! "crval" = Some crval → h !! "dimensions" = Some dims →
       h !! "element" = Some el →
       val_neg_index 3 crval = Ok cl → val_neg_index 3 dims = Ok ww →
       val_neg_index 1 crval = Ok px → val_neg_index 2 crval = Ok py →
       __str__ self = Ok (summary (aa self) (fmt d) (fmt t) (fmt el) (fmt cl) (fmt ww)
                            (fmt px) (fmt py) (fmt dims)))
  ∧ (h !! "time_obs" = None →
       time self = Raise (KeyError "time_obs")
       ∧ __str__ self = Raise (KeyError "time_obs"))
  ∧ (h !! "date_obs" = None →
       date self = Raise (KeyError "date_obs")
       ∧ plot_stokes_labels self = Raise (KeyError "date_obs")).
Proof.
  intros Hh Hno.
  assert (Hget : ∀ key, header_get self key = match h !! key with
                                              | Some v => Ok v
                                              | None => Raise (KeyError key)
                                              end)
    by (intros key; apply header_get_lookup, Hh).
  split; [|split; [|split; [|split; [|split]]]].
  - intros t Ht. unfold time. rewrite !Hget, Hno, Ht. reflexivity.
  - intros d Hd. unfold date. rewrite !Hget, Hno, Hd. reflexivity.
  - intros d t el Hd Ht Hel. unfold plot_stokes_labels.
    rewrite !Hget, Hno, Hd, Ht, Hel. simpl.
    rewrite append_assoc. reflexivity.
  - intros t d crval dims el cl ww px py Ht Hd Hc Hdims Hel Hcl Hww Hpx Hpy.
    unfold __str__. rewrite !Hget, Hno, Ht, Hd, Hc, Hdims, Hel. simpl.
    rewrite Hcl, Hww, Hpx, Hpy. reflexivity.
  - intros Ht. split.
    + unfold time. rewrite !Hget, Hno, Ht. reflexivity.
    + unfold __str__. rewrite !Hget, Hno, Ht. reflexivity.
  - intros Hd. split.
    + unfold date. rewrite !Hget, Hno, Hd. reflexivity.
    + unfold plot_stokes_labels. rewrite !Hget, Hno, Hd. reflexivity.
Qed.
End Metadata.

(** ** Rotating, cropping and reconstructing *)

Section RotateCrop.
Context `{Extern}.
Import Crisp.

Lemma set_header_item_spec (self : CRISP) (h : Header num) (k : string) (v : pyval num) :
  header self = Ok h →
  ∃ self', set_header_item k v self = (Ok (), self')
           ∧ header self' = Ok (<[k := v]> h) ∧ header_patched self self'
           ∧ rotate self' = rotate self.
Proof.
  unfold header, set_header_item, bind_M, get, put, raise_M, header_patched, data.
  destruct self as [fs ? ? ? ? ? ? ? ? ? ? ? ?]. simpl.
  destruct fs as [d h0|od]; simpl.
  - intros [= ->]. eexists. split; [reflexivity|]. simpl. repeat split.
  - destruct (od !! "header") as [[arr|h0|v0]|] eqn:Hod; simpl; try discriminate.
    intros [= ->]. eexists. split; [reflexivity|]. simpl.
    rewrite lookup_insert_eq. simpl.
    rewrite lookup_insert_ne by discriminate. repeat split.
Qed.

Lemma header_patched_trans (s1 s2 s3 : CRISP) :
  header_patched s1 s2 → header_patched s2 s3 → header_patched s1 s3.
Proof.
  unfold header_patched.
  intros (? & ? & ? & ? & ? & ?) (? & ? & ? & ? & ? & ?).
  repeat split; etrans; eassumption.
Qed.

Lemma for_each_set_header (kvs : list (string * pyval num)) (self : CRISP) (h : Header num) :
  header self = Ok h →
  ∃ self', for_each kvs (λ kv, set_header_item kv.1 kv.2) self = (Ok (), self')
           ∧ header self' = Ok (foldl (λ m kv, <[kv.1 := kv.2]> m) h kvs)
           ∧ header_patched self self' ∧ rotate self' = rotate self.
Proof.
  revert self h. induction kvs as [|[k v] kvs IH]; intros self h Hh; simpl.
  - exists self. repeat split. exact Hh.
  - destruct (set_header_item_spec self h k v Hh) as (s1 & Hrun & Hh1 & Hp1 & Hr1).
    destruct (IH s1 _ Hh1) as (s2 & Hrun2 & Hh2 & Hp2 & Hr2).
    exists s2. split; [|split; [exact Hh2 | split]].
    + rewrite (bind_M_Ok _ _ _ _ _ Hrun). exact Hrun2.
    + eapply header_patched_trans; eassumption.
    + congruence.
Qed.

Lemma foldl_insert_notin (kvs : list (string * pyval num)) (h : Header num) (k : string) :
  k ∉ kvs.*1 → foldl (λ m kv, <[kv.1 := kv.2]> m) h kvs !! k = h !! k.
Proof.
  revert h. induction kvs as [|[k' v'] kvs IH]; intros h Hk; simpl; [reflexivity|].
  simpl in Hk. apply not_elem_of_cons in Hk as [Hne Hk].
  rewrite IH by exact Hk. apply lookup_insert_ne. congruence.
Qed.

Lemma foldl_insert_in (kvs : list (string * pyval num)) (h : Header num)
    (k : string) (v : pyval num) :
  NoDup kvs.*1 → (k, v) ∈ kvs → foldl (λ m kv, <[kv.1 := kv.2]> m) h kvs !! k = Some v.
Proof.
  revert h. induction kvs as [|[k' v'] kvs IH]; intros h Hnd Hin; simpl.
  - inversion Hin.
  - simpl in Hnd. apply NoDup_cons in Hnd as [Hk' Hnd].
    apply elem_of_cons in Hin as [[= -> ->]|Hin].
    + rewrite foldl_insert_notin by exact Hk'. apply lookup_insert_eq.
    + apply IH; assumption.
Qed.

(** The header after the loop [for k, v in crop_dict.items()] *)
Lemma patched_lookup (crop_dict h : Header num) (k : string) :
  foldl (λ m kv, <[kv.1 := kv.2]> m) h (map_to_list crop_dict) !! k
  = match crop_dict !! k with
    | Some v => Some v
    | None => h !! k
    end.
Proof.
  destruct (crop_dict !! k) as [v|] eqn:Hk.
  - apply foldl_insert_in.
    + apply NoDup_fst_map_to_list.
    + apply elem_of_map_to_list, Hk.
  - apply foldl_insert_notin. intros Hin.
    apply list_elem_of_fmap in Hin as ([k' v'] & -> & Hin).
    apply elem_of_map_to_list in Hin. simpl in Hk. congruence.
Qed.

Lemma set_file_data_spec (self : CRISP) (arr : ndarray) :
  ∃ self', set_file_data arr self = (Ok (), self')
           ∧ data self' = Ok arr
           ∧ (∀ h, header self = Ok h → header self' = Ok h)
           ∧ wcs self' = wcs self ∧ uncertainty self' = uncertainty self
           ∧ mask self' = mask self ∧ full_frame self' = full_frame self
           ∧ rot_data self' = rot_data self.
Proof.
  eexists. split; [reflexivity|].
  destruct self as [fs ? ? ? ? ? ? ? ? ? ? ? ?].
  unfold data, header. destruct fs as [d h0|od]; simpl.
  - repeat split. intros h Hh. exact Hh.
  - rewrite lookup_insert_eq. simpl.
    rewrite lookup_insert_ne by discriminate. repeat split.
    intros h Hh. exact Hh.
Qed.

Lemma crop_dict_comprehension (self : CRISP) (h : Header num) :
  header self = Ok h → Forall (λ k, is_Some (h !! k)) crop_keys →
  comprehension (λ k, v ← header_get self k; Ok (k, v)) crop_keys
  = Ok (omap (λ k, (λ v, (k, v)) <$> h !! k) crop_keys).
Proof.
  intros Hh Hall. induction Hall as [|k ks [v Hv] _ IH]; simpl; [reflexivity|].
  rewrite (header_get_lookup _ _ _ Hh), Hv. simpl. rewrite IH. reflexivity.
Qed.

(** C3: [rotate_crop(sep=False)], when [rotate_crop_data] returns the
    cropped array and a dict whose keys are among [frame_dims], [x_min],
    [x_max], [y_min], [y_max] and [angle], stores the cropped array, keeps
    the original in [full_frame], sets every entry of the dict in the header
    and leaves every other header entry, [uncertainty], [mask] and [wcs] as
    they were.  [reconstruct_full_frame(sep=False)], on a header that has
    the six keys, stores the reconstructed array, keeps the rotated one in
    [rot_data] and leaves the header, [uncertainty], [mask] and [wcs] as
    they were.  (Both also set the flag [rotate].) *)
Theorem rotate_crop_frame (self : CRISP) (arr : ndarray) (h : Header num) :
  data self = Ok arr → header self = Ok h →
  (∀ crop crop_dict,
     rotate_crop_data arr = Ok (crop, crop_dict) →
     (∀ k, is_Some (crop_dict !! k) → k ∈ crop_keys) →
     ∃ self' h',
       rotate_crop false self = (Ok None, self')
       ∧ data self' = Ok crop ∧ full_frame self' = Some arr
       ∧ header self' = Ok h'
       ∧ (∀ k v, crop_dict !! k = Some v → h' !! k = Some v)
       ∧ (∀ k, k ∉ crop_keys → h' !! k = h !! k)
       ∧ uncertainty self' = uncertainty self ∧ mask self' = mask self
       ∧ wcs self' = wcs self ∧ rotate self' = true)
  ∧ (∀ full,
       Forall (λ k, is_Some (h !! k)) crop_keys →
       utils_reconstruct_full_frame (crop_dict_from h) arr = Ok full →
       ∃ self',
         reconstruct_full_frame false self = (Ok None, self')
         ∧ data self' = Ok full ∧ rot_data self' = Some arr
         ∧ header self' = Ok h
         ∧ uncertainty self' = uncertainty self ∧ mask self' = mask self
         ∧ wcs self' = wcs self ∧ rotate self' = false).
Proof.
  intros Hdata Hh. split.
  - intros crop crop_dict Hcrop Hkeys.
    unfold rotate_crop.
    rewrite (reading_Ok data _ self arr Hdata).
    rewrite (bind_M_Ok (set_full_frame arr) _ self _ () eq_refl).
    set (s1 := mkCRISP (file self) (wcs self) (nonu self) (uncertainty self) (mask self)
                 (aa self) (a self) (l self) (D self) (rotate self) (ind self)
                 (Some arr) (rot_data self)).
    rewrite (reading_Ok data _ s1 arr Hdata).
    rewrite (reading_Ok (λ _, rotate_crop_data arr) _ s1 _ Hcrop).
    destruct (for_each_set_header (map_to_list crop_dict) s1 h Hh)
      as (s2 & Hrun2 & Hh2 & (Hd2 & Hw2 & Hu2 & Hm2 & Hf2 & Hr2) & Hrot2).
    rewrite (bind_M_Ok _ _ _ _ _ Hrun2).
    destruct (set_file_data_spec s2 crop)
      as (s3 & Hrun3 & Hd3 & Hh3 & Hw3 & Hu3 & Hm3 & Hf3 & Hr3).
    rewrite (bind_M_Ok _ _ _ _ _ Hrun3).
    eexists. exists (foldl (λ m kv, <[kv.1 := kv.2]> m) h (map_to_list crop_dict)).
    split; [reflexivity|]. simpl.
    destruct s3 as [fs3 ? ? ? ? ? ? ? ? ? ? ? ?]. simpl in *.
    split; [exact Hd3|]. split; [congruence|].
    split; [apply Hh3, Hh2|].
    split; [|split; [|repeat split; congruence]].
    + intros k v Hk. rewrite patched_lookup, Hk. reflexivity.
    + intros k Hk. rewrite patched_lookup.
      destruct (crop_dict !! k) as [v|] eqn:Hck; [|reflexivity].
      exfalso. apply Hk, Hkeys. eauto.
  - intros full Hall Hfull.
    unfold reconstruct_full_frame.
    rewrite (reading_Ok header _ self h Hh).
    destruct (Forall_cons_1 _ _ _ Hall) as [Hfd _].
    rewrite (bool_decide_eq_true_2 _ Hfd). simpl.
    rewrite (bind_M_Ok (ret_M ()) _ self _ () eq_refl).
    rewrite (reading_Ok _ _ self _ (crop_dict_comprehension self h Hh Hall)).
    fold (crop_dict_from h).
    rewrite (reading_Ok data _ self arr Hdata).
    rewrite (bind_M_Ok (set_rot_data arr) _ self _ () eq_refl).
    set (s1 := mkCRISP (file self) (wcs self) (nonu self) (uncertainty self) (mask self)
                 (aa self) (a self) (l self) (D self) (rotate self) (ind self)
                 (full_frame self) (Some arr)).
    rewrite (reading_Ok data _ s1 arr Hdata).
    rewrite (reading_Ok (λ _, utils_reconstruct_full_frame (crop_dict_from h) arr) _ s1 _ Hfull).
    destruct (set_file_data_spec s1 full)
      as (s3 & Hrun3 & Hd3 & Hh3 & Hw3 & Hu3 & Hm3 & Hf3 & Hr3).
    rewrite (bind_M_Ok _ _ _ _ _ Hrun3).
    eexists. split; [reflexivity|]. simpl.
    destruct s3 as [fs3 ? ? ? ? ? ? ? ? ? ? ? ?]. simpl in *.
    split; [exact Hd3|]. split; [congruence|].
    split; [apply Hh3, Hh|].
    repeat split; congruence.
Qed.
End RotateCrop.

(** ** The samples, run *)

Section SampleRuns.
Import Stub Samples.

Example contains_fits : contains ".fits" "crisp_8542.fits" = true.
Proof. reflexivity. Qed.

Example contains_not : contains ".zarr" "crisp_8542.fits" = false.
Proof. reflexivity. Qed.

Example str_last_time : str_last 12 "2014-09-06T16:53:19.123" = "16:53:19.123".
Proof. reflexivity. Qed.

Example str_drop_last_date : str_drop_last 13 "2014-09-06T16:53:19.123" = "2014-09-06".
Proof. reflexivity. Qed.

Example neg_index_3 : neg_index 3 [10; 20; 30; 40] = Some 20.
Proof. reflexivity. Qed.

Example naxis_keys_4 : Crisp.naxis_keys 4 = ["NAXIS4"; "NAXIS3"; "NAXIS2"; "NAXIS1"].
Proof. reflexivity. Qed.

Example str_of_fits :
  (o ← Crisp.__init__ (Crisp.FStr "crisp.fits") None None None false; Crisp.time o)
  = Ok (VStr "16:53:19.123").
Proof. reflexivity. Qed.

(** C9, at the failing input: an [ObjDict] with the keys ["data"], ["header"]
    and [".fits"], passed with [wcs=None].  [".fits" in filename] is a test
    on the keys of the dict and holds, so the constructor builds a WCS from
    the container's header instead of leaving [wcs] at [None]. *)
Theorem ObjDict_with_fits_key_gets_wcs :
  Crisp.wcs <$> Crisp.__init__ (Crisp.FObjDict od_with_fits_key) None None None false
  = Ok (Some (unsliced cube_axes)).
Proof. reflexivity. Qed.

(** The same container without that key: [wcs] stays [None]. *)
Example ObjDict_without_fits_key :
  Crisp.wcs <$> Crisp.__init__ (Crisp.FObjDict (container cube zarr_header)) None None None false
  = Ok None.
Proof. reflexivity. Qed.

(** [CRISP] rejects an [int] and a string that names neither format. *)
Example CRISP_init_rejects :
  Crisp.__init__ (Crisp.FOther "int") None None None false = Raise (NotImplementedError "m8 y?")
  ∧ Crisp.__init__ (Crisp.FStr "crisp.txt") None None None false
    = Raise (NotImplementedError "m8 y?").
Proof. split; apply CRISP_init_unsupported_raises; simpl; auto. Qed.

Lemma crop_dict_of_keys (arr : StubArray) (k : string) :
  is_Some (crop_dict_of arr !! k) → k ∈ Crisp.crop_keys.
Proof.
  intros [v Hv]. unfold crop_dict_of in Hv.
  apply elem_of_list_to_map_2 in Hv.
  apply (list_elem_of_fmap_2 fst) in Hv. exact Hv.
Qed.

(** Rotating and reconstructing the sample on rotated data. *)
Lemma rotate_crop_frame_rotated :
  (∃ self' h',
     Crisp.rotate_crop false rotated = (Ok None, self')
     ∧ Crisp.data self' = Ok (mkArray [4; 11; 50; 60] "crop of cube")
     ∧ Crisp.full_frame self' = Some cube
     ∧ Crisp.header self' = Ok h'
     ∧ (∀ k v, crop_dict_of cube !! k = Some v → h' !! k = Some v)
     ∧ (∀ k, k ∉ Crisp.crop_keys → h' !! k = rotated_header !! k)
     ∧ Crisp.uncertainty self' = None ∧ Crisp.mask self' = None
     ∧ Crisp.wcs self' = Some (unsliced cube_axes) ∧ Crisp.rotate self' = true)
  ∧ (∃ self',
       Crisp.reconstruct_full_frame false rotated = (Ok None, self')
       ∧ Crisp.data self' = Ok (mkArray [4; 11; 50; 60] "full frame of cube")
       ∧ Crisp.rot_data self' = Some cube
       ∧ Crisp.header self' = Ok rotated_header
       ∧ Crisp.uncertainty self' = None ∧ Crisp.mask self' = None
       ∧ Crisp.wcs self' = Some (unsliced cube_axes) ∧ Crisp.rotate self' = false).
Proof.
  destruct (rotate_crop_frame rotated cube rotated_header eq_refl eq_refl) as [Hrc Hrf].
  split.
  - apply (Hrc _ (crop_dict_of cube) eq_refl). apply crop_dict_of_keys.
  - apply Hrf.
    + repeat (apply Forall_cons; split; [eexists; reflexivity|]). constructor.
    + reflexivity.
Defined.

(** The rejections on the samples: the Stokes profiles of one pixel for
    [plot_spectrum] and [_plot_stokes], one image for [stokes_map]. *)
Lemma plotting_rejects_samples :
  Crisp.plot_spectrum profiles None false false
  = Raise (IndexError "If you are using Stokes data please use the plot_stokes method.")
  ∧ Crisp.stokes_map image "IQ" None = Raise (Crisp.one_component_only "IQ")
  ∧ Crisp._plot_stokes profiles "IX" (mkQuantity (Vector [8542; 8543]) Angstrom) None false false
    = Raise (Crisp.not_all_valid "IX").
Proof.
  pose proof (plotting_rejects profiles (mkArray [4; 11] "profiles") "IX"
                (mkQuantity (Vector [8542; 8543]) Angstrom) None false false None eq_refl)
    as (Hspec & _ & Hplot & _).
  pose proof (plotting_rejects image (mkArray [50; 60] "image") "IQ"
                (mkQuantity (Vector [8542; 8543]) Angstrom) None false false None eq_refl)
    as (_ & Hmap & _).
  split; [|split].
  - apply Hspec. discriminate.
  - destruct (Hmap eq_refl) as [Heq _]; [left; simpl; lia|].
    rewrite Heq. reflexivity.
  - destruct (Hplot eq_refl) as [Heq _].
    + discriminate.
    + exists "X". split.
      * simpl. rewrite !elem_of_cons. right. left. reflexivity.
      * unfold Crisp.stokes_components. rewrite !not_elem_of_cons.
        repeat split; try discriminate. apply not_elem_of_nil.
    + rewrite Heq. reflexivity.
Defined.

(** C4, as stated, fails: not every plotting call with mismatched
    dimensionality is rejected.  The whole cube is four-dimensional;
    [plot_stokes] and [_plot_stokes] test for one and for two dimensions
    only and have no [else], so on the cube they compute the wavelengths and
    the title and return [None], without plotting and without an error,
    whatever [stokes] is. *)
Lemma plotting_silent_on_cube :
  Crisp.data whole = Ok cube
  ∧ ndim cube = 4%nat
  ∧ Crisp.plot_stokes whole "not a Stokes" None false false = Ok None
  ∧ Crisp._plot_stokes whole "not a Stokes" (mkQuantity (Vector [8542; 8543]) Angstrom)
      None false false
    = Ok None.
Proof. split; [|split; [|split]]; reflexivity. Qed.

(** The fallback on the whole cube, whose header has the alternate keys
    only. *)
Lemma metadata_fallback_whole :
  Crisp.time whole = Ok (VStr "16:53:19.123")
  ∧ Crisp.date whole = Ok (VStr "2014-09-06")
  ∧ Crisp.plot_stokes_labels whole = Ok (VStr "2014-09-06T16:53:19.123", VStr "Ca II 8542")
  ∧ Crisp.__str__ whole
    = Ok (Crisp.summary angstrom_sign "2014-09-06" "16:53:19.123" "Ca II 8542" "8542" "11"
            "500" "-300" "[4, 11, 50, 60]").
Proof.
  pose proof (metadata_fallback whole zarr_header eq_refl eq_refl)
    as (Htime & Hdate & Hlabels & Hstr & _).
  split; [|split; [|split]].
  - apply Htime. reflexivity.
  - apply Hdate. reflexivity.
  - apply (Hlabels "2014-09-06" "16:53:19.123"); reflexivity.
  - apply (Hstr (VStr "16:53:19.123") (VStr "2014-09-06")
             (VSeq [VNum 1; VNum 8542; VNum (-300); VNum 500])
             (VSeq [VNum 4; VNum 11; VNum 50; VNum 60])
             (VStr "Ca II 8542") (VNum 8542) (VNum 11) (VNum 500) (VNum (-300)));
      reflexivity.
Defined.

(** C5, as stated, fails: a wrapper whose header has none of the FITS keys
    and none of the alternate keys either.  Every one of the four
    operations raises [KeyError]. *)
Lemma fallback_fails_on_bare :
  Crisp.header bare = Ok ∅
  ∧ Crisp.time bare = Raise (KeyError "time_obs")
  ∧ Crisp.date bare = Raise (KeyError "date_obs")
  ∧ Crisp.__str__ bare = Raise (KeyError "time_obs")
  ∧ Crisp.plot_stokes_labels bare = Raise (KeyError "date_obs").
Proof. repeat split. Qed.

(** A sequence of two observations, one from a FITS and one from a Zarr
    file. *)
Lemma sequence_init_two_files :
  ∃ s, Crisp.seq__init__ two_files = Ok s
       ∧ length (Crisp.obs_list s) = 2%nat
       ∧ (∃ o, Crisp.obs_list s !! 0%nat = Some o ∧ Crisp.CRISP_of_kwargs fits_kwargs = Ok o)
       ∧ (∃ o, Crisp.obs_list s !! 1%nat = Some o ∧ Crisp.CRISP_of_kwargs zarr_kwargs = Ok o).
Proof.
  destruct (sequence_init_in_order two_files) as [Htotal Horder].
  destruct Htotal as [s Hs].
  { repeat (apply Forall_cons; split; [eexists; reflexivity|]). constructor. }
  exists s. split; [exact Hs|].
  destruct (Horder s Hs) as [Hlen Hith].
  split; [exact Hlen|]. split.
  - apply (Hith 0%nat). reflexivity.
  - apply (Hith 1%nat). reflexivity.
Defined.
End SampleRuns.

(** * Further properties *)

(** ** Dates, times and the summary *)

Section DateTime.
Context `{Extern}.
Import Crisp.

Lemma substring_from_0 (s : string) : String.substring 0 (String.length s) s = s.
Proof. induction s as [|c s IH]; simpl; [reflexivity | rewrite IH; reflexivity]. Qed.

Lemma substring_split_at (s : string) (k : nat) :
  (k < String.length s)%nat →
  ∃ c, s = (String.substring 0 k s
            ++ String c (String.substring (S k) (String.length s - S k) s))%string.
Proof.
  revert k. induction s as [|c s IH]; intros k Hk; simpl in Hk; [lia|].
  destruct k as [|k].
  - exists c. simpl. rewrite Nat.sub_0_r, substring_from_0. reflexivity.
  - destruct (IH k ltac:(lia)) as [c' Hc']. exists c'.
    change (String.substring 0 (S k) (String c s)) with (String c (String.substring 0 k s)).
    change (String.substring (S (S k)) (String.length (String c s) - S (S k)) (String c s))
      with (String.substring (S k) (String.length s - S k) s).
    change (String c s = String c (String.substring 0 k s
              ++ String c' (String.substring (S k) (String.length s - S k) s))%string).
    f_equal. exact Hc'.
Qed.

Lemma substring_length (s : string) (k m : nat) :
  (k + m ≤ String.length s)%nat → String.length (String.substring k m s) = m.
Proof.
  revert k m. induction s as [|c s IH]; intros k m Hle; simpl in Hle.
  - assert (k = 0%nat) by lia. assert (m = 0%nat) by lia. subst. reflexivity.
  - destruct k as [|k].
    + destruct m as [|m]; [reflexivity|]. simpl. rewrite IH by lia. reflexivity.
    + simpl. apply IH. lia.
Qed.

Lemma substring_all (s : string) (m : nat) :
  (String.length s ≤ m)%nat → String.substring 0 m s = s.
Proof.
  revert m. induction s as [|c s IH]; intros m Hle; simpl in Hle.
  - destruct m; reflexivity.
  - destruct m as [|m]; [lia|]. simpl. rewrite IH by lia. reflexivity.
Qed.

(** X1: on a header whose ["DATE-AVG"] is a string, the [date] and [time]
    properties cut it 13 characters from its end.  When the string has at
    least 13 characters, [time] is its last 12 characters, [date] is
    everything before the character in front of them, and that one
    character (the ["T"] of an ISO date) is dropped; when it has at most 12
    characters, [time] is the whole string and [date] is empty. *)
Theorem date_time_split (self : CRISP) (h : Header num) (s : string) :
  header self = Ok h → h !! "DATE-AVG" = Some (VStr s) →
  ∃ d t, date self = Ok (VStr d) ∧ time self = Ok (VStr t)
         ∧ ((13 ≤ String.length s)%nat →
            String.length t = 12%nat ∧ ∃ c, s = (d ++ String c t)%string)
         ∧ ((String.length s ≤ 12)%nat → d = "" ∧ t = s).
Proof.
  intros Hh Hs.
  exists (str_drop_last 13 s), (str_last 12 s).
  split; [|split; [|split]].
  - unfold date. rewrite (header_get_lookup _ _ _ Hh), Hs. reflexivity.
  - unfold time. rewrite (header_get_lookup _ _ _ Hh), Hs. reflexivity.
  - intros Hlen. unfold str_last, str_drop_last. split.
    + apply substring_length. lia.
    + destruct (substring_split_at s (String.length s - 13) ltac:(lia)) as [c Hc].
      exists c.
      assert (E1 : (String.length s - S (String.length s - 13) = 12)%nat) by lia.
      assert (E2 : S (String.length s - 13) = (String.length s - 12)%nat) by lia.
      rewrite E1, E2 in Hc. exact Hc.
  - intros Hlen. unfold str_last, str_drop_last.
    replace (String.length s - 13)%nat with 0%nat by lia.
    replace (String.length s - 12)%nat with 0%nat by lia.
    split; [destruct s; reflexivity | apply substring_all; lia].
Qed.

(** X2: [__str__] never mixes the two naming conventions.  On a header that
    has ["DATE-AVG"] but not ["TWAVE1"], the whole summary, its date and
    time included, is built from the alternate keys, while the [time]
    property still answers from ["DATE-AVG"]; and when ["time_obs"] is
    missing too, [__str__] raises [KeyError] although ["DATE-AVG"] is
    there. *)
Theorem str_no_mixing (self : CRISP) (h : Header num) (s : string) :
  header self = Ok h → h !! "DATE-AVG" = Some (VStr s) → h !! "TWAVE1" = None →
  time self = Ok (VStr (str_last 12 s))
  ∧ (h !! "time_obs" = None → __str__ self = Raise (KeyError "time_obs"))
  ∧ (∀ t d crval dims el cl ww px py,
       h !! "time_obs" = Some t → h !! "date_obs" = Some d →
       h !! "crval" = Some crval → h !! "dimensions" = Some dims →
       h !! "element" = Some el →
       val_neg_index 3 crval = Ok cl → val_neg_index 3 dims = Ok ww →
       val_neg_index 1 crval = Ok px → val_neg_index 2 crval = Ok py →
       __str__ self = Ok (summary (aa self) (fmt d) (fmt t) (fmt el) (fmt cl) (fmt ww)
                            (fmt px) (fmt py) (fmt dims))).
Proof.
  intros Hh Hs Hno.
  assert (Hget : ∀ key, header_get self key = match h !! key with
                                              | Some v => Ok v
                                              | None => Raise (KeyError key)
                                              end)
    by (intros key; apply header_get_lookup, Hh).
  split; [|split].
  - unfold time. rewrite !Hget, Hs. reflexivity.
  - intros Ht. unfold __str__. rewrite !Hget, Hs, Hno, Ht. reflexivity.
  - intros t d crval dims el cl ww px py Ht Hd Hc Hdims Hel Hcl Hww Hpx Hpy.
    unfold __str__. rewrite !Hget, Hs, Hno, Ht, Hd, Hc, Hdims, Hel. simpl.
    rewrite Hcl, Hww, Hpx, Hpy. reflexivity.
Qed.
End DateTime.

Section DateTimeSamples.
Import Stub Samples MoreSamples.

(** The date and time of the FITS header of the stub, and of a date that is
    too short to hold both. *)
Lemma date_time_split_fits :
  ∃ d t, Crisp.date fits_obs = Ok (VStr d) ∧ Crisp.time fits_obs = Ok (VStr t)
         ∧ String.length t = 12%nat
         ∧ ∃ c, "2014-09-06T16:53:19.123" = (d ++ String c t)%string.
Proof.
  destruct (date_time_split fits_obs fits_header "2014-09-06T16:53:19.123" eq_refl eq_refl)
    as (d & t & Hd & Ht & Hlong & _).
  exists d, t. split; [exact Hd|]. split; [exact Ht|].
  apply Hlong. simpl. lia.
Defined.

(** The summary of a header that has ["DATE-AVG"] beside the alternate
    keys. *)
Lemma str_no_mixing_mixed :
  Crisp.time mixed = Ok (VStr "16:53:19.123")
  ∧ Crisp.__str__ mixed
    = Ok (Crisp.summary angstrom_sign "2014-09-06" "16:53:19.123" "Ca II 8542" "8542" "11"
            "500" "-300" "[4, 11, 50, 60]").
Proof.
  destruct (str_no_mixing mixed mixed_header "2014-09-06T16:53:19.123" eq_refl eq_refl eq_refl)
    as (Htime & _ & Hstr).
  split; [exact Htime|].
  apply (Hstr (VStr "16:53:19.123") (VStr "2014-09-06")
           (VSeq [VNum 1; VNum 8542; VNum (-300); VNum 500])
           (VSeq [VNum 4; VNum 11; VNum 50; VNum 60])
           (VStr "Ca II 8542") (VNum 8542) (VNum 11) (VNum 500) (VNum (-300)));
    reflexivity.
Defined.
End DateTimeSamples.

(** ** Rotating and reconstructing, continued *)

Section RotateCropMore.
Context `{Extern}.
Import Crisp.

Lemma comprehension_first_failure {A B} (f : A → res B) (pre post : list A) (x : A)
    (e : exn) :
  Forall (λ a, is_Ok (f a)) pre → f x = Raise e →
  comprehension f (pre ++ x :: post)%list = Raise e.
Proof.
  intros Hpre Hx. induction Hpre as [|a pre [b Hb] _ IH]; simpl.
  - rewrite Hx. reflexivity.
  - rewrite Hb. simpl. rewrite IH. reflexivity.
Qed.

(** X3: with [sep=True] neither [rotate_crop] nor [reconstruct_full_frame]
    changes the object, whether they return or raise, and [rotate_crop]
    returns exactly what [rotate_crop_data] returns for the stored data. *)
Theorem sep_leaves_object (self : CRISP) :
  (rotate_crop true self).2 = self
  ∧ (reconstruct_full_frame true self).2 = self
  ∧ (rotate_crop true self).1
    = (arr ← data self; r ← rotate_crop_data arr; Ok (Some r)).
Proof.
  split; [|split].
  - unfold rotate_crop, bind_M, reading, ret_M.
    destruct (data self) as [arr|e]; [|reflexivity].
    destruct (rotate_crop_data arr) as [r|e]; reflexivity.
  - unfold reconstruct_full_frame, bind_M, reading, ret_M, raise_M.
    destruct (header self) as [h|e]; [|reflexivity].
    destruct (bool_decide (is_Some (h !! "frame_dims"))); [|reflexivity].
    destruct (comprehension _ crop_keys) as [items|e]; [|reflexivity].
    destruct (data self) as [arr|e]; [|reflexivity].
    destruct (utils_reconstruct_full_frame _ arr) as [full|e]; reflexivity.
  - unfold rotate_crop, bind_M, reading, ret_M.
    destruct (data self) as [arr|e]; [|reflexivity]. simpl.
    destruct (rotate_crop_data arr) as [r|e]; reflexivity.
Qed.

Lemma reconstruct_without_frame_dims (self : CRISP) (h : Header num) (sep : bool) :
  header self = Ok h → h !! "frame_dims" = None →
  reconstruct_full_frame sep self = (Raise AssertionError, self).
Proof.
  intros Hh Hno. unfold reconstruct_full_frame.
  rewrite (reading_Ok header _ self h Hh).
  rewrite bool_decide_eq_false_2 by (rewrite Hno; intros [? [=]]).
  reflexivity.
Qed.

Lemma reconstruct_first_missing (self : CRISP) (h : Header num) (sep : bool)
    (pre : list string) (k : string) (post : list string) :
  header self = Ok h → crop_keys = (pre ++ k :: post)%list →
  is_Some (h !! "frame_dims") → Forall (λ k', is_Some (h !! k')) pre →
  h !! k = None →
  reconstruct_full_frame sep self = (Raise (KeyError k), self).
Proof.
  intros Hh Hkeys Hfd Hpre Hk. unfold reconstruct_full_frame.
  rewrite (reading_Ok header _ self h Hh).
  rewrite (bool_decide_eq_true_2 _ Hfd).
  rewrite (bind_M_Ok (ret_M ()) _ self _ () eq_refl).
  rewrite Hkeys.
  assert (Hfail : comprehension (λ k0, v ← header_get self k0; Ok (k0, v))
                    (pre ++ k :: post)%list = Raise (KeyError k)).
  { apply comprehension_first_failure.
    - eapply Forall_impl; [exact Hpre|].
      intros k' [v Hv]. rewrite (header_get_lookup _ _ _ Hh), Hv.
      eexists; reflexivity.
    - rewrite (header_get_lookup _ _ _ Hh), Hk. reflexivity. }
  unfold bind_M at 1, reading at 1. rewrite Hfail. reflexivity.
Qed.

(** X4: [reconstruct_full_frame] refuses a header without the crop
    metadata and changes nothing then: without ["frame_dims"] its assertion
    fails, and with ["frame_dims"] but without another of the six keys it
    raises [KeyError] for the first one missing.  This holds for both
    settings of [sep]. *)
Theorem reconstruct_needs_crop_keys (self : CRISP) (h : Header num) (sep : bool) :
  header self = Ok h →
  (h !! "frame_dims" = None →
   reconstruct_full_frame sep self = (Raise AssertionError, self))
  ∧ (∀ (pre : list string) (k : string) (post : list string),
       crop_keys = (pre ++ k :: post)%list →
       is_Some (h !! "frame_dims") → Forall (λ k', is_Some (h !! k')) pre →
       h !! k = None →
       reconstruct_full_frame sep self = (Raise (KeyError k), self)).
Proof.
  intros Hh. split.
  - intros Hno. exact (reconstruct_without_frame_dims self h sep Hh Hno).
  - intros pre k post Hkeys Hfd Hpre Hk.
    exact (reconstruct_first_missing self h sep pre k post Hh Hkeys Hfd Hpre Hk).
Qed.

(** X5: neither method is atomic.  [rotate_crop(sep=False)] stores the
    original array in [full_frame] before it calls [rotate_crop_data]: when
    that call raises, the exception passes on and the object keeps its data
    and header but has [full_frame] set.  [reconstruct_full_frame(sep=False)]
    likewise leaves [rot_data] set when the reconstruction raises. *)
Theorem rotate_crop_not_atomic (self : CRISP) (arr : ndarray) (e : exn) :
  data self = Ok arr →
  (rotate_crop_data arr = Raise e →
   ∃ self', rotate_crop false self = (Raise e, self')
            ∧ full_frame self' = Some arr ∧ file self' = file self
            ∧ rotate self' = rotate self ∧ rot_data self' = rot_data self)
  ∧ (∀ h, header self = Ok h → Forall (λ k, is_Some (h !! k)) crop_keys →
       utils_reconstruct_full_frame (crop_dict_from h) arr = Raise e →
       ∃ self', reconstruct_full_frame false self = (Raise e, self')
                ∧ rot_data self' = Some arr ∧ file self' = file self
                ∧ rotate self' = rotate self ∧ full_frame self' = full_frame self).
Proof.
  intros Hdata. split.
  - intros Hfail. unfold rotate_crop.
    rewrite (reading_Ok data _ self arr Hdata).
    rewrite (bind_M_Ok (set_full_frame arr) _ self _ () eq_refl).
    set (s1 := mkCRISP _ _ _ _ _ _ _ _ _ _ _ _ _).
    rewrite (reading_Ok data _ s1 arr Hdata).
    unfold bind_M at 1, reading at 1. rewrite Hfail.
    exists s1. repeat split.
  - intros h Hh Hall Hfail. unfold reconstruct_full_frame.
    rewrite (reading_Ok header _ self h Hh).
    destruct (Forall_cons_1 _ _ _ Hall) as [Hfd _].
    rewrite (bool_decide_eq_true_2 _ Hfd).
    rewrite (bind_M_Ok (ret_M ()) _ self _ () eq_refl).
    rewrite (reading_Ok _ _ self _ (crop_dict_comprehension self h Hh Hall)).
    fold (crop_dict_from h).
    rewrite (reading_Ok data _ self arr Hdata).
    rewrite (bind_M_Ok (set_rot_data arr) _ self _ () eq_refl).
    set (s1 := mkCRISP _ _ _ _ _ _ _ _ _ _ _ _ _).
    rewrite (reading_Ok data _ s1 arr Hdata).
    unfold bind_M at 1, reading at 1. rewrite Hfail.
    exists s1. repeat split.
Qed.

Lemma rotate_crop_run (self : CRISP) (arr crop : ndarray) (h crop_dict : Header num) :
  data self = Ok arr → header self = Ok h →
  rotate_crop_data arr = Ok (crop, crop_dict) →
  ∃ self', rotate_crop false self = (Ok None, self')
           ∧ data self' = Ok crop
           ∧ header self' = Ok (foldl (λ m kv, <[kv.1 := kv.2]> m) h (map_to_list crop_dict))
           ∧ full_frame self' = Some arr ∧ rot_data self' = rot_data self
           ∧ rotate self' = true.
Proof.
  intros Hdata Hh Hcrop. unfold rotate_crop.
  rewrite (reading_Ok data _ self arr Hdata).
  rewrite (bind_M_Ok (set_full_frame arr) _ self _ () eq_refl).
  set (s1 := mkCRISP _ _ _ _ _ _ _ _ _ _ _ _ _).
  rewrite (reading_Ok data _ s1 arr Hdata).
  rewrite (reading_Ok (λ _, rotate_crop_data arr) _ s1 _ Hcrop).
  destruct (for_each_set_header (map_to_list crop_dict) s1 h Hh)
    as (s2 & Hrun2 & Hh2 & (Hd2 & Hw2 & Hu2 & Hm2 & Hf2 & Hr2) & Hrot2).
  rewrite (bind_M_Ok _ _ _ _ _ Hrun2).
  destruct (set_file_data_spec s2 crop)
    as (s3 & Hrun3 & Hd3 & Hh3 & Hw3 & Hu3 & Hm3 & Hf3 & Hr3).
  rewrite (bind_M_Ok _ _ _ _ _ Hrun3).
  eexists. split; [reflexivity|]. simpl.
  destruct s3 as [fs3 ? ? ? ? ? ? ? ? ? ? ? ?]. simpl in *.
  split; [exact Hd3|]. split; [apply Hh3, Hh2|].
  repeat split; congruence.
Qed.

Lemma lookup_list_to_map_omap (h : Header num) (ks : list string) (k : string) :
  (k ∈ ks →
   (list_to_map (omap (λ k0, (λ v, (k0, v)) <$> h !! k0) ks) : Header num) !! k = h !! k)
  ∧ (k ∉ ks →
     (list_to_map (omap (λ k0, (λ v, (k0, v)) <$> h !! k0) ks) : Header num) !! k = None).
Proof.
  induction ks as [|k0 ks [IHin IHout]].
  - split; [intros Hk; exfalso; revert Hk; apply not_elem_of_nil | intros _; apply lookup_empty].
  - split.
    + intros Hk. simpl. destruct (decide (k = k0)) as [->|Hne].
      * destruct (h !! k0) as [v|] eqn:Hv; simpl.
        -- apply lookup_insert_eq.
        -- destruct (decide (k0 ∈ ks)) as [Hin|Hout];
             [first [exact (IHin Hin) | exact (eq_trans (IHin Hin) Hv)] | exact (IHout Hout)].
      * apply elem_of_cons in Hk as [?|Hk]; [congruence|].
        destruct (h !! k0) as [v|]; simpl.
        -- rewrite lookup_insert_ne by congruence. apply IHin, Hk.
        -- apply IHin, Hk.
    + intros Hk. apply not_elem_of_cons in Hk as [Hne Hk]. simpl.
      destruct (h !! k0) as [v|]; simpl.
      * rewrite lookup_insert_ne by congruence. apply IHout, Hk.
      * apply IHout, Hk.
Qed.

(** The crop metadata read back from a header that was patched with
    [crop_dict] is [crop_dict] itself. *)
Lemma crop_dict_read_back (h crop_dict : Header num) :
  (∀ k, is_Some (crop_dict !! k) ↔ k ∈ crop_keys) →
  crop_dict_from (foldl (λ m kv, <[kv.1 := kv.2]> m) h (map_to_list crop_dict)) = crop_dict.
Proof.
  intros Hkeys. apply map_eq. intros k.
  unfold crop_dict_from.
  destruct (lookup_list_to_map_omap
              (foldl (λ m kv, <[kv.1 := kv.2]> m) h (map_to_list crop_dict)) crop_keys k)
    as [Hin Hout].
  destruct (decide (k ∈ crop_keys)) as [Hk|Hk].
  - rewrite (Hin Hk), patched_lookup.
    apply Hkeys in Hk as [v Hv]. rewrite Hv. reflexivity.
  - rewrite (Hout Hk).
    destruct (crop_dict !! k) as [v|] eqn:Hv; [|reflexivity].
    exfalso. apply Hk, Hkeys. eauto.
Qed.

(** X6: rotating and then reconstructing fit together.  After
    [rotate_crop(sep=False)], with [rotate_crop_data] returning a dict of
    exactly the six crop keys, [reconstruct_full_frame(sep=False)] passes its
    assertion, reads back from the header exactly the dict and takes from
    the object exactly the cropped array that [rotate_crop_data] returned,
    and stores what [utils.reconstruct_full_frame] makes of them.  The
    original array is still in [full_frame], the cropped one is in
    [rot_data], the flag [rotate] went to true and back to false, and the
    header keeps the crop keys. *)
Theorem crop_then_reconstruct (self : CRISP) (arr crop full : ndarray)
    (h crop_dict : Header num) :
  data self = Ok arr → header self = Ok h →
  rotate_crop_data arr = Ok (crop, crop_dict) →
  (∀ k, is_Some (crop_dict !! k) ↔ k ∈ crop_keys) →
  utils_reconstruct_full_frame crop_dict crop = Ok full →
  ∃ s1 s2,
    rotate_crop false self = (Ok None, s1)
    ∧ reconstruct_full_frame false s1 = (Ok None, s2)
    ∧ rotate s1 = true ∧ rotate s2 = false
    ∧ data s2 = Ok full ∧ full_frame s2 = Some arr ∧ rot_data s2 = Some crop
    ∧ header s2 = header s1
    ∧ (∀ k v, crop_dict !! k = Some v → header_get s2 k = Ok v).
Proof.
  intros Hdata Hh Hcrop Hkeys Hfull.
  destruct (rotate_crop_run self arr crop h crop_dict Hdata Hh Hcrop)
    as (s1 & Hrun1 & Hd1 & Hh1 & Hff1 & Hrd1 & Hrot1).
  set (h1 := foldl (λ m kv, <[kv.1 := kv.2]> m) h (map_to_list crop_dict)) in *.
  assert (Hall : Forall (λ k, is_Some (h1 !! k)) crop_keys).
  { apply Forall_forall. intros k Hk. unfold h1. rewrite patched_lookup.
    apply Hkeys in Hk as [v Hv]. rewrite Hv. eauto. }
  assert (Hback : crop_dict_from h1 = crop_dict) by (apply crop_dict_read_back, Hkeys).
  exists s1.
  unfold reconstruct_full_frame.
  rewrite (reading_Ok header _ s1 h1 Hh1).
  destruct (Forall_cons_1 _ _ _ Hall) as [Hfd _].
  rewrite (bool_decide_eq_true_2 _ Hfd).
  rewrite (bind_M_Ok (ret_M ()) _ s1 _ () eq_refl).
  rewrite (reading_Ok _ _ s1 _ (crop_dict_comprehension s1 h1 Hh1 Hall)).
  fold (crop_dict_from h1). rewrite Hback.
  rewrite (reading_Ok data _ s1 crop Hd1).
  rewrite (bind_M_Ok (set_rot_data crop) _ s1 _ () eq_refl).
  set (s1' := mkCRISP _ _ _ _ _ _ _ _ _ _ _ _ _).
  rewrite (reading_Ok data _ s1' crop Hd1).
  rewrite (reading_Ok (λ _, utils_reconstruct_full_frame crop_dict crop) _ s1' _ Hfull).
  destruct (set_file_data_spec s1' full)
    as (s3 & Hrun3 & Hd3 & Hh3 & Hw3 & Hu3 & Hm3 & Hf3 & Hr3).
  rewrite (bind_M_Ok _ _ _ _ _ Hrun3).
  eexists. split; [exact Hrun1|]. split; [reflexivity|]. simpl.
  assert (Hh3' : header s3 = Ok h1) by (apply Hh3, Hh1).
  destruct s3 as [fs3 ? ? ? ? ? ? ? ? ? ? ? ?]. simpl in *.
  split; [exact Hrot1|]. split; [reflexivity|].
  split; [exact Hd3|]. split; [congruence|]. split; [congruence|].
  split; [rewrite Hh1; exact Hh3'|].
  intros k v Hk. unfold header_get.
  change (header (mkCRISP fs3 wcs0 nonu0 uncertainty0 mask0 aa0 a0 l0 D0 false ind0
                    full_frame0 rot_data0))
    with (header (mkCRISP fs3 wcs0 nonu0 uncertainty0 mask0 aa0 a0 l0 D0 rotate0 ind0
                    full_frame0 rot_data0)).
  rewrite Hh3'. simpl. unfold h1. rewrite patched_lookup, Hk. reflexivity.
Qed.
End RotateCropMore.

Section RotateCropMoreSamples.
Import Stub Samples MoreSamples.

Lemma crop_dict_of_has_crop_keys (arr : StubArray) (k : string) :
  is_Some (crop_dict_of arr !! k) ↔ k ∈ Crisp.crop_keys.
Proof.
  split; [apply crop_dict_of_keys|].
  unfold Crisp.crop_keys. rewrite !elem_of_cons.
  intros [->|[->|[->|[->|[->|[->|Hk]]]]]]; try (eexists; reflexivity).
  exfalso. revert Hk. apply not_elem_of_nil.
Qed.

(** The whole cube has no crop metadata, and a header with ["frame_dims"]
    alone fails on ["x_min"]. *)
Lemma reconstruct_needs_crop_keys_samples :
  Crisp.reconstruct_full_frame false whole = (Raise AssertionError, whole)
  ∧ Crisp.reconstruct_full_frame true half_cropped = (Raise (KeyError "x_min"), half_cropped).
Proof.
  split.
  - destruct (reconstruct_needs_crop_keys whole zarr_header false eq_refl) as [Hassert _].
    apply Hassert. reflexivity.
  - destruct (reconstruct_needs_crop_keys half_cropped frame_dims_only true eq_refl)
      as [_ Hkey].
    apply (Hkey ["frame_dims"] "x_min" ["x_max"; "y_min"; "y_max"; "angle"]).
    + reflexivity.
    + eexists; reflexivity.
    + apply Forall_cons; split; [eexists; reflexivity | constructor].
    + reflexivity.
Defined.

(** On the strict host: a spectrum cannot be cropped, and a frame whose
    dimensions are not a pair cannot be reconstructed; the object is left
    with [full_frame], respectively [rot_data], set. *)
Lemma rotate_crop_not_atomic_strict :
  (∃ self', @Crisp.rotate_crop Strict.strict false line
            = (Raise (ValueError "rotate_crop_data: the data has no image plane"), self')
            ∧ Crisp.full_frame self' = Some (mkArray [11] "line")
            ∧ Crisp.file self' = Crisp.file line)
  ∧ (∃ self', @Crisp.reconstruct_full_frame Strict.strict false bad_frame
              = (Raise (ValueError "reconstruct_full_frame: frame_dims is not a pair of numbers"),
                 self')
              ∧ Crisp.rot_data self' = Some cube
              ∧ Crisp.file self' = Crisp.file bad_frame).
Proof.
  split.
  - destruct (@rotate_crop_not_atomic Strict.strict line (mkArray [11] "line")
                (ValueError "rotate_crop_data: the data has no image plane") eq_refl)
      as [Hcrop _].
    destruct (Hcrop eq_refl) as (self' & Hrun & Hff & Hfile & _).
    exists self'. split; [exact Hrun|]. split; [exact Hff | exact Hfile].
  - destruct (@rotate_crop_not_atomic Strict.strict bad_frame cube
                (ValueError "reconstruct_full_frame: frame_dims is not a pair of numbers")
                eq_refl)
      as [_ Hrec].
    destruct (Hrec bad_frame_header eq_refl) as (self' & Hrun & Hrd & Hfile & _).
    + repeat (apply Forall_cons; split; [eexists; reflexivity|]). constructor.
    + reflexivity.
    + exists self'. split; [exact Hrun|]. split; [exact Hrd | exact Hfile].
Defined.

(** Cropping the whole cube and reconstructing it again, on the stub. *)
Lemma crop_then_reconstruct_whole :
  ∃ s1 s2,
    Crisp.rotate_crop false whole = (Ok None, s1)
    ∧ Crisp.reconstruct_full_frame false s1 = (Ok None, s2)
    ∧ Crisp.rotate s1 = true ∧ Crisp.rotate s2 = false
    ∧ Crisp.data s2 = Ok (mkArray [4; 11; 50; 60] "full frame of crop of cube")
    ∧ Crisp.full_frame s2 = Some cube
    ∧ Crisp.rot_data s2 = Some (mkArray [4; 11; 50; 60] "crop of cube")
    ∧ Crisp.header_get s2 "x_max" = Ok (VNum 57).
Proof.
  destruct (crop_then_reconstruct whole cube (mkArray [4; 11; 50; 60] "crop of cube")
              (mkArray [4; 11; 50; 60] "full frame of crop of cube")
              zarr_header (crop_dict_of cube) eq_refl eq_refl eq_refl
              (crop_dict_of_has_crop_keys cube) eq_refl)
    as (s1 & s2 & H1 & H2 & Hr1 & Hr2 & Hd & Hff & Hrd & _ & Hkeys).
  exists s1, s2.
  split; [exact H1|]. split; [exact H2|]. split; [exact Hr1|]. split; [exact Hr2|].
  split; [exact Hd|]. split; [exact Hff|]. split; [exact Hrd|].
  apply Hkeys. reflexivity.
Defined.
End RotateCropMoreSamples.

(** ** The constructor *)

Section Construction.
Context `{Extern}.
Import Crisp.

Lemma prefix_app (sub post : string) : String.prefix sub (sub ++ post) = true.
Proof.
  induction sub as [|c sub IH]; simpl; [destruct post; reflexivity|].
  destruct (ascii_dec c c) as [_|Hne]; [exact IH | congruence].
Qed.

Lemma contains_prefix (sub s : string) : String.prefix sub s = true → contains sub s = true.
Proof. destruct s; simpl; intros ->; reflexivity. Qed.

Lemma contains_cons (sub s : string) (c : ascii) :
  contains sub s = true → contains sub (String c s) = true.
Proof. intros Hs. simpl. rewrite Hs. apply orb_true_r. Qed.

Lemma contains_infix (sub pre post : string) : contains sub (pre ++ sub ++ post) = true.
Proof.
  induction pre as [|c pre IH].
  - apply contains_prefix. exact (prefix_app sub post).
  - exact (contains_cons sub _ c IH).
Qed.

Lemma forallb_bool_decide {A} (P : A → Prop) `{∀ x, Decision (P x)} (l : list A) :
  forallb (λ x, bool_decide (P x)) l = true ↔ Forall P l.
Proof.
  induction l as [|x l IH]; simpl.
  - split; [constructor | reflexivity].
  - rewrite andb_true_iff, bool_decide_eq_true, IH, Forall_cons. reflexivity.
Qed.

Lemma first_missing {A} (P : A → Prop) `{∀ x, Decision (P x)} (l : list A) :
  ¬ Forall P l → ∃ pre k post, l = (pre ++ k :: post)%list ∧ Forall P pre ∧ ¬ P k.
Proof.
  induction l as [|x l IH]; intros Hnot.
  - exfalso. apply Hnot. constructor.
  - destruct (decide (P x)) as [Hx|Hx].
    + destruct IH as (pre & k & post & -> & Hpre & Hk).
      { intros Hall. apply Hnot. constructor; assumption. }
      exists (x :: pre), k, post. split; [reflexivity|]. split; [constructor; assumption | exact Hk].
    + exists [], x, l. split; [reflexivity|]. split; [constructor | exact Hx].
Qed.

(** What [__init__] leaves when it returns *)
Lemma init_inv (filename : Filename) (w : option WCS) (u m : option ndarray) (n : bool)
    (o : CRISP) :
  __init__ filename w u m n = Ok o →
  ∃ fs w' h,
    o = mkCRISP fs w' n u m angstrom_sign alpha_sign lambda_sign Delta_sign
          (forallb (λ x, bool_decide (is_Some (h !! x))) crop_keys) None None None
    ∧ header o = Ok h
    ∧ (is_Some w → w' = w).
Proof.
  intros Hinit. unfold __init__ in Hinit.
  apply bind_Ok in Hinit as (fs & _ & Hinit).
  apply bind_Ok in Hinit as (is_fits & Hfits & Hinit).
  apply bind_Ok in Hinit as (w' & Hw & Hinit).
  apply bind_Ok in Hinit as (h & Hh & Hinit).
  injection Hinit as <-.
  exists fs, w', h. split; [reflexivity|]. split; [exact Hh|].
  intros [w0 ->]. simpl in Hfits, Hw.
  injection Hfits as <-. simpl in Hw. injection Hw as <-. reflexivity.
Qed.

(** X7: what the constructor guarantees when it returns.  The header of the
    new object can be read, and the flag [rotate] is set exactly when all
    six crop keys are in it; [uncertainty], [mask] and [nonu] are the
    arguments; a WCS that was passed is used as it is, whatever the file
    holds; and [ind], [full_frame] and [rot_data] are not set. *)
Theorem init_postconditions (filename : Filename) (w : option WCS) (u m : option ndarray)
    (n : bool) (o : CRISP) :
  __init__ filename w u m n = Ok o →
  (∃ h, header o = Ok h ∧ (rotate o = true ↔ Forall (λ k, is_Some (h !! k)) crop_keys))
  ∧ uncertainty o = u ∧ mask o = m ∧ nonu o = n
  ∧ (is_Some w → wcs o = w)
  ∧ ind o = None ∧ full_frame o = None ∧ rot_data o = None.
Proof.
  intros Hinit.
  destruct (init_inv _ _ _ _ _ _ Hinit) as (fs & w' & h & Ho & Hh & Hw).
  split.
  - exists h. split; [exact Hh|]. rewrite Ho.
    exact (forallb_bool_decide (λ k, is_Some (h !! k)) crop_keys).
  - rewrite Ho. simpl. repeat split. exact Hw.
Qed.

(** X8: the flag the constructor sets is the precondition of
    [reconstruct_full_frame].  On a new object with [rotate] set, the
    assertion and the six header reads of [reconstruct_full_frame] pass and
    the call is [utils.reconstruct_full_frame] on the crop keys of the
    header; on a new object with [rotate] not set it raises, for both
    settings of [sep], the [AssertionError] or a [KeyError] on one of the
    crop keys, and leaves the object as it is. *)
Theorem init_rotate_sound (filename : Filename) (w : option WCS) (u m : option ndarray)
    (n : bool) (o : CRISP) :
  __init__ filename w u m n = Ok o →
  (rotate o = true →
   ∀ arr, data o = Ok arr →
     ∃ h, header o = Ok h
          ∧ reconstruct_full_frame true o
            = (Some <$> utils_reconstruct_full_frame (crop_dict_from h) arr, o))
  ∧ (rotate o = false →
     ∀ sep, ∃ e, reconstruct_full_frame sep o = (Raise e, o)
                 ∧ (e = AssertionError ∨ ∃ k, k ∈ crop_keys ∧ e = KeyError k)).
Proof.
  intros Hinit.
  destruct (init_inv _ _ _ _ _ _ Hinit) as (fs & w' & h & Ho & Hh & _).
  assert (Hflag : rotate o = forallb (λ x, bool_decide (is_Some (h !! x))) crop_keys)
    by (rewrite Ho; reflexivity).
  clear Ho. split.
  - intros Hrot arr Hdata. exists h. split; [exact Hh|].
    rewrite Hflag in Hrot.
    apply (forallb_bool_decide (λ k, is_Some (h !! k)) crop_keys) in Hrot as Hall.
    unfold reconstruct_full_frame.
    rewrite (reading_Ok header _ o h Hh).
    destruct (Forall_cons_1 _ _ _ Hall) as [Hfd _].
    rewrite (bool_decide_eq_true_2 _ Hfd).
    rewrite (bind_M_Ok (ret_M ()) _ o _ () eq_refl).
    rewrite (reading_Ok _ _ o _ (crop_dict_comprehension o h Hh Hall)).
    fold (crop_dict_from h).
    rewrite (reading_Ok data _ o arr Hdata).
    unfold bind_M, reading, ret_M.
    destruct (utils_reconstruct_full_frame (crop_dict_from h) arr); reflexivity.
  - intros Hrot sep. rewrite Hflag in Hrot.
    assert (Hnot : ¬ Forall (λ k, is_Some (h !! k)) crop_keys).
    { intros Hall. apply (forallb_bool_decide (λ k, is_Some (h !! k)) crop_keys) in Hall.
      assert (Habs : true = false) by (rewrite <- Hall; exact Hrot).
      discriminate Habs. }
    destruct (first_missing _ _ Hnot) as (pre & k & post & Hkeys & Hpre & Hk).
    assert (Hnone : h !! k = None).
    { destruct (h !! k) as [v|] eqn:Hv; [|reflexivity]. exfalso. apply Hk. eauto. }
    destruct pre as [|k0 pre].
    + exists AssertionError. split; [|left; reflexivity].
      apply (reconstruct_without_frame_dims o h sep Hh).
      injection Hkeys as <- _. exact Hnone.
    + exists (KeyError k). split.
      * apply (reconstruct_first_missing o h sep (k0 :: pre) k post Hh Hkeys); [|exact Hpre|exact Hnone].
        injection Hkeys as <- _. apply (Forall_cons_1 _ _ _ Hpre).
      * right. exists k. split; [|reflexivity].
        rewrite Hkeys. apply elem_of_app. right. apply elem_of_cons. left. reflexivity.
Qed.

(** X9: a name is taken for a FITS file as soon as [".fits"] occurs in it,
    anywhere, and this test comes first: a name that also contains
    [".zarr"], or goes on after [".fits"], is opened with [fits.open] and
    never with [zarr.open], and without a WCS argument the WCS is built from
    the FITS header. *)
Theorem fits_takes_precedence (pre post : string) (w : option WCS) (u m : option ndarray)
    (n : bool) :
  __init__ (FStr (pre ++ ".fits" ++ post)) w u m n
  = ('(d, h) ← fits_open (pre ++ ".fits" ++ post);
     w' ← (if w is None then Some <$> WCS_of_header h else Ok w);
     Ok (mkCRISP (HDU d h) w' n u m angstrom_sign alpha_sign lambda_sign Delta_sign
           (forallb (λ x, bool_decide (is_Some (h !! x))) crop_keys) None None None)).
Proof.
  unfold __init__, in_filename. rewrite contains_infix.
  destruct (fits_open (pre ++ ".fits" ++ post)) as [[d h]|e]; [|reflexivity].
  simpl. destruct w as [w0|]; [reflexivity|]. simpl.
  destruct (WCS_of_header h) as [w1|e]; reflexivity.
Qed.
End Construction.

Section ConstructionSamples.
Import Stub Samples MoreSamples.

(** The object built from an [ObjDict] with the crop keys in its header,
    with a WCS passed. *)
Lemma init_postconditions_rotated :
  ∃ o, Crisp.__init__ (Crisp.FObjDict (container cube rotated_header))
         (Some image_wcs) None None false = Ok o
       ∧ Crisp.header o = Ok rotated_header
       ∧ Crisp.rotate o = true
       ∧ Crisp.wcs o = Some image_wcs.
Proof.
  eexists. split; [reflexivity|].
  destruct (init_postconditions (Crisp.FObjDict (container cube rotated_header))
              (Some image_wcs) None None false _ eq_refl)
    as ((h & Hh & Hrot) & _ & _ & _ & Hwcs & _).
  split; [reflexivity|]. split.
  - apply Hrot. injection Hh as <-.
    repeat (apply Forall_cons; split; [eexists; reflexivity|]). constructor.
  - apply Hwcs. eexists; reflexivity.
Defined.

(** The same object can be reconstructed at once; the object built from
    the Zarr file cannot. *)
Lemma init_rotate_sound_samples :
  (∃ o, Crisp.__init__ (Crisp.FObjDict (container cube rotated_header)) None None None false
        = Ok o
        ∧ Crisp.reconstruct_full_frame true o
          = (Ok (Some (mkArray [4; 11; 50; 60] "full frame of cube")), o))
  ∧ (∃ o e, Crisp.__init__ (Crisp.FStr "crisp.zarr") None None None false = Ok o
            ∧ Crisp.reconstruct_full_frame false o = (Raise e, o)).
Proof.
  split.
  - eexists. split; [reflexivity|].
    destruct (init_rotate_sound (Crisp.FObjDict (container cube rotated_header))
                None None None false _ eq_refl) as [Hyes _].
    destruct (Hyes eq_refl cube eq_refl) as (h & Hh & Hrun).
    rewrite Hrun. reflexivity.
  - assert (Hinit : ∃ o, Crisp.__init__ (Crisp.FStr "crisp.zarr") None None None false = Ok o
                         ∧ Crisp.rotate o = false)
      by (eexists; split; reflexivity).
    destruct Hinit as (o & Ho & Hflag).
    destruct (init_rotate_sound (Crisp.FStr "crisp.zarr") None None None false o Ho)
      as [_ Hno].
    destruct (Hno Hflag false) as (e & Hrun & _).
    exists o, e. split; [exact Ho | exact Hrun].
Defined.
End ConstructionSamples.

(** ** Maps: the slice, the frame and the extent *)

Section Maps.
Context `{Extern}.
Import Crisp More MapCalls.

(** X10: the two map methods need an object that was sliced.  On an object
    on which [ind] was never set, [intensity_map] raises [AttributeError]
    on [ind], the first thing it reads, and [stokes_map] never returns
    either: its title needs [self.ind[1]], so it raises whatever the WCS
    gives. *)
Theorem maps_need_a_slice (self : CRISP) (stokes : string) (frame : option string)
    (norm : option (Z * Z)) :
  ind self = None →
  intensity_map self frame norm
  = Raise (AttributeError "'CRISP' object has no attribute 'ind'")
  ∧ raises (stokes_map self stokes frame).
Proof.
  intros Hind. split.
  - unfold intensity_map, intensity_map_title, intensity_map_idx, ind_attr.
    rewrite Hind. reflexivity.
  - unfold stokes_map, stokes_map_title, wcs_obj, ind_attr. rewrite Hind.
    destruct (wcs self) as [w|]; [|eexists; reflexivity]. simpl.
    destruct (wcs_getitem (_wcs w) [IInt 0; colon; IInt 0; IInt 0]);
      eexists; reflexivity.
Qed.




(** X12: the extent falls back as a whole.  On a header with ["CDELT1"] but
    without ["CDELT2"], the computed [xmax] is discarded with the [KeyError]
    and both bounds are computed from ["pixel_scale"]; when ["pixel_scale"]
    is missing as well, the [KeyError] is the one on ["pixel_scale"]. *)
Theorem extent_fallback_all_or_nothing (self : CRISP) (h : Header num) (cx : pyval num)
    (nx ny : Z) :
  header self = Ok h → h !! "CDELT1" = Some cx → h !! "CDELT2" = None →
  shape_neg self 1 = Ok nx → shape_neg self 2 = Ok ny →
  (h !! "pixel_scale" = None → extent_of self "arcsec" = Raise (KeyError "pixel_scale"))
  ∧ (∀ ps, h !! "pixel_scale" = Some ps →
       extent_of self "arcsec"
       = (xmax ← val_mul ps nx; ymax ← val_mul ps ny; Ok (Some (xmax, ymax)))).
Proof.
  intros Hh Hc1 Hc2 Hnx Hny.
  assert (Hget : ∀ key, header_get self key = match h !! key with
                                              | Some v => Ok v
                                              | None => Raise (KeyError key)
                                              end)
    by (intros key; apply header_get_lookup, Hh).
  assert (Hmul : ∀ v k, ∃ r, val_mul v k = Ok r)
    by (intros [| |] k; eexists; reflexivity).
  destruct (Hmul cx nx) as [xm Hxm].
  split.
  - intros Hps. unfold extent_of. simpl.
    rewrite !Hget, Hc1, Hc2, Hps, Hnx. simpl. rewrite Hxm. reflexivity.
  - intros ps Hps. unfold extent_of. simpl.
    rewrite !Hget, Hc1, Hc2, Hps, Hnx, Hny. simpl. rewrite Hxm. simpl.
    destruct (Hmul ps nx) as [a ->]. destruct (Hmul ps ny) as [b ->]. reflexivity.
Qed.
End Maps.

Section MapsSamples.
Import Stub Samples MoreSamples.

(** The whole cube was never sliced. *)
Lemma maps_need_a_slice_whole :
  More.intensity_map whole None None
  = Raise (AttributeError "'CRISP' object has no attribute 'ind'")
  ∧ raises (Crisp.stokes_map whole "I" None).
Proof. exact (maps_need_a_slice whole "I" None None eq_refl). Defined.


(** A header with ["CDELT1"] = 3 alone: both bounds come from
    ["pixel_scale"] = 2. *)
Lemma extent_fallback_one_cdelt :
  Crisp.extent_of one_cdelt "arcsec" = Ok (Some (VNum 120, VNum 100)).
Proof.
  destruct (extent_fallback_all_or_nothing one_cdelt cdelt1_only (VNum 3) 60 50
              eq_refl eq_refl eq_refl eq_refl eq_refl) as [_ Hps].
  rewrite (Hps (VNum 2) eq_refl). reflexivity.
Defined.
End MapsSamples.

(** ** Sequences: the index of the plotting methods *)

Section SequenceIndex.
Context `{Extern}.
Import Crisp More SequencePlots.

Lemma list_get_nonneg {A} (xs : list A) (i : Z) (x : A) :
  0 ≤ i → xs !! Z.to_nat i = Some x → list_get xs i = Ok x.
Proof.
  intros Hi Hx. pose proof (lookup_lt_Some _ _ _ Hx) as Hlt.
  unfold list_get.
  destruct (decide (i < 0)) as [|_]; [lia|].
  destruct (decide (0 ≤ i < Z.of_nat (length xs))) as [_|]; [|lia].
  rewrite Hx. reflexivity.
Qed.

Lemma list_get_neg {A} (xs : list A) (i : Z) (x : A) :
  i < 0 → - Z.of_nat (length xs) ≤ i →
  xs !! Z.to_nat (Z.of_nat (length xs) + i) = Some x → list_get xs i = Ok x.
Proof.
  intros Hi Hlo Hx. unfold list_get.
  destruct (decide (i < 0)) as [_|]; [|lia].
  destruct (decide (0 ≤ Z.of_nat (length xs) + i < Z.of_nat (length xs))) as [_|]; [|lia].
  rewrite Hx. reflexivity.
Qed.

Lemma list_get_out {A} (xs : list A) (i : Z) :
  i < - Z.of_nat (length xs) ∨ Z.of_nat (length xs) ≤ i →
  list_get xs i = Raise (IndexError "list index out of range").
Proof.
  intros Hout. unfold list_get.
  destruct (decide (i < 0)).
  - destruct (decide (0 ≤ Z.of_nat (length xs) + i < Z.of_nat (length xs))); [lia|].
    reflexivity.
  - destruct (decide (0 ≤ i < Z.of_nat (length xs))); [lia|]. reflexivity.
Qed.

Lemma on_index_dispatch {A} (self : CRISPSequence) (method : CRISP → res A) :
  let n := Z.of_nat (length (obs_list self)) in
  (∀ s, s ≠ "all" → on_index self (AtStr s) method = Raise (unexpected_index s))
  ∧ (∀ i o, 0 ≤ i → obs_list self !! Z.to_nat i = Some o →
       on_index self (AtInt i) method = (r ← method o; Ok [r]))
  ∧ (∀ i o, i < 0 → - n ≤ i → obs_list self !! Z.to_nat (n + i) = Some o →
       on_index self (AtInt i) method = (r ← method o; Ok [r]))
  ∧ (∀ i, i < - n ∨ n ≤ i →
       on_index self (AtInt i) method = Raise (IndexError "list index out of range"))
  ∧ (∀ rs, on_index self (AtStr "all") method = Ok rs
           ↔ Forall2 (λ o r, method o = Ok r) (obs_list self) rs)
  ∧ (∀ pre o post e, obs_list self = (pre ++ o :: post)%list →
       Forall (λ p, is_Ok (method p)) pre → method o = Raise e →
       on_index self (AtStr "all") method = Raise e).
Proof.
  intros n. split; [|split; [|split; [|split; [|split]]]].
  - intros s Hs. unfold on_index.
    destruct (String.eqb s "all") eqn:Heq; [|reflexivity].
    apply String.eqb_eq in Heq. contradiction.
  - intros i o Hi Ho. unfold on_index. rewrite (list_get_nonneg _ _ _ Hi Ho). reflexivity.
  - intros i o Hi Hlo Ho. unfold on_index. rewrite (list_get_neg _ _ _ Hi Hlo Ho). reflexivity.
  - intros i Hout. unfold on_index. rewrite (list_get_out _ _ Hout). reflexivity.
  - intros rs. apply comprehension_Ok.
  - intros pre o post e Hobs Hpre Ho. unfold on_index. simpl. rewrite Hobs.
    apply comprehension_first_failure; assumption.
Qed.

(** X13: the index of the four plotting methods of a sequence,
    [plot_spectrum], [plot_stokes], [intensity_map] and [stokes_map].  A
    string other than ["all"] is refused with [ValueError] before any
    observation is looked at; an integer is a Python list index: from [0]
    it counts from the front, below [0] from the end, and outside
    [-n .. n-1] the call raises [IndexError]; with ["all"] the method of
    the same name runs on the observations in order, and the call stops at
    the first one that raises. *)
Theorem sequence_index_dispatch (p : SeqPlot) (self : CRISPSequence) :
  let n := Z.of_nat (length (obs_list self)) in
  (∀ s, s ≠ "all" → seq_plot p self (AtStr s) = Raise (unexpected_index s))
  ∧ (∀ i o, 0 ≤ i → obs_list self !! Z.to_nat i = Some o →
       seq_plot p self (AtInt i) = (r ← obs_plot p o; Ok [r]))
  ∧ (∀ i o, i < 0 → - n ≤ i → obs_list self !! Z.to_nat (n + i) = Some o →
       seq_plot p self (AtInt i) = (r ← obs_plot p o; Ok [r]))
  ∧ (∀ i, i < - n ∨ n ≤ i →
       seq_plot p self (AtInt i) = Raise (IndexError "list index out of range"))
  ∧ (∀ rs, seq_plot p self (AtStr "all") = Ok rs
           ↔ Forall2 (λ o r, obs_plot p o = Ok r) (obs_list self) rs)
  ∧ (∀ pre o post e, obs_list self = (pre ++ o :: post)%list →
       Forall (λ q, is_Ok (obs_plot p q)) pre → obs_plot p o = Raise e →
       seq_plot p self (AtStr "all") = Raise e).
Proof.
  destruct p as [unit air d|stokes unit air d|frame norm|stokes frame].
  - exact (on_index_dispatch self (λ o, plot_spectrum o unit air d)).
  - exact (on_index_dispatch self (λ o, plot_stokes o stokes unit air d)).
  - exact (on_index_dispatch self (λ o, intensity_map o frame norm)).
  - exact (on_index_dispatch self (λ o, stokes_map o stokes frame)).
Qed.
End SequenceIndex.

(** ** Sequences: rotating, cropping and reconstructing *)

Section SequenceCropProperties.
Context `{ExternAligned}.
Import Crisp More SequenceCrop.

Lemma on_obs_at {A} (m : M CRISP A) (l1 l2 : list CRISP) (o : CRISP) (aa : string)
    (ff : option (list ndarray)) :
  on_obs (length l1) m (mkSeqState (mkCRISPSequence (l1 ++ o :: l2) aa) ff)
  = ((m o).1, mkSeqState (mkCRISPSequence (l1 ++ (m o).2 :: l2) aa) ff).
Proof.
  unfold on_obs. simpl. rewrite list_lookup_middle by reflexivity.
  destruct (m o) as [r o']. simpl.
  rewrite insert_app_r_alt by lia. rewrite Nat.sub_diag. reflexivity.
Qed.

Lemma on_obs_0_run {A} (m : M CRISP A) (o o' : CRISP) (l : list CRISP) (aa : string)
    (ff : option (list ndarray)) (r : res A) :
  m o = (r, o') →
  on_obs 0 m (mkSeqState (mkCRISPSequence (o :: l) aa) ff)
  = (r, mkSeqState (mkCRISPSequence (o' :: l) aa) ff).
Proof. intros E. unfold on_obs. simpl. rewrite E. reflexivity. Qed.

Lemma on_obs_1_run {A} (m : M CRISP A) (x o o' : CRISP) (l : list CRISP) (aa : string)
    (ff : option (list ndarray)) (r : res A) :
  m o = (r, o') →
  on_obs 1 m (mkSeqState (mkCRISPSequence (x :: o :: l) aa) ff)
  = (r, mkSeqState (mkCRISPSequence (x :: o' :: l) aa) ff).
Proof. intros E. unfold on_obs. simpl. rewrite E. reflexivity. Qed.

Lemma on_obs_id {A} (m : M CRISP A) (i : nat) (st : SeqState) :
  (∀ o, (m o).2 = o) → (on_obs i m st).2 = st.
Proof.
  intros Hid. destruct st as [[l aa] ff]. unfold on_obs. simpl.
  destruct (l !! i) as [o|] eqn:Ho; [|reflexivity].
  specialize (Hid o). destruct (m o) as [r o']. simpl in *. subst o'.
  rewrite (list_insert_id _ _ _ Ho). reflexivity.
Qed.

Lemma for_collect_state_id {A} (m : M CRISP A) (idxs : list nat) (st : SeqState) :
  (∀ o, (m o).2 = o) → (for_collect idxs (λ i, on_obs i m) st).2 = st.
Proof.
  intros Hid. revert st. induction idxs as [|i idxs IH]; intros st; [reflexivity|].
  cbn [for_collect]. unfold bind_M at 1.
  pose proof (on_obs_id m i st Hid) as H1.
  destruct (on_obs i m st) as [[y|e] st1]; simpl in H1; subst st1; [|reflexivity].
  unfold bind_M at 1. specialize (IH st).
  destruct (for_collect idxs (λ i0, on_obs i0 m) st) as [[ys|e] st2]; simpl in IH; subst st2;
    reflexivity.
Qed.

Lemma for_each_on_obs_ok (m : M CRISP ()) (aa : string) (ff : option (list ndarray))
    (l2 l1 : list CRISP) :
  Forall (λ o, (m o).1 = Ok ()) l2 →
  for_each (seq (length l1) (length l2)) (λ i, on_obs i m)
    (mkSeqState (mkCRISPSequence (l1 ++ l2) aa) ff)
  = (Ok (), mkSeqState (mkCRISPSequence (l1 ++ map (λ o, (m o).2) l2) aa) ff).
Proof.
  revert l1. induction l2 as [|o l2 IH]; intros l1 Hall; [reflexivity|].
  destruct (Forall_cons_1 _ _ _ Hall) as [Ho Hrest].
  change (seq (length l1) (length (o :: l2)))
    with (length l1 :: seq (S (length l1)) (length l2)).
  cbn [for_each]. unfold bind_M at 1. rewrite on_obs_at, Ho.
  replace (S (length l1)) with (length (l1 ++ [(m o).2])%list) by (rewrite length_app; simpl; lia).
  replace (l1 ++ (m o).2 :: l2)%list with ((l1 ++ [(m o).2]) ++ l2)%list
    by (rewrite <- app_assoc; reflexivity).
  rewrite (IH _ Hrest). rewrite <- app_assoc. reflexivity.
Qed.

Lemma for_each_on_obs_all (m : M CRISP ()) (aa : string) (ff : option (list ndarray))
    (l : list CRISP) :
  Forall (λ o, (m o).1 = Ok ()) l →
  for_each (seq 0 (length l)) (λ i, on_obs i m) (mkSeqState (mkCRISPSequence l aa) ff)
  = (Ok (), mkSeqState (mkCRISPSequence (map (λ o, (m o).2) l) aa) ff).
Proof. intros Hall. exact (for_each_on_obs_ok m aa ff l [] Hall). Qed.

Lemma for_each_on_obs_fail (m : M CRISP ()) (aa : string) (ff : option (list ndarray))
    (e : exn) (pre l1 : list CRISP) (o : CRISP) (post : list CRISP) :
  Forall (λ p, (m p).1 = Ok ()) pre → (m o).1 = Raise e →
  for_each (seq (length l1) (length (pre ++ o :: post))) (λ i, on_obs i m)
    (mkSeqState (mkCRISPSequence (l1 ++ pre ++ o :: post) aa) ff)
  = (Raise e,
     mkSeqState (mkCRISPSequence (l1 ++ map (λ p, (m p).2) pre ++ (m o).2 :: post) aa) ff).
Proof.
  intros Hpre Ho. revert l1. induction Hpre as [|p pre Hp _ IH]; intros l1.
  - change (seq (length l1) (length ([] ++ o :: post)%list))
      with (length l1 :: seq (S (length l1)) (length post)).
    cbn [for_each]. unfold bind_M at 1.
    change (l1 ++ [] ++ o :: post)%list with (l1 ++ o :: post)%list.
    rewrite on_obs_at, Ho. reflexivity.
  - change (seq (length l1) (length ((p :: pre) ++ o :: post)%list))
      with (length l1 :: seq (S (length l1)) (length (pre ++ o :: post)%list)).
    cbn [for_each]. unfold bind_M at 1.
    change (l1 ++ (p :: pre) ++ o :: post)%list with (l1 ++ p :: (pre ++ o :: post))%list.
    rewrite on_obs_at, Hp.
    replace (S (length l1)) with (length (l1 ++ [(m p).2])%list) by (rewrite length_app; simpl; lia).
    replace (l1 ++ (m p).2 :: pre ++ o :: post)%list
      with ((l1 ++ [(m p).2]) ++ pre ++ o :: post)%list
      by (rewrite <- app_assoc; reflexivity).
    rewrite IH. rewrite <- app_assoc. reflexivity.
Qed.

Lemma for_collect_on_obs_ok {A} (m : M CRISP A) (aa : string) (ff : option (list ndarray))
    (l2 l1 : list CRISP) :
  Forall (λ o, is_Ok (m o).1) l2 →
  ∃ rs, for_collect (seq (length l1) (length l2)) (λ i, on_obs i m)
          (mkSeqState (mkCRISPSequence (l1 ++ l2) aa) ff)
        = (Ok rs, mkSeqState (mkCRISPSequence (l1 ++ map (λ o, (m o).2) l2) aa) ff)
        ∧ Forall2 (λ o r, (m o).1 = Ok r) l2 rs.
Proof.
  revert l1. induction l2 as [|o l2 IH]; intros l1 Hall.
  - exists []. split; [reflexivity | constructor].
  - destruct (Forall_cons_1 _ _ _ Hall) as [[r Ho] Hrest].
    destruct (IH (l1 ++ [(m o).2])%list Hrest) as (rs & Hrun & Hrs).
    exists (r :: rs). split; [|constructor; assumption].
    change (seq (length l1) (length (o :: l2)))
      with (length l1 :: seq (S (length l1)) (length l2)).
    cbn [for_collect]. unfold bind_M at 1. rewrite on_obs_at, Ho.
    replace (S (length l1)) with (length (l1 ++ [(m o).2])%list) by (rewrite length_app; simpl; lia).
    replace (l1 ++ (m o).2 :: l2)%list with ((l1 ++ [(m o).2]) ++ l2)%list
      by (rewrite <- app_assoc; reflexivity).
    unfold bind_M at 1. rewrite Hrun. rewrite <- app_assoc. reflexivity.
Qed.

Lemma Forall2_map_self {A B} (R : A → B → Prop) (f : A → B) (l : list A) :
  Forall (λ x, R x (f x)) l → Forall2 R l (map f l).
Proof. induction 1; simpl; constructor; assumption. Qed.

Lemma data_at_run (k : Z) (st : SeqState) (o : CRISP) :
  0 ≤ k → obs_list (seq_obj st) !! Z.to_nat k = Some o → data_at k st = (data o, st).
Proof.
  intros Hk Ho. unfold data_at, reading. rewrite (list_get_nonneg _ _ _ Hk Ho). reflexivity.
Qed.

Lemma reconstruct_sep_state (o : CRISP) : (reconstruct_full_frame true o).2 = o.
Proof.
  unfold reconstruct_full_frame, bind_M, reading, ret_M, raise_M.
  destruct (header o) as [h|e]; [|reflexivity].
  destruct (bool_decide (is_Some (h !! "frame_dims"))); [|reflexivity].
  destruct (comprehension _ crop_keys) as [items|e]; [|reflexivity].
  destruct (data o) as [arr|e]; [|reflexivity].
  destruct (utils_reconstruct_full_frame _ arr) as [full|e]; reflexivity.
Qed.

(** X14: with [diff_t=False], the default, [rotate_crop] works on the
    first two observations and so needs two: on a sequence of fewer it
    raises and leaves the sequence as it was, and when the data of the
    observations can be read the error is the [IndexError] of [self.list[0]]
    or [self.list[1]]. *)
Theorem sequence_rotate_crop_needs_two (st : SeqState) (sep : bool) :
  (length (obs_list (seq_obj st)) < 2)%nat →
  (∃ e, seq_rotate_crop sep false st = (Raise e, st))
  ∧ (Forall (λ o, is_Ok (data o)) (obs_list (seq_obj st)) →
     seq_rotate_crop sep false st = (Raise (IndexError "list index out of range"), st)).
Proof.
  intros Hlen. destruct st as [[l aa] ff]. simpl in Hlen.
  destruct l as [|o [|o1 l]]; simpl in Hlen; [| |lia].
  - split; [eexists|intros _]; destruct sep; reflexivity.
  - assert (Hrun : ∀ st, obs_list (seq_obj st) = [o] →
                         data_at 0 st = (data o, st)
                         ∧ data_at 1 st = (Raise (IndexError "list index out of range"), st)).
    { intros st Hst. split.
      - apply data_at_run; [lia | rewrite Hst; reflexivity].
      - unfold data_at, reading. rewrite list_get_out; [reflexivity|].
        rewrite Hst. simpl. lia. }
    destruct (Hrun (mkSeqState (mkCRISPSequence [o] aa) ff) eq_refl) as [Hat0 Hat1].
    assert (Hcases : seq_rotate_crop sep false (mkSeqState (mkCRISPSequence [o] aa) ff)
                     = (match data o with
                        | Ok _ => Raise (IndexError "list index out of range")
                        | Raise e => Raise e
                        end, mkSeqState (mkCRISPSequence [o] aa) ff)).
    { unfold seq_rotate_crop. destruct sep; unfold bind_M at 1; rewrite Hat0;
        destruct (data o) as [arr|e]; try reflexivity;
        unfold bind_M at 1; rewrite Hat1; reflexivity. }
    rewrite Hcases. split.
    + destruct (data o); eexists; reflexivity.
    + intros Hall. destruct (Forall_cons_1 _ _ _ Hall) as [[arr ->] _]. reflexivity.
Qed.

(** X15: what [rotate_crop()] with the defaults does to a sequence of two
    or more.  The first two observations get the two cropped arrays and
    the crop keys in their headers, and the sequence gets [full_frame], the
    list of the two original arrays (the observations' own [full_frame] is
    not touched).  Every further observation keeps its data and header as
    they are, yet its flag [rotate] is set like that of the first two. *)
Theorem sequence_rotate_crop_aligned (o0 o1 : CRISP) (rest : list CRISP) (aa : string)
    (ff : option (list ndarray)) (arr_a arr_b crop_a crop_b : ndarray)
    (h0 h1 crop_dict : Header num) :
  data o0 = Ok arr_a → data o1 = Ok arr_b → header o0 = Ok h0 → header o1 = Ok h1 →
  rotate_crop_aligned_data arr_a arr_b = Ok (crop_a, crop_b, crop_dict) →
  ∃ o0' o1' rest',
    seq_rotate_crop false false (mkSeqState (mkCRISPSequence (o0 :: o1 :: rest) aa) ff)
    = (Ok ReturnsNone,
       mkSeqState (mkCRISPSequence (o0' :: o1' :: rest') aa) (Some [arr_a; arr_b]))
    ∧ data o0' = Ok crop_a ∧ data o1' = Ok crop_b
    ∧ header o0' = Ok (foldl (λ m kv, <[kv.1 := kv.2]> m) h0 (map_to_list crop_dict))
    ∧ header o1' = Ok (foldl (λ m kv, <[kv.1 := kv.2]> m) h1 (map_to_list crop_dict))
    ∧ rotate o0' = true ∧ rotate o1' = true
    ∧ full_frame o0' = full_frame o0 ∧ full_frame o1' = full_frame o1
    ∧ Forall2 (λ o o', file o' = file o ∧ full_frame o' = full_frame o ∧ rotate o' = true)
        rest rest'.
Proof.
  intros Hda Hdb Hh0 Hh1 Hal.
  set (patch := for_each (map_to_list crop_dict) (λ kv, set_header_item kv.1 kv.2)).
  destruct (set_file_data_spec o0 crop_a) as (a1 & Ea1 & Hd_a1 & Hh_a1 & _ & _ & _ & Hff_a1 & _).
  destruct (set_file_data_spec o1 crop_b) as (b1 & Eb1 & Hd_b1 & Hh_b1 & _ & _ & _ & Hff_b1 & _).
  destruct (for_each_set_header (map_to_list crop_dict) a1 h0 (Hh_a1 _ Hh0))
    as (a2 & Ea2 & Hh_a2 & (Hd_a2 & _ & _ & _ & Hff_a2 & _) & _).
  destruct (for_each_set_header (map_to_list crop_dict) b1 h1 (Hh_b1 _ Hh1))
    as (b2 & Eb2 & Hh_b2 & (Hd_b2 & _ & _ & _ & Hff_b2 & _) & _).
  fold patch in Ea2, Eb2.
  exists (set_rotate true a2).2, (set_rotate true b2).2,
         (map (λ o, (set_rotate true o).2) rest).
  split.
  - unfold seq_rotate_crop.
    set (st0 := mkSeqState (mkCRISPSequence (o0 :: o1 :: rest) aa) ff).
    assert (Hat0 : data_at 0 st0 = (Ok arr_a, st0))
      by (rewrite <- Hda; apply data_at_run; [lia | reflexivity]).
    assert (Hat1 : data_at 1 st0 = (Ok arr_b, st0))
      by (rewrite <- Hdb; apply data_at_run; [lia | reflexivity]).
    rewrite (bind_M_Ok _ _ _ _ _ Hat0). rewrite (bind_M_Ok _ _ _ _ _ Hat1).
    rewrite (bind_M_Ok (set_seq_full_frame [arr_a; arr_b]) _ st0 _ () eq_refl).
    set (st1 := mkSeqState (mkCRISPSequence (o0 :: o1 :: rest) aa) (Some [arr_a; arr_b])).
    change (mkSeqState (seq_obj st0) (Some [arr_a; arr_b])) with st1.
    assert (Hat0' : data_at 0 st1 = (Ok arr_a, st1))
      by (rewrite <- Hda; apply data_at_run; [lia | reflexivity]).
    assert (Hat1' : data_at 1 st1 = (Ok arr_b, st1))
      by (rewrite <- Hdb; apply data_at_run; [lia | reflexivity]).
    rewrite (bind_M_Ok _ _ _ _ _ Hat0'). rewrite (bind_M_Ok _ _ _ _ _ Hat1').
    rewrite (reading_Ok (λ _, rotate_crop_aligned_data arr_a arr_b) _ st1 _ Hal).
    cbv beta iota. unfold st1.
    rewrite (bind_M_Ok _ _ _ _ _
               (on_obs_0_run (set_file_data crop_a) o0 a1 (o1 :: rest) aa _ _ Ea1)).
    rewrite (bind_M_Ok _ _ _ _ _
               (on_obs_1_run (set_file_data crop_b) a1 o1 b1 rest aa _ _ Eb1)).
    rewrite (reading_Ok (λ st, Ok (take 2 (positions st))) _ _ _ eq_refl).
    change (take 2 (positions _)) with [0%nat; 1%nat].
    fold patch.
    assert (Hpatch : for_each [0%nat; 1%nat] (λ i, on_obs i patch)
                       (mkSeqState (mkCRISPSequence (a1 :: b1 :: rest) aa)
                          (Some [arr_a; arr_b]))
                     = (Ok (), mkSeqState (mkCRISPSequence (a2 :: b2 :: rest) aa)
                                 (Some [arr_a; arr_b]))).
    { cbn [for_each].
      rewrite (bind_M_Ok _ _ _ _ _ (on_obs_0_run patch a1 a2 (b1 :: rest) aa _ _ Ea2)).
      rewrite (bind_M_Ok _ _ _ _ _ (on_obs_1_run patch a2 b1 b2 rest aa _ _ Eb2)).
      reflexivity. }
    rewrite (bind_M_Ok _ _ _ _ _ Hpatch).
    rewrite (reading_Ok (λ st, Ok (positions st)) _ _ _ eq_refl).
    unfold positions. cbn [seq_obj obs_list].
    rewrite (bind_M_Ok _ _ _ _ _
               (for_each_on_obs_all (set_rotate true) aa _ (a2 :: b2 :: rest)
                  ltac:(apply Forall_forall; intros; reflexivity))).
    reflexivity.
  - split; [rewrite <- Hd_a1, <- Hd_a2; reflexivity|].
    split; [rewrite <- Hd_b1, <- Hd_b2; reflexivity|].
    split; [exact Hh_a2|]. split; [exact Hh_b2|].
    split; [reflexivity|]. split; [reflexivity|].
    split; [rewrite <- Hff_a1, <- Hff_a2; reflexivity|].
    split; [rewrite <- Hff_b1, <- Hff_b2; reflexivity|].
    apply Forall2_map_self, Forall_forall. intros o _. repeat split.
Qed.

Lemma crop_in_place_run (o : CRISP) (arr crop : ndarray) (h crop_dict : Header num) :
  data o = Ok arr → header o = Ok h → rotate_crop_data arr = Ok (crop, crop_dict) →
  ∃ o', crop_in_place o = (Ok (), o')
        ∧ data o' = Ok crop
        ∧ header o' = Ok (foldl (λ m kv, <[kv.1 := kv.2]> m) h (map_to_list crop_dict))
        ∧ rotate o' = true ∧ full_frame o' = full_frame o.
Proof.
  intros Hdata Hh Hcrop.
  destruct (set_file_data_spec o crop) as (o1 & E1 & Hd1 & Hh1 & _ & _ & _ & Hff1 & _).
  destruct (for_each_set_header (map_to_list crop_dict) o1 h (Hh1 _ Hh))
    as (o2 & E2 & Hh2 & (Hd2 & _ & _ & _ & Hff2 & _) & _).
  exists (set_rotate true o2).2. split.
  - unfold crop_in_place.
    assert (Hsep : rotate_crop true o = (Ok (Some (crop, crop_dict)), o)).
    { unfold rotate_crop. rewrite (reading_Ok data _ o arr Hdata).
      rewrite (reading_Ok (λ _, rotate_crop_data arr) _ o _ Hcrop). reflexivity. }
    rewrite (bind_M_Ok _ _ _ _ _ Hsep). cbv beta iota.
    rewrite (bind_M_Ok _ _ _ _ _ E1). rewrite (bind_M_Ok _ _ _ _ _ E2). reflexivity.
  - split; [rewrite <- Hd1, <- Hd2; reflexivity|].
    split; [exact Hh2|]. split; [reflexivity|].
    rewrite <- Hff1, <- Hff2. reflexivity.
Qed.

Lemma all_None {A B} (f : A → res (option B)) (l : list A) (rs : list (option B)) :
  Forall2 (λ o r, f o = Ok r) l rs → Forall (λ o, f o = Ok None) l →
  rs = replicate (length l) None.
Proof.
  induction 1 as [|o r l rs Hr _ IH]; intros Hall; [reflexivity|].
  destruct (Forall_cons_1 _ _ _ Hall) as [Ho Hrest].
  simpl. rewrite (IH Hrest). congruence.
Qed.

(** X16: on a sequence, [reconstruct_full_frame(sep=True)] and
    [rotate_crop(sep=True)] with the default [diff_t] only read: whether
    they return or raise, the sequence and every observation in it are as
    before. *)
Theorem sequence_sep_reads_only (st : SeqState) :
  (seq_reconstruct_full_frame true st).2 = st ∧ (seq_rotate_crop true false st).2 = st.
Proof.
  split.
  - unfold seq_reconstruct_full_frame.
    rewrite (reading_Ok (λ st, Ok (positions st)) _ _ _ eq_refl).
    unfold bind_M at 1.
    pose proof (for_collect_state_id (reconstruct_full_frame true) (positions st) st
                  reconstruct_sep_state) as Hid.
    destruct (for_collect (positions st) _ st) as [[rs|e] st']; simpl in Hid; subst st';
      reflexivity.
  - unfold seq_rotate_crop, data_at, bind_M, reading, ret_M.
    destruct (list_get (obs_list (seq_obj st)) 0 ≫= _) as [arr_a|e]; [|reflexivity].
    destruct (list_get (obs_list (seq_obj st)) 1 ≫= _) as [arr_b|e]; [|reflexivity].
    destruct (rotate_crop_aligned_data arr_a arr_b) as [[[ca cb] cd]|e]; reflexivity.
Qed.

(** X17: with [diff_t=True], [sep] does not decide whether the sequence is
    changed.  For both settings every observation is rotated and cropped in
    place: it gets the cropped array, the crop keys in its header and the
    flag [rotate].  With [sep=True] the call returns a list of [None]s and
    each observation keeps its original array in its own [full_frame]; with
    [sep=False] it returns [None], the original arrays are listed in the
    [full_frame] of the sequence and the observations' own [full_frame] is
    left alone. *)
Theorem sequence_rotate_crop_diff_t (st : SeqState) (sep : bool) :
  Forall (λ o, ∃ arr h r, data o = Ok arr ∧ header o = Ok h ∧ rotate_crop_data arr = Ok r)
    (obs_list (seq_obj st)) →
  ∃ ret st',
    seq_rotate_crop sep true st = (Ok ret, st')
    ∧ seq_aa (seq_obj st') = seq_aa (seq_obj st)
    ∧ Forall2
        (λ o o', ∃ arr h crop crop_dict,
           data o = Ok arr ∧ header o = Ok h ∧ rotate_crop_data arr = Ok (crop, crop_dict)
           ∧ data o' = Ok crop
           ∧ header o' = Ok (foldl (λ m kv, <[kv.1 := kv.2]> m) h (map_to_list crop_dict))
           ∧ rotate o' = true
           ∧ full_frame o' = (if sep then Some arr else full_frame o))
        (obs_list (seq_obj st)) (obs_list (seq_obj st'))
    ∧ (if sep
       then ret = PerObservation (replicate (length (obs_list (seq_obj st))) None)
            ∧ seq_full_frame st' = seq_full_frame st
       else ret = ReturnsNone
            ∧ ∃ arrs, seq_full_frame st' = Some arrs
                      ∧ Forall2 (λ o arr, data o = Ok arr) (obs_list (seq_obj st)) arrs).
Proof.
  intros Hall. destruct st as [[l aa] ff]. cbn [seq_obj obs_list seq_aa seq_full_frame] in *.
  destruct sep.
  - (* sep=True: [f.rotate_crop()] on every observation *)
    assert (Hone : Forall (λ o, (rotate_crop false o).1 = Ok None) l).
    { eapply Forall_impl; [exact Hall|]. intros o (arr & h & [crop cd] & Hd & Hh & Hc).
      destruct (rotate_crop_run o arr crop h cd Hd Hh Hc) as (o' & -> & _). reflexivity. }
    destruct (for_collect_on_obs_ok (rotate_crop false) aa ff l [])
      as (rs & Hrun & Hrs).
    { eapply Forall_impl; [exact Hone|]. intros o ->. eexists; reflexivity. }
    change (length []) with 0%nat in Hrun. change ([] ++ l)%list with l in Hrun.
    change ([] ++ map (λ o, (rotate_crop false o).2) l)%list
      with (map (λ o, (rotate_crop false o).2) l) in Hrun.
    eexists _, _. split; [|split; [|split]].
    + unfold seq_rotate_crop.
      rewrite (reading_Ok (λ st, Ok (positions st)) _ _ _ eq_refl).
      unfold positions. cbn [seq_obj obs_list].
      rewrite (bind_M_Ok _ _ _ _ _ Hrun). reflexivity.
    + reflexivity.
    + cbn [seq_obj obs_list]. apply Forall2_map_self.
      eapply Forall_impl; [exact Hall|]. intros o (arr & h & [crop cd] & Hd & Hh & Hc).
      destruct (rotate_crop_run o arr crop h cd Hd Hh Hc)
        as (o' & -> & Hd' & Hh' & Hff' & _ & Hrot').
      exists arr, h, crop, cd. repeat split; assumption.
    + split; [|reflexivity]. f_equal. exact (all_None _ _ _ Hrs Hone).
  - (* sep=False: [self.full_frame = [*self.data]], then the loop *)
    destruct (comprehension_total data l) as [arrs Harrs].
    { eapply Forall_impl; [exact Hall|]. intros o (arr & _ & _ & Hd & _). eexists; exact Hd. }
    assert (Hone : Forall (λ o, (crop_in_place o).1 = Ok ()) l).
    { eapply Forall_impl; [exact Hall|]. intros o (arr & h & [crop cd] & Hd & Hh & Hc).
      destruct (crop_in_place_run o arr crop h cd Hd Hh Hc) as (o' & -> & _). reflexivity. }
    eexists _, _. split; [|split; [|split]].
    + unfold seq_rotate_crop.
      rewrite (reading_Ok (λ st, seq_data (seq_obj st)) _
                 (mkSeqState (mkCRISPSequence l aa) ff) _ Harrs).
      rewrite (bind_M_Ok (set_seq_full_frame arrs) _ _ _ () eq_refl).
      cbn [seq_obj].
      rewrite (reading_Ok (λ st, Ok (positions st)) _ _ _ eq_refl).
      unfold positions. cbn [seq_obj obs_list].
      rewrite (bind_M_Ok _ _ _ _ _ (for_each_on_obs_all crop_in_place aa _ l Hone)).
      reflexivity.
    + reflexivity.
    + cbn [seq_obj obs_list]. apply Forall2_map_self.
      eapply Forall_impl; [exact Hall|]. intros o (arr & h & [crop cd] & Hd & Hh & Hc).
      destruct (crop_in_place_run o arr crop h cd Hd Hh Hc)
        as (o' & -> & Hd' & Hh' & Hrot' & Hff').
      exists arr, h, crop, cd. repeat split; assumption.
    + split; [reflexivity|]. exists arrs. split; [reflexivity|].
      apply comprehension_Ok, Harrs.
Qed.

(** X18: [reconstruct_full_frame(sep=False)] on a sequence is not atomic:
    it stops at the first observation whose reconstruction raises, with
    that exception.  The observations before it have been reconstructed
    and have [rotate] unset, the one that raised is as its own
    [reconstruct_full_frame] left it, and the ones after it were not
    touched. *)
Theorem sequence_reconstruct_stops (st : SeqState) (pre : list CRISP) (o o' : CRISP)
    (post : list CRISP) (e : exn) :
  obs_list (seq_obj st) = (pre ++ o :: post)%list →
  Forall (λ p, ∃ r p', reconstruct_full_frame false p = (Ok r, p')) pre →
  reconstruct_full_frame false o = (Raise e, o') →
  ∃ pre',
    seq_reconstruct_full_frame false st
    = (Raise e,
       mkSeqState (mkCRISPSequence (pre' ++ o' :: post) (seq_aa (seq_obj st)))
         (seq_full_frame st))
    ∧ Forall2 (λ p p', ∃ r q, reconstruct_full_frame false p = (Ok r, q)
                             ∧ file p' = file q ∧ rot_data p' = rot_data q
                             ∧ rotate p' = false) pre pre'.
Proof.
  intros Hobs Hpre Ho. destruct st as [[l aa] ff].
  cbn [seq_obj obs_list seq_aa seq_full_frame] in *. subst l.
  set (m := do _ <- reconstruct_full_frame false; set_rotate false).
  assert (Hm : ∀ p r q, reconstruct_full_frame false p = (Ok r, q) →
                        m p = (Ok (), (set_rotate false q).2)).
  { intros p r q Hp. unfold m. rewrite (bind_M_Ok _ _ _ _ _ Hp). reflexivity. }
  assert (Hmo : m o = (Raise e, o')) by (unfold m; rewrite (bind_M_Raise _ _ _ _ _ Ho); reflexivity).
  exists (map (λ p, (m p).2) pre). split.
  - unfold seq_reconstruct_full_frame.
    rewrite (reading_Ok (λ st, Ok (positions st)) _ _ _ eq_refl).
    unfold positions. cbn [seq_obj obs_list]. fold m.
    assert (Hfail : for_each (seq 0 (length (pre ++ o :: post)%list)) (λ i, on_obs i m)
                      (mkSeqState (mkCRISPSequence (pre ++ o :: post) aa) ff)
                    = (Raise e,
                       mkSeqState (mkCRISPSequence (map (λ p, (m p).2) pre ++ o' :: post) aa)
                         ff)).
    { replace o' with (m o).2 by (rewrite Hmo; reflexivity).
      apply (for_each_on_obs_fail m aa ff e pre [] o post).
      - eapply Forall_impl; [exact Hpre|]. intros p (r & q & Hp).
        rewrite (Hm p r q Hp). reflexivity.
      - rewrite Hmo. reflexivity. }
    rewrite (bind_M_Raise _ _ _ _ _ Hfail). reflexivity.
  - apply Forall2_map_self. eapply Forall_impl; [exact Hpre|].
    intros p (r & q & Hp). exists r, q. rewrite (Hm p r q Hp).
    split; [exact Hp|]. repeat split.
Qed.
End SequenceCropProperties.

Section SequenceCropSamples.
Import Stub Samples MoreSamples.
Import Crisp More SequenceCrop.

(** A sequence of one observation cannot be cropped with the defaults. *)
Lemma sequence_rotate_crop_needs_two_single :
  seq_rotate_crop false false (mkSeqState (mkCRISPSequence [whole] "#&8491;") None)
  = (Raise (IndexError "list index out of range"),
     mkSeqState (mkCRISPSequence [whole] "#&8491;") None).
Proof.
  destruct (@sequence_rotate_crop_needs_two stub stub_aligned
              (mkSeqState (mkCRISPSequence [whole] "#&8491;") None) false (le_n 2))
    as [_ Hindex].
  apply Hindex. apply Forall_cons; split; [eexists; reflexivity | constructor].
Defined.

(** A sequence of three: the third observation is flagged but not
    cropped. *)
Lemma sequence_rotate_crop_aligned_three :
  ∃ o0' o1' o2',
    seq_rotate_crop false false
      (mkSeqState (mkCRISPSequence [whole; whole; fits_obs] "#&8491;") None)
    = (Ok ReturnsNone,
       mkSeqState (mkCRISPSequence [o0'; o1'; o2'] "#&8491;") (Some [cube; cube]))
    ∧ data o0' = Ok (mkArray [4; 11; 50; 60] "crop of cube")
    ∧ data o1' = Ok (mkArray [4; 11; 50; 60] "crop of cube")
    ∧ file o2' = file fits_obs ∧ rotate o2' = true.
Proof.
  destruct (@sequence_rotate_crop_aligned stub stub_aligned whole whole [fits_obs] "#&8491;" None
              cube cube (mkArray [4; 11; 50; 60] "crop of cube")
              (mkArray [4; 11; 50; 60] "crop of cube") zarr_header zarr_header
              (crop_dict_of cube) eq_refl eq_refl eq_refl eq_refl eq_refl)
    as (o0' & o1' & rest' & Hrun & Hd0 & Hd1 & _ & _ & _ & _ & _ & _ & Hrest).
  destruct (Forall2_cons_inv_l _ _ _ _ Hrest) as (o2' & rest'' & (Hfile & _ & Hrot) & Hnil & ->).
  apply Forall2_nil_inv_l in Hnil as ->.
  exists o0', o1', o2'. split; [exact Hrun|]. split; [exact Hd0|]. split; [exact Hd1|].
  split; [exact Hfile | exact Hrot].
Defined.

(** With [diff_t=True] and [sep=True] both observations of a sequence are
    cropped in place. *)
Lemma sequence_rotate_crop_diff_t_two :
  ∃ o0' o1' st',
    seq_rotate_crop true true (mkSeqState (mkCRISPSequence [whole; fits_obs] "#&8491;") None)
    = (Ok (PerObservation [None; None]), st')
    ∧ obs_list (seq_obj st') = [o0'; o1']
    ∧ data o0' = Ok (mkArray [4; 11; 50; 60] "crop of cube")
    ∧ full_frame o0' = Some cube ∧ rotate o1' = true.
Proof.
  destruct (@sequence_rotate_crop_diff_t stub stub_aligned
              (mkSeqState (mkCRISPSequence [whole; fits_obs] "#&8491;") None) true)
    as (ret & st' & Hrun & _ & Hobs & -> & _).
  { apply Forall_cons; split.
    - exists cube, zarr_header. eexists. split; [reflexivity|]. split; reflexivity.
    - apply Forall_cons; split; [|constructor].
      exists cube, fits_header. eexists. split; [reflexivity|]. split; reflexivity. }
  destruct (Forall2_cons_inv_l _ _ _ _ Hobs) as (o0' & l1 & H0 & Hobs1 & Hl).
  destruct (Forall2_cons_inv_l _ _ _ _ Hobs1) as (o1' & l2 & H1 & Hobs2 & ->).
  apply Forall2_nil_inv_l in Hobs2 as ->.
  exists o0', o1', st'. split; [exact Hrun|]. split; [exact Hl|].
  destruct H0 as (arr0 & h0 & crop0 & cd0 & Hd0 & _ & Hc0 & Hd0' & _ & _ & Hff0).
  destruct H1 as (arr1 & h1 & crop1 & cd1 & _ & _ & _ & _ & _ & Hrot1 & _).
  injection Hd0 as <-. injection Hc0 as <- _.
  split; [exact Hd0'|]. split; [exact Hff0 | exact Hrot1].
Defined.

(** Reconstructing a sequence whose second observation was never
    cropped: the first one is reconstructed, then the assertion fails. *)
Lemma sequence_reconstruct_stops_second :
  ∃ o0',
    seq_reconstruct_full_frame false
      (mkSeqState (mkCRISPSequence [flagged; whole] "#&8491;") None)
    = (Raise AssertionError, mkSeqState (mkCRISPSequence [o0'; whole] "#&8491;") None)
    ∧ rotate o0' = false.
Proof.
  destruct (@sequence_reconstruct_stops stub
              (mkSeqState (mkCRISPSequence [flagged; whole] "#&8491;") None)
              [flagged] whole whole [] AssertionError eq_refl)
    as (pre' & Hrun & Hpre).
  - apply Forall_cons; split; [|constructor].
    exists None, (reconstruct_full_frame false flagged).2. reflexivity.
  - reflexivity.
  - destruct (Forall2_cons_inv_l _ _ _ _ Hpre) as (o0' & l1 & H0 & Hnil & ->).
    apply Forall2_nil_inv_l in Hnil as ->.
    exists o0'. split; [exact Hrun|].
    destruct H0 as (r & q & _ & _ & _ & Hrot). exact Hrot.
Defined.
End SequenceCropSamples.

(** ** Sequences: the empty sequence and the summaries *)

Section SequenceSummaries.
Context `{ExternAligned}.
Import Crisp More SequencePlots SequenceCrop.

(** X19: [CRISPSequence([])] is built without complaint, and this is how
    the empty sequence behaves: the list properties are empty lists,
    plotting ["all"] draws nothing, and every integer index raises
    [IndexError].  [rotate_crop(diff_t=True)] crops nothing: with
    [sep=True] it returns the empty list and leaves the sequence as it is,
    with [sep=False] it returns [None] and sets the [full_frame] of the
    sequence to the empty list.  [reconstruct_full_frame] changes nothing
    and returns the empty list with [sep=True], [None] otherwise.
    [__str__] (and with it [info]) raises [IndexError], as does
    [CRISPWidebandSequence.__str__]. *)
Theorem sequence_empty :
  ∃ s, seq__init__ [] = Ok s ∧ obs_list s = []
    ∧ seq__str__ s = Raise (IndexError "list index out of range")
    ∧ (∃ w, wb_seq__init__ [] = Ok w
            ∧ wb_seq__str__ w = Raise (IndexError "list index out of range"))
    ∧ seq_data s = Ok [] ∧ seq_header s = Ok [] ∧ seq_shape s = Ok []
    ∧ seq_wvls s = Ok [] ∧ seq_time s = Ok [] ∧ seq_date s = Ok []
    ∧ (∀ p, seq_plot p s (AtStr "all") = Ok []
            ∧ ∀ i, seq_plot p s (AtInt i) = Raise (IndexError "list index out of range"))
    ∧ (∀ ff, seq_rotate_crop true true (mkSeqState s ff)
             = (Ok (PerObservation []), mkSeqState s ff)
             ∧ seq_rotate_crop false true (mkSeqState s ff)
               = (Ok ReturnsNone, mkSeqState s (Some []))
             ∧ seq_reconstruct_full_frame true (mkSeqState s ff)
               = (Ok (Some []), mkSeqState s ff)
             ∧ seq_reconstruct_full_frame false (mkSeqState s ff)
               = (Ok None, mkSeqState s ff)).
Proof.
  eexists. split; [reflexivity|]. split; [reflexivity|]. split; [reflexivity|].
  split; [eexists; split; reflexivity|].
  do 6 (split; [reflexivity|]).
  split.
  - intros p. split; [destruct p; reflexivity|]. intros i.
    destruct p; unfold seq_plot, seq_plot_spectrum, seq_plot_stokes, seq_intensity_map,
      seq_stokes_map, on_index; (rewrite list_get_out; [reflexivity | simpl; lia]).
  - intros ff. split; [reflexivity|]. split; [reflexivity|]. split; reflexivity.
Qed.

Lemma file_header_get_lookup (o : CRISP) (h : Header num) (key : string) :
  file_header (file o) = Ok (OHeader h) →
  file_header_get o key = match h !! key with
                          | Some v => Ok v
                          | None => Raise (KeyError key)
                          end.
Proof. unfold file_header_get. intros ->. reflexivity. Qed.

Lemma comprehension_constant {A B} (r : res B) (y : B) (l : list A) :
  r = Ok y → comprehension (λ _, r) l = Ok (replicate (length l) y).
Proof.
  intros ->. induction l as [|x l IH]; simpl; [reflexivity|]. rewrite IH. reflexivity.
Qed.

(** X20: in the fallback of [CRISPWidebandSequence.__str__] the line
    "Observed" does not list the elements of the observations: it repeats
    the ["element"] of the first observation once for every observation.
    The ["element"] entries of the other observations are never read. *)
Theorem wideband_sequence_observed_first (self : CRISPWidebandSequence) (o0 : CRISP)
    (rest : list CRISP) (h0 : Header num) (times : list (pyval num)) (shapes : list string)
    (d el crval px py : pyval num) :
  wb_list self = o0 :: rest →
  file_header (file o0) = Ok (OHeader h0) →
  h0 !! "DATE-AVG" = None →
  comprehension (λ f, file_header_get f "time_obs") (o0 :: rest) = Ok times →
  comprehension (λ f, v ← file_header_get f "dimensions"; Ok (fmt v)) (o0 :: rest) = Ok shapes →
  h0 !! "date_obs" = Some d → h0 !! "element" = Some el → h0 !! "crval" = Some crval →
  val_neg_index 1 crval = Ok px → val_neg_index 2 crval = Ok py →
  wb_seq__str__ self
  = Ok (wideband_summary (fmt d) (fmt (VSeq times))
          (fmt (VSeq (replicate (S (length rest)) el))) (fmt px) (fmt py) (fmt_strs shapes)).
Proof.
  intros Hlist Hh0 Hno Htimes Hshapes Hd Hel Hcrval Hpx Hpy.
  assert (Hget : ∀ key, file_header_get o0 key = match h0 !! key with
                                                 | Some v => Ok v
                                                 | None => Raise (KeyError key)
                                                 end)
    by (intros key; apply file_header_get_lookup, Hh0).
  assert (Hfirst : list_get (o0 :: rest) 0 = Ok o0)
    by (apply list_get_nonneg; [lia | reflexivity]).
  unfold wb_seq__str__. rewrite Hlist, Hfirst.
  cbn [comprehension]. rewrite (Hget "DATE-AVG"), Hno.
  cbn [comprehension] in Htimes, Hshapes.
  cbn [mbind res_bind try_except_KeyError].
  rewrite Htimes. cbn [mbind res_bind].
  rewrite (Hget "date_obs"), Hd. cbn [mbind res_bind].
  rewrite Hshapes. cbn [mbind res_bind].
  rewrite !(Hget "element"), Hel.
  rewrite (comprehension_constant (Ok el) el rest eq_refl).
  cbn [mbind res_bind].
  rewrite (Hget "crval"), Hcrval. cbn [mbind res_bind]. rewrite Hpx, Hpy. reflexivity.
Qed.
End SequenceSummaries.

Section SequenceSummariesSamples.
Import Stub Samples MoreSamples.
Import Crisp More.

(** Two observations of two lines: the summary names the first line
    twice. *)
Lemma wideband_sequence_observed_first_two_lines :
  wb_seq__str__ (mkCRISPWidebandSequence [whole; halpha])
  = Ok (wideband_summary "2014-09-06" "['16:53:19.123', '16:53:19.123']"
          "['Ca II 8542', 'Ca II 8542']" "500" "-300"
          "['[4, 11, 50, 60]', '[4, 11, 50, 60]']").
Proof.
  apply (wideband_sequence_observed_first (mkCRISPWidebandSequence [whole; halpha])
           whole [halpha] zarr_header
           [VStr "16:53:19.123"; VStr "16:53:19.123"]
           ["[4, 11, 50, 60]"; "[4, 11, 50, 60]"]
           (VStr "2014-09-06") (VStr "Ca II 8542")
           (VSeq [VNum 1; VNum 8542; VNum (-300); VNum 500]) (VNum 500) (VNum (-300)));
    reflexivity.
Defined.
End SequenceSummariesSamples.

(** ** [Inversion]: what the methods show *)

Section InversionMore.
Context `{Extern}.
Import Inversions InversionCalls.

Lemma point_cases (st : Session) :
  (∃ e, point st = (Raise e, st)) ∨ point st = (Ok [], st).
Proof.
  unfold point, attr, lift, bind_M, reading.
  destruct (wcs (self st)) as [[w|]|]; try (left; eexists; reflexivity).
  destruct (wcs_getitem (_wcs w) [IInt 0]) as [sub|e]; [|left; eexists; reflexivity].
  destruct (ind (self st)) as [[it|its]|]; try (left; eexists; reflexivity).
  destruct (array_index_to_world sub (map PItem its)) as [world|e];
    [|left; eexists; reflexivity].
  destruct (iterate world) as [[|x xs]|e].
  - right. reflexivity.
  - left. eexists. reflexivity.
  - left. eexists. reflexivity.
Qed.

Lemma point_title_nil (st : Session) : ∃ e, point_title [] st = (Raise e, st).
Proof.
  unfold point_title, attr, lift, bind_M, reading.
  destruct (header (self st)) as [[h|]|]; try (eexists; reflexivity).
  destruct (datetime_of h); eexists; reflexivity.
Qed.

Lemma point_NameError (st : Session) (w sub : WCS) (its : list Item)
    (world x : World num) (xs : list (World num)) :
  wcs (self st) = Some (Some w) → wcs_getitem (_wcs w) [IInt 0] = Ok sub →
  ind (self st) = Some (Tuple its) →
  array_index_to_world sub (map PItem its) = Ok world → iterate world = Ok (x :: xs) →
  point st = (Raise (NameError "name 'u' is not defined"), st).
Proof.
  intros Hw Hsub Hind Hworld Hiter.
  unfold point, attr, lift, bind_M, reading.
  rewrite Hw, Hsub, Hind, Hworld, Hiter. reflexivity.
Qed.

Ltac never_returns st :=
  unfold bind_M at 1;
  destruct (point_cases st) as [[? ->]| ->]; [eexists; reflexivity|];
  unfold bind_M at 1;
  destruct (point_title_nil st) as [? ->]; eexists; reflexivity.

(** X21: [plot_ne], [plot_temp], [plot_vel] and [plot_params] never draw
    anything.  Whatever the object is, each of them raises and no figure is
    shown: the coordinates of the point are converted with [u.arcsec], and
    the module never imports [u].  On an object whose WCS yields at least
    one coordinate the exception is that [NameError]; otherwise it is an
    earlier error, or the [IndexError] of [point[0]] on the empty list. *)
Theorem inversion_plots_never_draw (st : Session) :
  (∃ e, plot_ne st = (Raise e, st)) ∧ (∃ e, plot_temp st = (Raise e, st))
  ∧ (∃ e, plot_vel st = (Raise e, st)) ∧ (∃ e, plot_params st = (Raise e, st))
  ∧ (∀ w sub its world x xs,
       wcs (self st) = Some (Some w) → wcs_getitem (_wcs w) [IInt 0] = Ok sub →
       ind (self st) = Some (Tuple its) →
       array_index_to_world sub (map PItem its) = Ok world → iterate world = Ok (x :: xs) →
       plot_ne st = (Raise (NameError "name 'u' is not defined"), st)
       ∧ plot_temp st = (Raise (NameError "name 'u' is not defined"), st)
       ∧ plot_vel st = (Raise (NameError "name 'u' is not defined"), st)
       ∧ plot_params st = (Raise (NameError "name 'u' is not defined"), st)).
Proof.
  split; [unfold plot_ne; never_returns st|].
  split; [unfold plot_temp; never_returns st|].
  split; [unfold plot_vel; never_returns st|].
  split; [unfold plot_params; never_returns st|].
  intros w sub its world x xs Hw Hsub Hind Hworld Hiter.
  pose proof (point_NameError st w sub its world x xs Hw Hsub Hind Hworld Hiter) as Hpoint.
  split; [|split; [|split]].
  - unfold plot_ne. unfold bind_M at 1. rewrite Hpoint. reflexivity.
  - unfold plot_temp. unfold bind_M at 1. rewrite Hpoint. reflexivity.
  - unfold plot_vel. unfold bind_M at 1. rewrite Hpoint. reflexivity.
  - unfold plot_params. unfold bind_M at 1. rewrite Hpoint. reflexivity.
Qed.

Lemma height_reads (st : Session) : (height st).2 = st.
Proof.
  unfold height, attr, lift, bind_M, reading, ret_M.
  destruct (z (self st)) as [zz|]; [|reflexivity].
  destruct (ind (self st)) as [i|]; [|reflexivity].
  destruct zz as [zs|[arr|]]; try reflexivity.
  destruct (getitem arr i); reflexivity.
Qed.

Lemma map_datetime_reads (st : Session) : (map_datetime st).2 = st.
Proof.
  unfold map_datetime, attr, lift, bind_M, reading, ret_M.
  destruct (header (self st)) as [[h|]|]; try reflexivity.
  destruct (datetime_of h); reflexivity.
Qed.

Ltac after_title st :=
  unfold bind_M at 1;
  let Hh := fresh "Hh" in
  pose proof (height_reads st) as Hh;
  destruct (height st) as [[? | ?] ?]; cbn [snd] in Hh; subst; [|reflexivity];
  unfold bind_M at 1;
  let Hd := fresh "Hd" in
  pose proof (map_datetime_reads st) as Hd;
  destruct (map_datetime st) as [[? | ?] ?]; cbn [snd] in Hd; subst; [|reflexivity].

Ltac one_figure :=
  split; [reflexivity|]; eexists; split; [reflexivity|]; split; [reflexivity|];
  repeat (apply Forall_cons; split; [reflexivity|]); constructor.

(** X22: each of the four [*_map] methods shows exactly one figure when it
    returns and none when it raises.  The figure has one axes for [ne_map],
    [temp_map] and [vel_map] and three for [params_map]; with [frame=None]
    every axes is created with [projection=self.wcs], with any other
    [frame] without a projection. *)
Theorem inversion_maps_draw_one (frame_is_None : bool) :
  draws (ne_map frame_is_None) 1 frame_is_None
  ∧ draws (temp_map frame_is_None) 1 frame_is_None
  ∧ draws (vel_map frame_is_None) 1 frame_is_None
  ∧ draws (params_map frame_is_None) 3 frame_is_None.
Proof.
  split; [|split; [|split]]; intros st.
  - unfold ne_map. after_title st.
    destruct frame_is_None; unfold attr, bind_M, reading, show, modify.
    + destruct (wcs (self st)) as [w|]; [|reflexivity].
      destruct (ne (self st)); [|reflexivity]. one_figure.
    + destruct (ne (self st)); [|reflexivity]. one_figure.
  - unfold temp_map. after_title st.
    destruct frame_is_None; unfold attr, bind_M, reading, show, modify.
    + destruct (wcs (self st)) as [w|]; [|reflexivity].
      destruct (temp (self st)); [|reflexivity]. one_figure.
    + destruct (temp (self st)); [|reflexivity]. one_figure.
  - unfold vel_map. after_title st.
    destruct frame_is_None; unfold attr, bind_M, reading, show, modify.
    + destruct (wcs (self st)) as [w|]; [|reflexivity].
      destruct (vel (self st)); [|reflexivity]. one_figure.
    + destruct (vel (self st)); [|reflexivity]. one_figure.
  - unfold params_map. after_title st.
    destruct frame_is_None; unfold attr, bind_M, reading, show, modify.
    + destruct (wcs (self st)) as [w|]; [|reflexivity].
      destruct (ne (self st)); [|reflexivity].
      destruct (temp (self st)); [|reflexivity].
      destruct (vel (self st)); [|reflexivity]. one_figure.
    + destruct (ne (self st)); [|reflexivity].
      destruct (temp (self st)); [|reflexivity].
      destruct (vel (self st)); [|reflexivity]. one_figure.
Qed.

(** X23: the two classes do not share their alternate convention.
    [Inversion] falls back to the keys ["date-obs"] and ["time-obs"], with
    hyphens, where [CRISP] falls back to ["date_obs"] and ["time_obs"]: a
    header without ["DATE-AVG"] from which [CRISP] builds its date and time
    makes every [*_map] method of [Inversion] raise [KeyError], and nothing
    is shown. *)
Theorem inversion_hyphenated_keys (h : Header num) (ds ts : string) :
  h !! "DATE-AVG" = None → h !! "date_obs" = Some (VStr ds) →
  h !! "time_obs" = Some (VStr ts) → h !! "date-obs" = None →
  (∀ c : Crisp.CRISP, Crisp.header c = Ok h →
     Crisp.datetime_of c = Ok (VStr ((ds ++ "T") ++ ts)))
  ∧ datetime_of h = Raise (KeyError "date-obs")
  ∧ (∀ st b, header (self st) = Some (Some h) → is_Ok (height st).1 →
       ne_map b st = (Raise (KeyError "date-obs"), st)
       ∧ temp_map b st = (Raise (KeyError "date-obs"), st)
       ∧ vel_map b st = (Raise (KeyError "date-obs"), st)
       ∧ params_map b st = (Raise (KeyError "date-obs"), st)).
Proof.
  intros Hno Hd Ht Hhy.
  assert (Hdt : datetime_of h = Raise (KeyError "date-obs"))
    by (unfold datetime_of; rewrite Hno, Hhy; reflexivity).
  split; [|split; [exact Hdt|]].
  - intros c Hc. unfold Crisp.datetime_of.
    rewrite !(header_get_lookup _ _ _ Hc), Hno, Hd, Ht. reflexivity.
  - intros st b Hh [hz Hz].
    assert (Hheight : height st = (Ok hz, st)).
    { pose proof (height_reads st) as Hr. destruct (height st) as [r st'].
      simpl in Hz, Hr. subst. reflexivity. }
    assert (Hmd : ∀ A (k : string → M Session A),
              bind_M map_datetime k st = (Raise (KeyError "date-obs"), st)).
    { intros A k. unfold map_datetime, attr, lift, bind_M, reading.
      rewrite Hh, Hdt. reflexivity. }
    split; [|split; [|split]].
    + unfold ne_map. rewrite (bind_M_Ok _ _ _ _ _ Hheight). apply Hmd.
    + unfold temp_map. rewrite (bind_M_Ok _ _ _ _ _ Hheight). apply Hmd.
    + unfold vel_map. rewrite (bind_M_Ok _ _ _ _ _ Hheight). apply Hmd.
    + unfold params_map. rewrite (bind_M_Ok _ _ _ _ _ Hheight). apply Hmd.
Qed.

(** X24: what [str()] of a new [Inversion] gives.  Built without a header
    it is the fixed sentence; built with a header it raises
    [AttributeError], since [__str__] reads [self.file], which the
    constructor never sets; and the object built from a [filename] that is
    neither a string nor an [ObjDict] has no [header] attribute at all. *)
Theorem inversion_str_after_init (filename : Filename) (w : option WCS) (zz : ZArg)
    (hdr : option (Header num)) (inv : Inversion) (figs : list Figure) :
  __init__ filename w zz hdr = Ok inv →
  __str__ (mkSession inv figs)
  = (match filename, hdr with
     | FOther _, _ => Raise (AttributeError "'Inversion' object has no attribute 'header'")
     | _, None => Ok "You know more about this data than me, m8."
     | _, Some _ => Raise (AttributeError "'Inversion' object has no attribute 'file'")
     end, mkSession inv figs).
Proof.
  intros Hinit. unfold __init__ in Hinit.
  destruct filename as [name|od|other].
  - apply bind_Ok in Hinit as (f0 & _ & Hinit).
    apply bind_Ok in Hinit as (ne0 & _ & Hinit).
    apply bind_Ok in Hinit as (temp0 & _ & Hinit).
    apply bind_Ok in Hinit as (vel0 & _ & Hinit).
    apply bind_Ok in Hinit as (err0 & _ & Hinit).
    apply bind_Ok in Hinit as (z0 & _ & Hinit).
    injection Hinit as <-. destruct hdr; reflexivity.
  - apply bind_Ok in Hinit as (ne0 & _ & Hinit).
    apply bind_Ok in Hinit as (temp0 & _ & Hinit).
    apply bind_Ok in Hinit as (vel0 & _ & Hinit).
    apply bind_Ok in Hinit as (err0 & _ & Hinit).
    injection Hinit as <-. destruct hdr; reflexivity.
  - injection Hinit as <-. reflexivity.
Qed.
End InversionMore.

Section InversionMoreSamples.
Import Stub Samples MoreSamples.
Import Inversions.

(** The header of the Zarr file, which [CRISP] reads, on an inversion. *)
Lemma inversion_hyphenated_keys_zarr :
  Crisp.datetime_of whole = Ok (VStr "2014-09-06T16:53:19.123")
  ∧ ne_map true (mkSession inverted []) = (Raise (KeyError "date-obs"), mkSession inverted []).
Proof.
  destruct (@inversion_hyphenated_keys stub zarr_header "2014-09-06" "16:53:19.123"
              eq_refl eq_refl eq_refl eq_refl) as (Hcrisp & _ & Hmaps).
  split.
  - apply Hcrisp. reflexivity.
  - destruct (Hmaps (mkSession inverted []) true eq_refl) as [Hne _].
    + eexists. reflexivity.
    + exact Hne.
Defined.

(** An inversion built from an [ObjDict] with a header cannot be printed. *)
Lemma inversion_str_after_init_header :
  ∃ inv, __init__ (FObjDict inversion_arrays) None (ZObj None) (Some zarr_header) = Ok inv
         ∧ __str__ (mkSession inv [])
           = (Raise (AttributeError "'Inversion' object has no attribute 'file'"),
              mkSession inv []).
Proof.
  assert (Hinit : ∃ inv, __init__ (FObjDict inversion_arrays) None (ZObj None)
                           (Some zarr_header) = Ok inv)
    by (eexists; reflexivity).
  destruct Hinit as [inv Hinv]. exists inv. split; [exact Hinv|].
  exact (@inversion_str_after_init stub _ _ _ _ inv [] Hinv).
Defined.
End InversionMoreSamples.

(** ** Which Stokes strings are accepted *)

Section StokesAcceptance.
Context `{Extern}.
Import Crisp.

Lemma is_Ok_Ok {A} (a : A) : is_Ok (Ok a).
Proof. eexists; reflexivity. Qed.

Lemma not_is_Ok_Raise {A} (e : exn) : ¬ is_Ok (Raise e : res A).
Proof. intros [a Ha]. discriminate Ha. Qed.

Lemma all_components_Forall (stokes : string) :
  all_components stokes = true ↔ Forall (λ c, c ∈ stokes_components) (chars stokes).
Proof. exact (forallb_bool_decide (λ c, c ∈ stokes_components) (chars stokes)). Qed.

Lemma component_length (stokes : string) :
  stokes ∈ stokes_components → String.length stokes = 1%nat.
Proof.
  unfold stokes_components. rewrite !elem_of_cons.
  intros [->|[->|[->|[->|Hnil]]]]; try reflexivity.
  exfalso. revert Hnil. apply not_elem_of_nil.
Qed.

(** X25: the Stokes strings the two methods accept, once their titles and
    the other preliminaries have been computed.  [_plot_stokes] accepts, on
    one-dimensional data, exactly the four letters, and on two-dimensional
    data ["all"] and every string of fewer than five of the letters, the
    empty string and repetitions included.  [stokes_map] accepts, on
    two-dimensional data, exactly the four letters, and on
    three-dimensional data ["all"] and every string of the letters, of any
    length. *)
Theorem stokes_acceptance (self : CRISP) (arr : ndarray) (stokes : string)
    (wavelength : Quantity num) (unit : option AstroUnit) (air d : bool)
    (frame : option string) :
  data self = Ok arr →
  (is_Ok (plot_stokes_labels self) → is_Ok (plot_stokes_wavelength wavelength unit air) →
   (ndim arr = 1%nat →
    (is_Ok (_plot_stokes self stokes wavelength unit air d) ↔ stokes ∈ stokes_components))
   ∧ (ndim arr = 2%nat →
      (is_Ok (_plot_stokes self stokes wavelength unit air d)
       ↔ stokes = "all"
         ∨ ((String.length stokes < 5)%nat
            ∧ Forall (λ c, c ∈ stokes_components) (chars stokes)))))
  ∧ (is_Ok (stokes_map_title self) → is_Ok (extent_of self (frame_of self frame)) →
     (ndim arr = 2%nat →
      (is_Ok (stokes_map self stokes frame) ↔ stokes ∈ stokes_components))
     ∧ (ndim arr = 3%nat →
        (is_Ok (stokes_map self stokes frame)
         ↔ stokes = "all" ∨ Forall (λ c, c ∈ stokes_components) (chars stokes)))).
Proof.
  intros Hdata. split.
  - intros [[datetime el] Hl] [wl Hw].
    assert (Hrun : _plot_stokes self stokes wavelength unit air d
                   = if decide (ndim arr = 1%nat) then
                       if negb (is_component stokes) then Raise (not_a_Stokes stokes)
                       else Ok (Some (plot_single_spectrum wl arr
                                        (fmt datetime ++ " " ++ fmt el ++ " " ++ aa self
                                         ++ " Stokes " ++ y_labels stokes)
                                        (y_labels stokes) d))
                     else if decide (ndim arr = 2%nat) then
                       if String.eqb stokes "all" then
                         Ok (Some (plot_multi_component_spectrum stokes_components wl arr
                                     (fmt datetime ++ " " ++ fmt el ++ " " ++ aa self
                                      ++ " All  Stokes") d))
                       else if bool_decide (String.length stokes < 5)%nat
                               && all_components stokes then
                         Ok (Some (plot_multi_component_spectrum (chars stokes) wl arr
                                     (fmt datetime ++ " " ++ fmt el ++ " " ++ aa self
                                      ++ " Stokes " ++ join ", " (chars stokes)) d))
                       else Raise (not_all_valid stokes)
                     else Ok None).
    { unfold _plot_stokes. rewrite Hl. cbn [mbind res_bind]. rewrite Hw.
      cbn [mbind res_bind]. rewrite Hdata. reflexivity. }
    rewrite Hrun. split; intros Hnd.
    + destruct (decide (ndim arr = 1%nat)) as [_|]; [|contradiction].
      unfold is_component. case_bool_decide as Hin; simpl.
      * split; [intros _; exact Hin | intros _; apply is_Ok_Ok].
      * split; [intros Hok; destruct (not_is_Ok_Raise _ Hok) | contradiction].
    + destruct (decide (ndim arr = 1%nat)) as [|_]; [congruence|].
      destruct (decide (ndim arr = 2%nat)) as [_|]; [|contradiction].
      destruct (String.eqb stokes "all") eqn:Hall.
      * apply String.eqb_eq in Hall.
        split; [intros _; left; exact Hall | intros _; apply is_Ok_Ok].
      * apply String.eqb_neq in Hall.
        destruct (bool_decide (String.length stokes < 5)%nat && all_components stokes)
          eqn:Hvalid.
        -- apply andb_true_iff in Hvalid as [Hlen Hcomps].
           apply bool_decide_eq_true in Hlen. apply all_components_Forall in Hcomps.
           split; [intros _; right; split; assumption | intros _; apply is_Ok_Ok].
        -- split; [intros Hok; destruct (not_is_Ok_Raise _ Hok)|].
           intros [->|[Hlen Hcomps]]; [congruence|].
           apply all_components_Forall in Hcomps.
           rewrite (bool_decide_eq_true_2 _ Hlen), Hcomps in Hvalid. discriminate Hvalid.
  - intros [title Ht] [extent He].
    assert (Hrun : stokes_map self stokes frame
                   = if decide (ndim arr = 2%nat) then
                       if negb (bool_decide (String.length stokes = 1%nat)
                                && is_component stokes) then
                         Raise (one_component_only stokes)
                       else
                         Ok (Some (plot_single_frame self (frame_of self frame)
                                     ("Stokes " ++ stokes ++ " " ++ title)
                                     (Some (stokes ++ " [DNs]")) extent
                                     (norms stokes) (map_datas stokes)))
                     else if decide (ndim arr = 3%nat) then
                       components ←
                         (if String.eqb stokes "all" then Ok stokes_components
                          else if negb (forallb is_component (chars stokes)) then
                                 Raise (not_a_combination stokes)
                               else Ok (chars stokes));
                       Ok (Some (plot_multi_frame self components (frame_of self frame) extent))
                     else Ok None).
    { unfold stokes_map. rewrite Ht. cbn [mbind res_bind]. rewrite He.
      cbn [mbind res_bind]. rewrite Hdata. reflexivity. }
    rewrite Hrun. split; intros Hnd.
    + destruct (decide (ndim arr = 2%nat)) as [_|]; [|contradiction].
      unfold is_component. destruct (decide (stokes ∈ stokes_components)) as [Hin|Hnin].
      * rewrite (bool_decide_eq_true_2 _ (component_length _ Hin)).
        rewrite (bool_decide_eq_true_2 _ Hin). simpl.
        split; [intros _; exact Hin | intros _; apply is_Ok_Ok].
      * rewrite (bool_decide_eq_false_2 _ Hnin). rewrite andb_false_r. simpl.
        split; [intros Hok; destruct (not_is_Ok_Raise _ Hok) | contradiction].
    + destruct (decide (ndim arr = 2%nat)) as [|_]; [congruence|].
      destruct (decide (ndim arr = 3%nat)) as [_|]; [|contradiction].
      destruct (String.eqb stokes "all") eqn:Hall.
      * apply String.eqb_eq in Hall.
        split; [intros _; left; exact Hall | intros _; apply is_Ok_Ok].
      * apply String.eqb_neq in Hall.
        fold (all_components stokes).
        destruct (all_components stokes) eqn:Hcomps; simpl.
        -- apply all_components_Forall in Hcomps.
           split; [intros _; right; exact Hcomps | intros _; apply is_Ok_Ok].
        -- split; [intros Hok; destruct (not_is_Ok_Raise _ Hok)|].
           intros [->|Hvalid]; [congruence|].
           apply all_components_Forall in Hvalid. congruence.
Qed.
End StokesAcceptance.

Section StokesAcceptanceSamples.
Import Stub Samples MoreSamples.

(** The Stokes profiles of one pixel: the empty string and a repeated
    letter are accepted, five letters are not. *)
Lemma stokes_acceptance_profiles :
  is_Ok (Crisp._plot_stokes profiles "" (mkQuantity (Vector [8542; 8543]) Angstrom)
           None false false)
  ∧ is_Ok (Crisp._plot_stokes profiles "II" (mkQuantity (Vector [8542; 8543]) Angstrom)
             None false false)
  ∧ Crisp._plot_stokes profiles "IQUVI" (mkQuantity (Vector [8542; 8543]) Angstrom)
      None false false
    = Raise (Crisp.not_all_valid "IQUVI").
Proof.
  split; [|split].
  - destruct (stokes_acceptance profiles (mkArray [4; 11] "profiles") ""
                (mkQuantity (Vector [8542; 8543]) Angstrom) None false false None eq_refl)
      as [Hplot _].
    destruct Hplot as [_ H2]; [eexists; reflexivity | eexists; reflexivity|].
    apply (H2 eq_refl). right. split; [simpl; lia | constructor].
  - destruct (stokes_acceptance profiles (mkArray [4; 11] "profiles") "II"
                (mkQuantity (Vector [8542; 8543]) Angstrom) None false false None eq_refl)
      as [Hplot _].
    destruct Hplot as [_ H2]; [eexists; reflexivity | eexists; reflexivity|].
    apply (H2 eq_refl). right. split; [simpl; lia|].
    assert (HI : "I" ∈ Crisp.stokes_components) by (apply elem_of_cons; left; reflexivity).
    apply Forall_cons; split; [exact HI|]. apply Forall_cons; split; [exact HI | constructor].
  - reflexivity.
Defined.
End StokesAcceptanceSamples.
